(** * Sparkle coverage driver: a shallow embedding of [tools/run_coverage.py]

    The script runs the unit tests under LLVM coverage instrumentation,
    merges the raw profiles, exports a summary, writes a text report,
    optionally renders an HTML report and enforces a line-coverage
    threshold.  It is a sequence of file-system operations and external
    processes, so the embedding is a state-and-exception monad over a
    world made of a file system and a chronological event log; whatever the
    script does not define itself (the operating system, the external
    tools, [json.loads], [shutil.which]) is a field of a [Host] record.

    [main] is cut into its consecutive stages ([run_tests], [merge_stage],
    [measure], [publish], [threshold_gate]), each marked with the lines of
    the source it embeds, so that a property can speak of a run that got
    through some of them.  The parsing of the command line is argparse's:
    [Args] is the namespace [_parse_args] returns, [main] is the run from
    there on, and [script] is the whole process, with what the parsing gave
    as its input.

    Conventions.
    - A Python [str] is a Rocq [string]; each character stands for the code
      point of the same number (0..255).
    - A Python [float] is an IEEE 754 binary64 value, [spec_float] of the
      Standard Library with [prec = 53] and [emax = 1024].
    - A resolved [pathlib.Path] is the list of its components below the
      root (POSIX flavour, no symbolic links, text files written without
      newline translation). *)

From Stdlib Require Import ZArith Ascii String List Bool Lia.
From Stdlib Require Import Floats.SpecFloat.
From Stdlib Require Import Numbers.DecimalString Numbers.DecimalPos.
From stdpp Require Import gmap strings list fin_maps.
Import ListNotations.

Open Scope string_scope.
Open Scope Z_scope.
Open Scope list_scope.

(** ** Python strings *)

Module PyStr.

(** [str.isspace] on one character, restricted to code points below 256:
    TAB..CR, FS..US, SPACE, NEL (0x85) and NBSP (0xA0). *)
Definition isspace (c : ascii) : bool :=
  let n := N_of_ascii c in
  ((9 <=? n) && (n <=? 13) || (28 <=? n) && (n <=? 32)
   || (n =? 133) || (n =? 160))%N.

Fixpoint lstrip (s : string) : string :=
  match s with
  | EmptyString => EmptyString
  | String c s' => if isspace c then lstrip s' else s
  end.

Fixpoint rstrip (s : string) : string :=
  match s with
  | EmptyString => EmptyString
  | String c s' =>
      match rstrip s' with
      | EmptyString => if isspace c then EmptyString else String c EmptyString
      | r => String c r
      end
  end.

(** [s.strip()] *)
Definition strip (s : string) : string := rstrip (lstrip s).

(** [needle in s] (substring test) *)
Fixpoint str_in (needle s : string) : bool :=
  String.prefix needle s
  || match s with
     | EmptyString => false
     | String _ s' => str_in needle s'
     end.

(** truth value of a string: [bool(s)] *)
Definition truthy (s : string) : bool :=
  match s with EmptyString => false | _ => true end.

(** [sep.join(l)] *)
Definition join (sep : string) (l : list string) : string :=
  String.concat sep l.

(** [fnmatch] for the wildcards [*] and [?] (no bracket sets; the one
    pattern of the script, [sparkle-*.profraw], has none). *)
Fixpoint fnmatch (pat s : string) : bool :=
  match pat with
  | EmptyString => negb (truthy s)
  | String "*" pat' =>
      (fix star (t : string) : bool :=
         fnmatch pat' t
         || match t with
            | EmptyString => false
            | String _ t' => star t'
            end) s
  | String "?" pat' =>
      match s with
      | EmptyString => false
      | String _ s' => fnmatch pat' s'
      end
  | String c pat' =>
      match s with
      | EmptyString => false
      | String c' s' => Ascii.eqb c c' && fnmatch pat' s'
      end
  end.

(** [s.encode("utf-8")], the bytes again as a string *)
Definition encode_utf8_char (c : ascii) : string :=
  let n := N_of_ascii c in
  if (n <? 128)%N then String c EmptyString
  else String (ascii_of_N (192 + n / 64))
         (String (ascii_of_N (128 + n mod 64)) EmptyString).

Fixpoint encode_utf8 (s : string) : string :=
  match s with
  | EmptyString => EmptyString
  | String c s' => encode_utf8_char c +:+ encode_utf8 s'
  end.

(** The lines of a text: the pieces that end at a line feed, and the
    rest after the last one when it is not empty. [cur] is the piece
    being read. *)
Fixpoint lines_from (s cur : string) : list string :=
  match s with
  | EmptyString => if truthy cur then [cur] else []
  | String c s' =>
      if Ascii.eqb c "010" then cur :: lines_from s' EmptyString
      else lines_from s' (cur +:+ String c EmptyString)
  end.

Definition lines_of (s : string) : list string := lines_from s EmptyString.

End PyStr.

(** ** Python floats *)

Module PyFloat.

Abbreviation float := spec_float.

Definition prec : Z := 53.
Definition emax : Z := 1024.

Definition of_Z (z : Z) : float := binary_normalize prec emax z 0 false.

(** The float nearest to the decimal [num / 10^k]: what the Python
    reader makes of a literal, for [num] and [10^k] below 2^53. *)
Definition literal (num : Z) (k : Z) : float :=
  SFdiv prec emax (of_Z num) (of_Z (10 ^ k)).

Definition zero : float := S754_zero false.
(** [1e-6] = 0x1.0c6f7a0b5ed8dp-20 *)
Definition eps : float := S754_finite false 4722366482869645 (-72).

Definition add (x y : float) : float := SFadd prec emax x y.
Definition lt (x y : float) : bool := SFltb x y.
Definition gt (x y : float) : bool := SFltb y x.
Definition le (x y : float) : bool := SFleb x y.

(** Nearest integer to [n / d], ties to even ([0 < d]). *)
Definition div_half_even (n d : Z) : Z :=
  let q := n / d in
  match (2 * (n mod d) ?= d) with
  | Lt => q
  | Gt => q + 1
  | Eq => if Z.even q then q else q + 1
  end.

(** [|x| * 100] rounded to the nearest integer, ties to even, for the
    finite value [m * 2^e]. *)
Definition hundredths (m : positive) (e : Z) : Z :=
  if 0 <=? e then Z.pos m * 2 ^ e * 100
  else div_half_even (Z.pos m * 100) (2 ^ (- e)).

Definition digit (d : Z) : ascii := ascii_of_N (48 + Z.to_N d).

(** decimal digits of a natural number, no sign, ["0"] for zero *)
Definition dec (n : Z) : string := NilEmpty.string_of_uint (N.to_uint (Z.to_N n)).

Definition sign (s : bool) : string := if s then "-" else "".

(** [math.isfinite] *)
Definition is_finite (x : float) : bool :=
  match x with
  | S754_zero _ | S754_finite _ _ _ => true
  | S754_infinity _ | S754_nan => false
  end.

(** [format(x, ".2f")]: correctly rounded, ties to even on the exact
    binary value; the sign is kept even when the digits are all zero. *)
Definition fmt2 (x : float) : string :=
  match x with
  | S754_nan => "nan"
  | S754_infinity s => sign s +:+ "inf"
  | S754_zero s => sign s +:+ "0.00"
  | S754_finite s m e =>
      let n := hundredths m e in
      sign s +:+ dec (n / 100) +:+ "."
      +:+ String (digit (n mod 100 / 10)) (String (digit (n mod 10)) "")
  end.

End PyFloat.

(** ** Shapes of text *)

Definition is_digit (c : ascii) : bool :=
  ((48 <=? N_of_ascii c) && (N_of_ascii c <=? 57))%N.

(** an ASCII character other than the line feed *)
Definition plain_char (c : ascii) : bool :=
  ((N_of_ascii c <? 128) && negb (N_of_ascii c =? 10))%N.

Fixpoint all_chars (p : ascii -> bool) (s : string) : bool :=
  match s with
  | EmptyString => true
  | String c s' => p c && all_chars p s'
  end.

(** an optional minus sign, at least one digit, a point, two digits *)
Definition two_decimals (s : string) : Prop :=
  exists sg ip d1 d2,
    s = sg +:+ ip +:+ "." +:+ String d1 (String d2 "")
    /\ (sg = "" \/ sg = "-")
    /\ ip <> ""
    /\ all_chars is_digit ip = true
    /\ is_digit d1 = true /\ is_digit d2 = true.

(** ** Exceptions and results *)

Inductive exn :=
| RuntimeError (msg : string)
| CalledProcessError (returncode : Z) (cmd : list string)
                     (output stderr : option string)
| OSError (msg : string)
| JSONDecodeError
| KeyError (key : string)
| IndexError
| TypeError
| ValueError
| OverflowError.

Inductive result (A : Type) :=
| Return (a : A)
| Raise (e : exn).
Arguments Return {A} a.
Arguments Raise {A} e.

(** ** Values produced by [json.loads] *)

Module Json.

#[warnings="-register-all"]
Inductive value :=
| Null
| Bool (b : bool)
| Int (z : Z)
| Float (f : PyFloat.float)
| Str (s : string)
| List (l : list value)
| Dict (d : list (string * value)).

Fixpoint assoc (k : string) (d : list (string * value)) : option value :=
  match d with
  | [] => None
  | (k', v) :: d' => if String.eqb k k' then Some v else assoc k d'
  end.

(** [v[k]] for a string key *)
Definition getitem_str (v : value) (k : string) : result value :=
  match v with
  | Dict d =>
      match assoc k d with
      | Some x => Return x
      | None => Raise (KeyError k)
      end
  | _ => Raise TypeError
  end.

(** [v[0]] *)
Definition getitem_0 (v : value) : result value :=
  match v with
  | List (x :: _) => Return x
  | List [] => Raise IndexError
  | Str (String c _) => Return (Str (String c ""))
  | Str EmptyString => Raise IndexError
  | Dict _ => Raise (KeyError "0")
  | _ => Raise TypeError
  end.

(** [float(v)]; [parse] stands for [float] on a string. *)
Definition to_float (parse : string -> option PyFloat.float) (v : value)
  : result PyFloat.float :=
  match v with
  | Float f => Return f
  | Int z =>
      match PyFloat.of_Z z with
      | S754_infinity _ | S754_nan => Raise OverflowError
      | f => Return f
      end
  | Bool b => Return (PyFloat.of_Z (if b then 1 else 0))
  | Str s =>
      match parse s with
      | Some f => Return f
      | None => Raise ValueError
      end
  | Null | List _ | Dict _ => Raise TypeError
  end.

End Json.

(** ** The file system *)

Module OS.

Abbreviation path := (list string).

Inductive node :=
| File (content : string)       (* the bytes of a regular file *)
| Dir.

Abbreviation tree := (gmap (list string) node).
Abbreviation environ := (gmap string string).

(** [str(p)] *)
Definition str_of_path (p : path) : string := "/" +:+ PyStr.join "/" p.
(** [p.parent], [p.name], [d / n] *)
Definition parent (p : path) : path := removelast p.
Definition name (p : path) : string := List.last p "".
Definition child (d : path) (n : string) : path := d ++ [n].

Definition lookup_node (t : tree) (p : path) : option node :=
  match p with
  | [] => Some Dir
  | _ => t !! p
  end.

Definition exists_ (t : tree) (p : path) : bool :=
  match lookup_node t p with Some _ => true | None => false end.

Definition is_dir (t : tree) (p : path) : bool :=
  match lookup_node t p with Some Dir => true | _ => false end.

(** the entries directly below [d] *)
Definition listdir (t : tree) (d : path) : list path :=
  List.filter (fun q => negb (bool_decide (q = [])) && bool_decide (parent q = d))
              (map_to_list t).*1.

(** [d.glob(pat)] for a pattern of one component *)
Definition glob (t : tree) (d : path) (pat : string) : list path :=
  if is_dir t d
  then List.filter (fun q => PyStr.fnmatch pat (name q)) (listdir t d)
  else [].

(** The operations that change the file system. *)
Inductive fs_op :=
| OpMkdir (p : path)                 (* p.mkdir(parents=True, exist_ok=True) *)
| OpUnlink (p : path)                (* p.unlink() *)
| OpRmtree (p : path)                (* shutil.rmtree(p) *)
| OpWriteText (p : path) (data : string)
                                     (* p.write_text(data, encoding="utf-8") *)
| OpCopytree (src dst : path)        (* shutil.copytree(src, dst) *)
| OpCopy2 (src dst : path).          (* shutil.copy2(src, dst) *)

Fixpoint mkdir_from (t : tree) (above : path) (todo : list string)
  : string + tree :=
  match todo with
  | [] => inr t
  | n :: todo' =>
      let q := above ++ [n] in
      match t !! q with
      | Some Dir => mkdir_from t q todo'
      | Some (File _) => inl "File exists"
      | None => mkdir_from (<[q := Dir]> t) q todo'
      end
  end.

Definition mkdir_p (t : tree) (p : path) : string + tree := mkdir_from t [] p.

Definition unlink (t : tree) (p : path) : string + tree :=
  match lookup_node t p with
  | Some (File _) => inr (delete p t)
  | Some Dir => inl "Is a directory"
  | None => inl "No such file or directory"
  end.

Definition rmtree (t : tree) (p : path) : string + tree :=
  match lookup_node t p with
  | Some Dir => inr (filter (fun kv => ¬ p `prefix_of` kv.1) t)
  | Some (File _) => inl "Not a directory"
  | None => inl "No such file or directory"
  end.

(** opening [p] for writing and storing the bytes [content] *)
Definition write_bytes (t : tree) (p : path) (content : string) : string + tree :=
  match p with
  | [] => inl "Is a directory"
  | _ =>
      if is_dir t (parent p)
      then match t !! p with
           | Some Dir => inl "Is a directory"
           | _ => inr (<[p := File content]> t)
           end
      else inl "No such file or directory"
  end.

Definition write_text (t : tree) (p : path) (data : string) : string + tree :=
  write_bytes t p (PyStr.encode_utf8 data).

(** the entries strictly below [src], re-rooted at [dst] and added to [base] *)
Definition graft (t : tree) (src dst : path) (base : tree) : tree :=
  fold_right
    (fun (kv : path * node) acc =>
       if bool_decide (src `prefix_of` kv.1 ∧ kv.1 ≠ src)
       then <[dst ++ drop (length src) kv.1 := kv.2]> acc
       else acc)
    base (map_to_list t).

Definition copytree (t : tree) (src dst : path) : string + tree :=
  if is_dir t src
  then if exists_ t dst then inl "File exists"
       else match mkdir_p t dst with
            | inr t' => inr (graft t src dst t')
            | inl msg => inl msg
            end
  else inl "Not a directory".

Definition copy2 (t : tree) (src dst : path) : string + tree :=
  match lookup_node t src with
  | Some (File data) =>
      write_bytes t (if is_dir t dst then child dst (name src) else dst) data
  | Some Dir => inl "Is a directory"
  | None => inl "No such file or directory"
  end.

Definition apply_op (op : fs_op) (t : tree) : string + tree :=
  match op with
  | OpMkdir p => mkdir_p t p
  | OpUnlink p => unlink t p
  | OpRmtree p => rmtree t p
  | OpWriteText p data => write_text t p data
  | OpCopytree src dst => copytree t src dst
  | OpCopy2 src dst => copy2 t src dst
  end.

End OS.

(** ** The world, the host and the monad of the script *)

Import OS.

(** What one external process did: it ran to an exit code, with the text
    it wrote to its two streams, or it could not be started. *)
Inductive outcome :=
| Exited (returncode : Z) (stdout stderr : string)
| NotStarted (msg : string).

(** Everything the script takes from outside itself. *)
Record Host := {
  (** [os.environ] *)
  os_environ : environ;
  (** [Path(s).resolve()] *)
  resolve : string -> path;
  (** [shutil.which] *)
  which : tree -> string -> option string;
  (** the operating system may refuse an operation (lock, permissions) *)
  refuses : fs_op -> tree -> option string;
  (** running a command in a directory with an environment *)
  spawn : list string -> option path -> environ -> tree -> outcome * tree;
  (** [json.loads]; [None] is [JSONDecodeError] *)
  json_loads : string -> option Json.value;
  (** [float] on a string; [None] is [ValueError] *)
  float_of_str : string -> option PyFloat.float
}.

Inductive event :=
| Stdout (text : string)        (* print(text) *)
| Stderr (text : string)        (* print(text, file=sys.stderr) *)
| Exec (command : list string) (cwd : option path) (env : option environ)
       (capture_output : bool)  (* subprocess.run(...); what the child
                                   writes to inherited streams is its own *)
| Fs (op : fs_op).              (* a file-system operation is attempted *)

Record World := {
  fs : tree;
  log : list event
}.

Definition M (A : Type) : Type := World -> result A * World.

Definition ret {A} (a : A) : M A := fun w => (Return a, w).

Definition raise {A} (e : exn) : M A := fun w => (Raise e, w).

Definition bind {A B} (m : M A) (k : A -> M B) : M B :=
  fun w =>
    match m w with
    | (Return a, w') => k a w'
    | (Raise e, w') => (Raise e, w')
    end.

Declare Scope run_scope.
Delimit Scope run_scope with run.
Notation "x <- m ;; k" := (bind m (fun x => k))
  (at level 100, m at next level, right associativity) : run_scope.
Notation "m ;; k" := (bind m (fun _ => k))
  (at level 100, right associativity) : run_scope.
Open Scope run_scope.

(** [try: m except <the exceptions h accepts>: h e] *)
Definition try_except {A} (m : M A) (h : exn -> option (M A)) : M A :=
  fun w =>
    match m w with
    | (Raise e, w') =>
        match h e with
        | Some k => k w'
        | None => (Raise e, w')
        end
    | r => r
    end.

(** [for x in l: body x] *)
Fixpoint for_each {A} (l : list A) (body : A -> M unit) : M unit :=
  match l with
  | [] => ret tt
  | x :: l' => body x ;; for_each l' body
  end.

Definition emit (e : event) (w : World) : World :=
  {| fs := fs w; log := log w ++ [e] |}.

Definition print (text : string) : M unit :=
  fun w => (Return tt, emit (Stdout text) w).

Definition print_err (text : string) : M unit :=
  fun w => (Return tt, emit (Stderr text) w).

(** reading the file system *)
Definition ask {A} (f : tree -> A) : M A := fun w => (Return (f (fs w)), w).

(** [subprocess.CompletedProcess] *)
Record completed := {
  returncode : Z;
  stdout : option string;
  stderr : option string
}.

(** The arguments after [_parse_args] ([argparse.Namespace]). *)
Record Args := {
  mode : string;
  build_dir : string;
  config : string;
  threshold : PyFloat.float;
  output : string;
  html_dir : option string;
  docs_dir : option string;
  project_name : string;
  binary : string;
  library : list string;
  source_root : string;
  llvm_profdata : string;
  llvm_cov : string;
  ignore_regex : list string
}.

(** [sys.exit(main())]: the integer returned, or 1 after an uncaught
    exception. *)
Definition exit_status (r : result Z) : Z :=
  match r with
  | Return n => n
  | Raise _ => 1
  end.

(** ** The script *)

Definition nl : string := String "010" "".

(** [_write_report], lines 151-156: the lines of the report *)
Definition report_lines (line_pct func_pct region_pct : PyFloat.float)
  : list string :=
  [ "Sparkle coverage summary";
    "Line coverage    : " +:+ PyFloat.fmt2 line_pct +:+ "%";
    "Function coverage: " +:+ PyFloat.fmt2 func_pct +:+ "%";
    "Region coverage  : " +:+ PyFloat.fmt2 region_pct +:+ "%" ].

(** [_write_report], line 157: the text handed to [write_text] *)
Definition report_text (line_pct func_pct region_pct : PyFloat.float)
  : string :=
  PyStr.join nl (report_lines line_pct func_pct region_pct) +:+ nl.

(** [_run_ctests], lines 59-64: the command line of the test runner *)
Definition ctest_command (ctest config : string) : list string :=
  let command := [ctest; "--output-on-failure"] in
  let cfg := PyStr.strip config in
  let cfg := if PyStr.str_in "<" cfg || PyStr.str_in ">" cfg then "" else cfg in
  if PyStr.truthy cfg && negb (String.eqb cfg ".")
  then command ++ ["-C"; cfg]
  else command.

(** [_clean_existing_profiles], line 51: the warning *)
Definition unlink_warning (file : path) (msg : string) : string :=
  "[coverage] Warning: unable to remove " +:+ str_of_path file +:+ ": " +:+ msg.

(** [main], lines 186 and 232: two more messages *)
Definition no_profiles : string :=
  "[coverage] No .profraw files were generated; check instrumentation settings.".

Definition docs_without_html : string :=
  "[coverage] docs-dir specified without html-dir; skipping docs copy.".

(** [main], line 237: the message of the threshold gate *)
Definition violation (line_pct threshold : PyFloat.float) : string :=
  "[coverage] Coverage threshold violation: " +:+ PyFloat.fmt2 line_pct
  +:+ "% < required " +:+ PyFloat.fmt2 threshold +:+ "%".

(** lines 85-89 and 132-136: the [--object] and [--ignore-filename-regex]
    options *)
Definition object_options (libraries : list path) : list string :=
  flat_map (fun library => ["--object"; str_of_path library]) libraries.

Definition ignore_options (ignore_patterns : list string) : list string :=
  flat_map (fun pattern => ["--ignore-filename-regex"; pattern]) ignore_patterns.

(** [_export_summary], lines 77-89: the command line of the export *)
Definition export_command (llvm_cov binary : path) (libraries : list path)
    (profdata : path) (ignore_patterns : list string) : list string :=
  let command :=
    [ str_of_path llvm_cov; "export"; "--summary-only"; str_of_path binary;
      "--instr-profile=" +:+ str_of_path profdata ] in
  let command := command ++ object_options libraries in
  command ++ ignore_options ignore_patterns.

(** [_generate_html_report], lines 118-136: the command line of the
    HTML report *)
Definition show_command (llvm_cov binary : path) (libraries : list path)
    (profdata : path) (ignore_patterns : list string) (output_dir : path)
    (project_name : string) : list string :=
  let command :=
    [ str_of_path llvm_cov; "show"; str_of_path binary;
      "--instr-profile=" +:+ str_of_path profdata;
      "--format=html";
      "--output-dir=" +:+ str_of_path output_dir;
      "--project-title=" +:+ project_name +:+ " Coverage";
      "--show-regions"; "--show-region-summary"; "--show-branch-summary";
      "--show-directory-coverage" ] in
  let command := command ++ object_options libraries in
  command ++ ignore_options ignore_patterns.


(** The events of removing stale profiles, and of the whole test stage. *)
Definition cleanup_event (e : event) : Prop :=
  match e with
  | Fs (OpUnlink _) | Stderr _ => True
  | _ => False
  end.

Definition test_stage_event (config : string) (e : event) : Prop :=
  match e with
  | Fs (OpMkdir _) | Fs (OpUnlink _) | Stdout _ | Stderr _ => True
  | Exec command _ _ _ => exists ctest, command = ctest_command ctest config
  | Fs _ => False
  end.

(** [main], line 235: the condition of the threshold gate *)
Definition below_threshold (threshold line_pct : PyFloat.float) : bool :=
  PyFloat.gt threshold PyFloat.zero
  && PyFloat.lt (PyFloat.add line_pct PyFloat.eps) threshold.

Section RunCoverage.

Context (host : Host).

Definition lift {A} (r : result A) : M A := fun w => (r, w).

(** One operation on the file system: it is logged, then the host may
    refuse it, else it is carried out or fails on the state of the tree. *)
Definition fs_do (op : fs_op) : M unit :=
  fun w =>
    let w1 := emit (Fs op) w in
    match refuses host op (fs w) with
    | Some msg => (Raise (OSError msg), w1)
    | None =>
        match apply_op op (fs w) with
        | inl msg => (Raise (OSError msg), w1)
        | inr t => (Return tt, {| fs := t; log := log w1 |})
        end
    end.

(** [p.iterdir()] *)
Definition iterdir (d : path) : M (list path) :=
  fun w =>
    if is_dir (fs w) d then (Return (listdir (fs w) d), w)
    else (Raise (OSError "Not a directory"), w).

(** [subprocess.run(command, cwd=cwd, env=env, check=True,
    capture_output=capture)]; without [env] the child inherits
    [os.environ]. *)
Definition subprocess_run (command : list string) (cwd : option path)
    (env : option environ) (capture : bool) : M completed :=
  fun w =>
    let w1 := emit (Exec command cwd env capture) w in
    let '(o, t) := spawn host command cwd (default (os_environ host) env) (fs w) in
    let w2 := {| fs := t; log := log w1 |} in
    match o with
    | NotStarted msg => (Raise (OSError msg), w2)
    | Exited rc out err =>
        let out' := if capture then Some out else None in
        let err' := if capture then Some err else None in
        if rc =? 0
        then (Return {| returncode := rc; stdout := out'; stderr := err' |}, w2)
        else (Raise (CalledProcessError rc command out' err'), w2)
    end.

(** lines 40-43 *)
Definition _run (command : list string) (cwd : option path)
    (env : option environ) : M completed :=
  print ("[coverage] " +:+ PyStr.join " " command) ;;
  subprocess_run command cwd env false.

(** lines 48-51: remove one stale profile, or warn *)
Definition remove_profile (file : path) : M unit :=
  try_except (fs_do (OpUnlink file))
    (fun exc =>
       match exc with
       | OSError msg => Some (print_err (unlink_warning file msg))
       | _ => None
       end).

(** lines 46-51 *)
Definition _clean_existing_profiles (profile_dir : path) (pattern : string)
  : M unit :=
  files <- ask (fun t => glob t profile_dir pattern) ;;
  for_each files remove_profile.

(** lines 54-66 *)
Definition _run_ctests (build_dir : path) (config : string) (env : environ)
  : M unit :=
  ctest <- ask (fun t => which host t "ctest") ;;
  match ctest with
  | Some ctest =>
      if PyStr.truthy ctest
      then _run (ctest_command ctest config) (Some build_dir) (Some env) ;;
           ret tt
      else raise (RuntimeError "ctest executable not found in PATH.")
  | None => raise (RuntimeError "ctest executable not found in PATH.")
  end.

(** lines 69-73 *)
Definition _merge_profiles (llvm_profdata : path) (profraw_files : list path)
    (output : path) : M unit :=
  let command := [str_of_path llvm_profdata; "merge"; "-sparse"] in
  let command := command ++ map str_of_path profraw_files in
  let command := command ++ ["-o"; str_of_path output] in
  _run command None None ;;
  ret tt.

(** lines 92-100 and 139-147: run a tool with its streams captured; when
    it fails, say so, echo what it wrote and raise again *)
Definition run_captured (command : list string) (failed : string)
  : M completed :=
  try_except (subprocess_run command None None true)
    (fun exc =>
       match exc with
       | CalledProcessError _ _ out err =>
           Some (print_err failed ;;
                 (if PyStr.truthy (default "" out)
                  then print_err (default "" out) else ret tt) ;;
                 (if PyStr.truthy (default "" err)
                  then print_err (default "" err) else ret tt) ;;
                 raise exc)
       | _ => None
       end).

(** lines 76-102 *)
Definition _export_summary (llvm_cov binary : path) (libraries : list path)
    (profdata : path) (ignore_patterns : list string) : M Json.value :=
  let command :=
    export_command llvm_cov binary libraries profdata ignore_patterns in
  print ("[coverage] " +:+ PyStr.join " " command) ;;
  done <- run_captured command "[coverage] llvm-cov export failed." ;;
  match json_loads host (default "" (stdout done)) with
  | Some v => ret v
  | None => raise JSONDecodeError
  end.

(** lines 105-147 *)
Definition _generate_html_report (llvm_cov binary : path)
    (libraries : list path) (profdata : path) (ignore_patterns : list string)
    (output_dir : path) (project_name : string) : M unit :=
  present <- ask (fun t => exists_ t output_dir) ;;
  (if present : bool then fs_do (OpRmtree output_dir) else ret tt) ;;
  fs_do (OpMkdir output_dir) ;;
  let command :=
    show_command llvm_cov binary libraries profdata ignore_patterns
                 output_dir project_name in
  print ("[coverage] " +:+ PyStr.join " " command) ;;
  run_captured command "[coverage] llvm-cov show failed." ;;
  ret tt.

(** lines 150-157 *)
Definition _write_report (output_path : path)
    (line_pct func_pct region_pct : PyFloat.float) : M unit :=
  fs_do (OpWriteText output_path (report_text line_pct func_pct region_pct)).

(** *** [main] *)

(** lines 163-173: the paths [main] resolves before it does anything *)
Definition coverage_dir (args : Args) : path :=
  parent (resolve host (output args)).

Definition libraries (args : Args) : list path :=
  map (resolve host) (library args).

(** [Path(s).resolve() if s else None] *)
Definition optional_dir (s : option string) : option path :=
  match s with
  | Some s => if PyStr.truthy s then Some (resolve host s) else None
  | None => None
  end.

(** line 175 *)
Definition prof_pattern (args : Args) : path :=
  child (coverage_dir args) "sparkle-%p.profraw".

(** line 189 *)
Definition profdata_path (args : Args) : path :=
  child (coverage_dir args) "sparkle.profdata".

(** lines 178-180 *)
Definition test_env (args : Args) : environ :=
  <["SPARKLE_SOURCE_ROOT" := str_of_path (resolve host (source_root args))]>
    (<["LLVM_PROFILE_FILE" := str_of_path (prof_pattern args)]>
       (os_environ host)).

(** lines 166-182: create the coverage directory, remove stale raw
    profiles, run the tests *)
Definition run_tests (args : Args) : M unit :=
  fs_do (OpMkdir (coverage_dir args)) ;;
  _clean_existing_profiles (coverage_dir args) "sparkle-*.profraw" ;;
  _run_ctests (resolve host (build_dir args)) (config args) (test_env args).

(** lines 197-200: the three percentages of the summary *)
Definition percent (data_root : Json.value) (key : string)
  : result PyFloat.float :=
  match Json.getitem_str data_root key with
  | Return entry =>
      match Json.getitem_str entry "percent" with
      | Return v => Json.to_float (float_of_str host) v
      | Raise e => Raise e
      end
  | Raise e => Raise e
  end.

Definition totals (summary : Json.value) : result Json.value :=
  match Json.getitem_str summary "data" with
  | Return data =>
      match Json.getitem_0 data with
      | Return first => Json.getitem_str first "totals"
      | Raise e => Raise e
      end
  | Raise e => Raise e
  end.

(** lines 189-193: drop the old profile database, merge the raw
    profiles *)
Definition merge_stage (args : Args) (profraw_files : list path) : M unit :=
  present <- ask (fun t => exists_ t (profdata_path args)) ;;
  (if present : bool then fs_do (OpUnlink (profdata_path args)) else ret tt) ;;
  _merge_profiles (resolve host (llvm_profdata args)) profraw_files
                  (profdata_path args).

(** lines 195-204: export the summary, read the percentages and print
    them *)
Definition measure (args : Args)
  : M (PyFloat.float * PyFloat.float * PyFloat.float) :=
  summary <- _export_summary (resolve host (llvm_cov args))
               (resolve host (binary args)) (libraries args)
               (profdata_path args) (ignore_regex args) ;;
  data_root <- lift (totals summary) ;;
  line_pct <- lift (percent data_root "lines") ;;
  func_pct <- lift (percent data_root "functions") ;;
  region_pct <- lift (percent data_root "regions") ;;
  print ("[coverage] Line coverage    : " +:+ PyFloat.fmt2 line_pct +:+ "%") ;;
  print ("[coverage] Function coverage: " +:+ PyFloat.fmt2 func_pct +:+ "%") ;;
  print ("[coverage] Region coverage  : " +:+ PyFloat.fmt2 region_pct +:+ "%") ;;
  ret (line_pct, func_pct, region_pct).

(** lines 221-230: mirror the HTML report into the docs directory *)
Definition copy_docs (html_dir docs_dir : path) : M unit :=
  present <- ask (fun t => exists_ t docs_dir) ;;
  (if present : bool then fs_do (OpRmtree docs_dir) else ret tt) ;;
  fs_do (OpMkdir docs_dir) ;;
  items <- iterdir html_dir ;;
  for_each items (fun item =>
    let target := child docs_dir (name item) in
    is_directory <- ask (fun t => is_dir t item) ;;
    if is_directory : bool
    then fs_do (OpCopytree item target)
    else fs_do (OpCopy2 item target)) ;;
  print ("[coverage] Documentation copy stored at: " +:+ str_of_path docs_dir).

(** lines 208-232: the optional HTML report and its optional copy *)
Definition render (args : Args) : M unit :=
  match optional_dir (html_dir args) with
  | Some html_dir =>
      _generate_html_report (resolve host (llvm_cov args))
        (resolve host (binary args)) (libraries args) (profdata_path args)
        (ignore_regex args) html_dir (project_name args) ;;
      print ("[coverage] HTML report generated at: " +:+ str_of_path html_dir) ;;
      match optional_dir (docs_dir args) with
      | Some docs_dir => copy_docs html_dir docs_dir
      | None => ret tt
      end
  | None =>
      match optional_dir (docs_dir args) with
      | Some _ => print_err docs_without_html
      | None => ret tt
      end
  end.

(** lines 206-232: write the text report, then render.  Line 206 hands
    [_write_report] the output path as it was given; the file that names
    is the one at the resolved path. *)
Definition publish (args : Args)
    (line_pct func_pct region_pct : PyFloat.float) : M unit :=
  _write_report (resolve host (output args)) line_pct func_pct region_pct ;;
  render args.

(** lines 234-242 *)
Definition threshold_gate (args : Args) (line_pct : PyFloat.float) : M Z :=
  if below_threshold (threshold args) line_pct
  then print_err (violation line_pct (threshold args)) ;;
       ret 1
  else ret 0.

(** lines 163-242: [main], once [_parse_args] (line 161) has given
    [args] *)
Definition main (args : Args) : M Z :=
  run_tests args ;;
  profraw_files <- ask (fun t => glob t (coverage_dir args) "sparkle-*.profraw") ;;
  match profraw_files with
  | [] =>
      print_err no_profiles ;;
      ret 1
  | _ =>
      merge_stage args profraw_files ;;
      pcts <- measure args ;;
      let '(line_pct, func_pct, region_pct) := pcts in
      publish args line_pct func_pct region_pct ;;
      threshold_gate args line_pct
  end.

(** The run of [main] from [w] gets through the tests and the merge of
    the raw profiles, in world [w2]. *)
Definition merged (args : Args) (w w2 : World) : Prop :=
  exists w1,
    run_tests args w = (Return tt, w1)
    /\ glob (fs w1) (coverage_dir args) "sparkle-*.profraw" <> []
    /\ merge_stage args (glob (fs w1) (coverage_dir args) "sparkle-*.profraw") w1
       = (Return tt, w2).

(** It also gets through the export and reads the percentages, in
    world [w3]. *)
Definition measured (args : Args) (w : World)
    (line_pct func_pct region_pct : PyFloat.float) (w3 : World) : Prop :=
  exists w2,
    merged args w w2
    /\ measure args w2 = (Return (line_pct, func_pct, region_pct), w3).

End RunCoverage.

(** A computation that leaves the events already logged in place. *)
Definition appends {A} (m : M A) : Prop :=
  forall w r w', m w = (r, w') -> exists evs, log w' = log w ++ evs.

(** ** A concrete host, for running the script on examples *)

Module Demo.

(** the components of an absolute path written with slashes *)
Fixpoint components (s cur : string) : path :=
  match s with
  | EmptyString => if PyStr.truthy cur then [cur] else []
  | String "/" s' =>
      (if PyStr.truthy cur then [cur] else []) ++ components s' ""
  | String c s' => components s' (cur +:+ String c "")
  end.

Definition summary (line_pct : PyFloat.float) : Json.value :=
  Json.Dict
    [ ("data",
       Json.List
         [ Json.Dict
             [ ("totals",
                Json.Dict
                  [ ("lines", Json.Dict [("percent", Json.Float line_pct)]);
                    ("functions", Json.Dict [("percent", Json.Int 100)]);
                    ("regions", Json.Dict [("percent", Json.Float (PyFloat.literal 12345 3))]) ]) ]
         ]) ].

(** What the tools do on this host: [ctest] leaves the raw profiles
    [profiles] in /w/cov, [llvm-profdata merge] writes the profile
    database, [llvm-cov export] exits with [export_rc] and
    [llvm-cov show] writes one page and one directory. *)
Definition tools (profiles : list string) (export_rc : Z)
    (command : list string) (cwd : option path) (env : environ) (t : tree)
  : outcome * tree :=
  if String.eqb (nth 0 command "") "/usr/bin/ctest" then
    (Exited 0 "" "",
     fold_right (fun n acc => <[["w"; "cov"; n] := File "raw"]> acc) t profiles)
  else if String.eqb (nth 1 command "") "merge" then
    (Exited 0 "" "", <[["w"; "cov"; "sparkle.profdata"] := File "merged"]> t)
  else if String.eqb (nth 1 command "") "export" then
    (Exited export_rc "SUMMARY" "warning: 1 function mismatched", t)
  else if String.eqb (nth 1 command "") "show" then
    (Exited 0 "" "",
     <[["w"; "html"; "coverage"; "a.html"] := File "<html>a</html>"]>
       (<[["w"; "html"; "coverage"] := Dir]>
          (<[["w"; "html"; "index.html"] := File "<html></html>"]> t)))
  else (NotStarted "No such file or directory", t).

Definition host (profiles : list string) (export_rc : Z)
    (line_pct : PyFloat.float) : Host :=
  {| os_environ := {[ "PATH" := "/usr/bin" ]};
     resolve := fun s => components s "";
     which := fun _ n => if String.eqb n "ctest" then Some "/usr/bin/ctest" else None;
     refuses := fun op _ =>
       match op with
       | OpUnlink p =>
           if bool_decide (p = ["w"; "cov"; "sparkle-locked.profraw"])
           then Some "Permission denied" else None
       | _ => None
       end;
     spawn := tools profiles export_rc;
     json_loads := fun s =>
       if String.eqb s "SUMMARY" then Some (summary line_pct) else None;
     float_of_str := fun _ => None |}.

Definition args (config : string) (threshold : PyFloat.float)
    (html_dir docs_dir : option string) : Args :=
  {| mode := "llvm";
     build_dir := "/w/build";
     config := config;
     threshold := threshold;
     output := "/w/cov/coverage.txt";
     html_dir := html_dir;
     docs_dir := docs_dir;
     project_name := "Sparkle";
     binary := "/w/build/tests";
     library := ["/w/build/libsparkle.a"];
     source_root := "/w";
     llvm_profdata := "/usr/bin/llvm-profdata";
     llvm_cov := "/usr/bin/llvm-cov";
     ignore_regex := ["external/.*"] |}.

(** a work tree with two stale raw profiles, one of them locked, and an
    old report *)
Definition tree0 : tree :=
  list_to_map
    [ (["w"], Dir); (["w"; "build"], Dir); (["w"; "cov"], Dir);
      (["w"; "cov"; "sparkle-7.profraw"], File "stale");
      (["w"; "cov"; "sparkle-locked.profraw"], File "stale");
      (["w"; "cov"; "coverage.txt"], File "old report");
      (["w"; "cov"; "notes.txt"], File "keep") ].

Definition world0 : World := {| fs := tree0; log := [] |}.

(** a work tree whose one stale raw profile can be removed *)
Definition tree1 : tree :=
  list_to_map
    [ (["w"], Dir); (["w"; "build"], Dir); (["w"; "cov"], Dir);
      (["w"; "cov"; "sparkle-7.profraw"], File "stale");
      (["w"; "cov"; "coverage.txt"], File "old report") ].

Definition world1 : World := {| fs := tree1; log := [] |}.

(** the worlds a run from [world1] goes through: after the tests, after
    the merge, after the export *)
Definition tested (h : Host) (a : Args) : World := snd (run_tests h a world1).

Definition merged_world (h : Host) (a : Args) : World :=
  snd (merge_stage h a
         (glob (fs (tested h a)) (coverage_dir h a) "sparkle-*.profraw")
         (tested h a)).

Definition measured_world (h : Host) (a : Args) : World :=
  snd (measure h a (merged_world h a)).

End Demo.

(** ** Further pieces of [main] *)

(** The run of [main] from [w] created the coverage directory and removed
    the stale profiles (lines 166-176), in world [w1]. *)
Definition prepared (host : Host) (args : Args) (w w1 : World) : Prop :=
  exists w0,
    fs_do host (OpMkdir (coverage_dir host args)) w = (Return tt, w0)
    /\ _clean_existing_profiles host (coverage_dir host args)
         "sparkle-*.profraw" w0 = (Return tt, w1).

(** An event that is neither a process nor a write of text. *)
Definition quiet_event (e : event) : Prop :=
  match e with
  | Fs (OpMkdir _) | Fs (OpUnlink _) | Stderr _ => True
  | _ => False
  end.

(** lines 197-200 in one piece: the three percentages of a summary *)
Definition percentages (host : Host) (summary : Json.value)
  : result (PyFloat.float * PyFloat.float * PyFloat.float) :=
  match totals summary with
  | Return data_root =>
      match percent host data_root "lines" with
      | Return line_pct =>
          match percent host data_root "functions" with
          | Return func_pct =>
              match percent host data_root "regions" with
              | Return region_pct => Return (line_pct, func_pct, region_pct)
              | Raise e => Raise e
              end
          | Raise e => Raise e
          end
      | Raise e => Raise e
      end
  | Raise e => Raise e
  end.

(** lines 202-204: the three lines [main] prints *)
Definition coverage_lines (line_pct func_pct region_pct : PyFloat.float)
  : list event :=
  [ Stdout ("[coverage] Line coverage    : " +:+ PyFloat.fmt2 line_pct +:+ "%");
    Stdout ("[coverage] Function coverage: " +:+ PyFloat.fmt2 func_pct +:+ "%");
    Stdout ("[coverage] Region coverage  : " +:+ PyFloat.fmt2 region_pct +:+ "%") ].

(** Every entry of the tree lies in directories: each proper ancestor
    below the root is a directory of the tree. *)
Definition well_formed (t : tree) : Prop :=
  forall p q : path,
    p <> [] -> q <> [] -> is_Some (t !! (p ++ q)) -> t !! p = Some Dir.

(** [fnmatch]: the characters that do not stand for themselves *)
Definition wildcard (c : ascii) : bool :=
  Ascii.eqb c "*" || Ascii.eqb c "?".

(** lines 190-191: remove the old profile database when there is one *)
Definition clear_database (host : Host) (args : Args) : M unit :=
  present <- ask (fun t => exists_ t (profdata_path host args)) ;;
  if present : bool
  then fs_do host (OpUnlink (profdata_path host args))
  else ret tt.

(** [_merge_profiles], lines 70-72: the command line of the merge *)
Definition merge_command (llvm_profdata : path) (profraw_files : list path)
    (output : path) : list string :=
  [str_of_path llvm_profdata; "merge"; "-sparse"]
  ++ map str_of_path profraw_files ++ ["-o"; str_of_path output].

(** lines 114-116 and 221-223: remove the directory when it exists, then
    create it *)
Definition recreate_dir (host : Host) (d : path) : M unit :=
  present <- ask (fun t => exists_ t d) ;;
  (if present : bool then fs_do host (OpRmtree d) else ret tt) ;;
  fs_do host (OpMkdir d).

(** a host on which [json.loads] gives [parsed] for every text *)
Definition with_summary (h : Host) (parsed : option Json.value) : Host :=
  {| os_environ := os_environ h;
     resolve := resolve h;
     which := which h;
     refuses := refuses h;
     spawn := spawn h;
     json_loads := fun _ => parsed;
     float_of_str := float_of_str h |}.

(** lines 224-229: one turn of the loop that copies the HTML report *)
Definition copy_item (host : Host) (docs_dir item : path) : M unit :=
  let target := child docs_dir (name item) in
  is_directory <- ask (fun t => is_dir t item) ;;
  if is_directory : bool
  then fs_do host (OpCopytree item target)
  else fs_do host (OpCopy2 item target).

(** What the loop of [copy_docs] keeps true, [names] being the names of
    the entries already copied and [t0] the tree before the copy: the HTML
    directory is untouched, the docs directory holds the copied entries as
    they are in the HTML directory, and nothing else. *)
Definition mirrored (t0 : tree) (html_dir docs_dir : path)
    (names : string -> Prop) (t : tree) : Prop :=
  (forall q, html_dir `prefix_of` q -> t !! q = t0 !! q)
  /\ t !! docs_dir = Some Dir
  /\ (forall n rest, names n ->
         t !! (docs_dir ++ n :: rest) = t0 !! (html_dir ++ n :: rest))
  /\ (forall n rest, ~ names n -> t !! (docs_dir ++ n :: rest) = None).

(** [well_formed], as a test that can be run *)
Definition well_formed_b (t : tree) : bool :=
  forallb
    (fun kv : path * node =>
       forallb
         (fun i => match t !! take i kv.1 with Some Dir => true | _ => false end)
         (seq 1 (length kv.1 - 1)))
    (map_to_list t).

(** a host on which the command whose word number [i] is [word] ends as
    [o] and leaves the tree as it is *)
Definition with_tool (h : Host) (i : nat) (word : string) (o : outcome) : Host :=
  {| os_environ := os_environ h;
     resolve := resolve h;
     which := which h;
     refuses := refuses h;
     spawn := fun command cwd env t =>
       if String.eqb (nth i command "") word then (o, t)
       else spawn h command cwd env t;
     json_loads := json_loads h;
     float_of_str := float_of_str h |}.

(** a host without the test runner on its search path *)
Definition without_ctest (h : Host) : Host :=
  {| os_environ := os_environ h;
     resolve := resolve h;
     which := fun _ _ => None;
     refuses := refuses h;
     spawn := spawn h;
     json_loads := json_loads h;
     float_of_str := float_of_str h |}.

(** a work tree with an HTML report and an older copy of it *)
Definition tree2 : tree :=
  list_to_map
    [ (["w"], Dir); (["w"; "cov"], Dir);
      (["w"; "html"], Dir);
      (["w"; "html"; "index.html"], File "<html>new</html>");
      (["w"; "html"; "coverage"], Dir);
      (["w"; "html"; "coverage"; "a.html"], File "<html>a</html>");
      (["w"; "docs"], Dir);
      (["w"; "docs"; "index.html"], File "<html>old</html>");
      (["w"; "docs"; "gone.html"], File "<html>gone</html>") ].

(** lines 48-51, what one turn of the loop logs: the attempt to remove
    the file and, when it raised [OSError], the warning *)
Definition removal_events (file : path) (failure : option string) : list event :=
  Fs (OpUnlink file)
  :: match failure with
     | Some msg => [Stderr (unlink_warning file msg)]
     | None => []
     end.



(** * Properties *)

(** ** Examples of the string and float models *)

Example format_examples :
  PyFloat.fmt2 (PyFloat.literal 125 3) = "0.12"
  /\ PyFloat.fmt2 (PyFloat.literal 375 3) = "0.38"
  /\ PyFloat.fmt2 (PyFloat.literal 2675 3) = "2.67"
  /\ PyFloat.fmt2 (PyFloat.literal 99995 3) = "100.00"
  /\ PyFloat.fmt2 (SFopp (PyFloat.literal 1 3)) = "-0.00"
  /\ PyFloat.fmt2 (PyFloat.literal 15 3) = "0.01"
  /\ PyFloat.literal 1 6 = PyFloat.eps
  /\ PyStr.strip (" " +:+ String "009" "Debug  ") = "Debug"
  /\ PyStr.fnmatch "sparkle-*.profraw" "sparkle-12.profraw" = true
  /\ PyStr.fnmatch "sparkle-*.profraw" "sparkle-.profraw" = true
  /\ PyStr.fnmatch "sparkle-*.profraw" "sparkle.profraw" = false.
Proof. vm_compute. repeat split. Qed.

Example float_literals :
  PyFloat.literal 1 6 = PyFloat.eps
  /\ PyFloat.literal 850 1 = PyFloat.of_Z 85
  /\ PyFloat.literal 849999995 7 = S754_finite false 5981343219917068 (-46)
  /\ PyFloat.literal 8499 2 = S754_finite false 5980639567659663 (-46)
  /\ PyFloat.add (PyFloat.literal 849999995 7) PyFloat.eps
     = S754_finite false 5981343290285812 (-46).
Proof. vm_compute. repeat split. Qed.

(** ** Facts on strings *)

Lemma prefix_empty (s : string) : String.prefix "" s = true.
Proof. destruct s; reflexivity. Qed.

Lemma str_in_char_nil (c : ascii) : PyStr.str_in (String c "") "" = false.
Proof. reflexivity. Qed.

Lemma str_in_char_cons (c a : ascii) (s : string) :
  PyStr.str_in (String c "") (String a s)
  = Ascii.eqb c a || PyStr.str_in (String c "") s.
Proof.
  cbn [PyStr.str_in String.prefix].
  destruct (ascii_dec c a) as [->|Hne].
  - rewrite Ascii.eqb_refl, prefix_empty. reflexivity.
  - apply Ascii.eqb_neq in Hne. rewrite Hne. reflexivity.
Qed.

Lemma str_in_lstrip (c : ascii) (s : string) :
  PyStr.isspace c = false ->
  PyStr.str_in (String c "") (PyStr.lstrip s) = PyStr.str_in (String c "") s.
Proof.
  intros Hc. induction s as [|a s IH]; [reflexivity|].
  cbn [PyStr.lstrip]. destruct (PyStr.isspace a) eqn:Ha; [|reflexivity].
  rewrite IH, str_in_char_cons.
  destruct (Ascii.eqb_spec c a) as [->|_]; [congruence | reflexivity].
Qed.

Lemma str_in_rstrip (c : ascii) (s : string) :
  PyStr.isspace c = false ->
  PyStr.str_in (String c "") (PyStr.rstrip s) = PyStr.str_in (String c "") s.
Proof.
  intros Hc. induction s as [|a s IH]; [reflexivity|].
  cbn [PyStr.rstrip]. rewrite str_in_char_cons, <- IH.
  destruct (PyStr.rstrip s) as [|b r].
  - destruct (PyStr.isspace a) eqn:Ha.
    + destruct (Ascii.eqb_spec c a) as [->|_]; [congruence | reflexivity].
    + rewrite str_in_char_cons. reflexivity.
  - rewrite (str_in_char_cons c a). reflexivity.
Qed.

Lemma str_in_strip (c : ascii) (s : string) :
  PyStr.isspace c = false ->
  PyStr.str_in (String c "") (PyStr.strip s) = PyStr.str_in (String c "") s.
Proof.
  intros Hc. unfold PyStr.strip.
  rewrite str_in_rstrip, str_in_lstrip; auto.
Qed.

(** ** The command line of the test runner *)

Lemma ctest_command_cases (ctest config : string) :
  let cfg := PyStr.strip config in
  (ctest_command ctest config = [ctest; "--output-on-failure"]
   /\ (cfg = "" \/ cfg = "." \/ PyStr.str_in "<" cfg = true
       \/ PyStr.str_in ">" cfg = true))
  \/ (ctest_command ctest config = [ctest; "--output-on-failure"; "-C"; cfg]
      /\ cfg <> "" /\ cfg <> "."
      /\ PyStr.str_in "<" cfg = false /\ PyStr.str_in ">" cfg = false).
Proof.
  intros cfg. unfold ctest_command. fold cfg.
  destruct (PyStr.str_in "<" cfg) eqn:Hlt; cbn [orb].
  { left. split; [reflexivity | auto]. }
  destruct (PyStr.str_in ">" cfg) eqn:Hgt.
  { left. split; [reflexivity | auto]. }
  destruct cfg as [|a r] eqn:Hcfg.
  { left. split; [reflexivity | auto]. }
  cbn [PyStr.truthy andb].
  destruct (String.eqb_spec (String a r) ".") as [Heq|Hne].
  - left. split; [reflexivity | auto].
  - right. cbn [negb app]. repeat split; auto; discriminate.
Qed.

Lemma run_ctests_log (host : Host) (build_dir : path) (config : string)
    (env : environ) (w : World) (ctest : string) :
  which host (fs w) "ctest" = Some ctest ->
  PyStr.truthy ctest = true ->
  log (snd (_run_ctests host build_dir config env w))
  = log w ++ [ Stdout ("[coverage] " +:+ PyStr.join " " (ctest_command ctest config));
               Exec (ctest_command ctest config) (Some build_dir) (Some env) false ].
Proof.
  intros Hw Ht.
  unfold _run_ctests, _run, subprocess_run.
  cbv beta iota zeta delta [bind ask print ret emit]. cbn [fs log].
  rewrite Hw, Ht. cbn [fs log].
  match goal with
  | |- context [spawn ?h ?c ?d ?e ?t] =>
      destruct (spawn h c d e t) as [[rc out err|msg] t']
  end; cbn [fs log snd].
  - destruct (rc =? 0); cbn [snd log]; rewrite <- app_assoc; reflexivity.
  - rewrite <- app_assoc; reflexivity.
Qed.

(** C3. When the configuration value contains [<] or [>] (a generator
    expression such as [$<CONFIG>]), the value is treated as empty: the
    command line of the test runner is the runner and
    [--output-on-failure] alone, and that is the process [_run_ctests]
    starts; no [-C] is passed. *)
Theorem angle_bracket_config_is_dropped (host : Host) (build_dir : path)
    (config : string) (env : environ) (w : World) (ctest : string) :
  PyStr.str_in "<" config = true \/ PyStr.str_in ">" config = true ->
  which host (fs w) "ctest" = Some ctest ->
  PyStr.truthy ctest = true ->
  ctest_command ctest config = [ctest; "--output-on-failure"]
  /\ log (snd (_run_ctests host build_dir config env w))
     = log w ++ [ Stdout ("[coverage] " +:+ ctest +:+ " --output-on-failure");
                  Exec [ctest; "--output-on-failure"] (Some build_dir) (Some env) false ].
Proof.
  intros Hab Hw Ht.
  assert (Hcmd : ctest_command ctest config = [ctest; "--output-on-failure"]).
  { destruct (ctest_command_cases ctest config) as [[H _]|(_ & _ & _ & Hlt & Hgt)];
      [exact H|].
    rewrite str_in_strip in Hlt by reflexivity.
    rewrite str_in_strip in Hgt by reflexivity.
    destruct Hab; congruence. }
  split; [exact Hcmd|].
  rewrite (run_ctests_log host build_dir config env w ctest Hw Ht), Hcmd.
  reflexivity.
Qed.

Lemma angle_bracket_witness :
  let host := Demo.host ["sparkle-1.profraw"] 0 (PyFloat.of_Z 90) in
  ctest_command "/usr/bin/ctest" "$<CONFIG>" = ["/usr/bin/ctest"; "--output-on-failure"]
  /\ log (snd (_run_ctests host ["w"; "build"] "$<CONFIG>" ∅ Demo.world0))
     = [ Stdout "[coverage] /usr/bin/ctest --output-on-failure";
         Exec ["/usr/bin/ctest"; "--output-on-failure"] (Some ["w"; "build"]) (Some ∅) false ].
Proof.
  apply (angle_bracket_config_is_dropped
           (Demo.host ["sparkle-1.profraw"] 0 (PyFloat.of_Z 90))
           ["w"; "build"] "$<CONFIG>" ∅ Demo.world0 "/usr/bin/ctest");
    [left; reflexivity | reflexivity | reflexivity].
Defined.

(** C9. [_run_ctests] starts exactly the command it builds; when the
    configuration, stripped of surrounding whitespace, is empty or is the
    single character [.], the command has no [-C]; and whenever [-C] is
    passed, its value is the stripped configuration, which is then neither
    empty nor [.] and has no angle bracket. *)
Theorem config_flag_only_for_proper_names (host : Host) (build_dir : path)
    (config : string) (env : environ) (w : World) (ctest : string) :
  which host (fs w) "ctest" = Some ctest ->
  PyStr.truthy ctest = true ->
  let cfg := PyStr.strip config in
  let command := ctest_command ctest config in
  log (snd (_run_ctests host build_dir config env w))
  = log w ++ [ Stdout ("[coverage] " +:+ PyStr.join " " command);
               Exec command (Some build_dir) (Some env) false ]
  /\ (cfg = "" \/ cfg = "." -> command = [ctest; "--output-on-failure"])
  /\ (command = [ctest; "--output-on-failure"]
      \/ command = [ctest; "--output-on-failure"; "-C"; cfg]
         /\ cfg <> "" /\ cfg <> "."
         /\ PyStr.str_in "<" cfg = false /\ PyStr.str_in ">" cfg = false).
Proof.
  intros Hw Ht cfg command. split; [|split].
  - apply run_ctests_log; assumption.
  - intros Hc. subst command.
    destruct (ctest_command_cases ctest config) as [[H _]|(_ & Hne & Hnd & _)];
      [exact H|].
    fold cfg in Hne, Hnd. destruct Hc; contradiction.
  - subst command.
    destruct (ctest_command_cases ctest config) as [[H _]|H]; [left; exact H|].
    right. exact H.
Qed.

Lemma config_flag_witness :
  let host := Demo.host ["sparkle-1.profraw"] 0 (PyFloat.of_Z 90) in
  log (snd (_run_ctests host ["w"; "build"] "  Release " ∅ Demo.world0))
  = [ Stdout "[coverage] /usr/bin/ctest --output-on-failure -C Release";
      Exec ["/usr/bin/ctest"; "--output-on-failure"; "-C"; "Release"]
        (Some ["w"; "build"]) (Some ∅) false ].
Proof.
  intros host.
  apply (proj1 (config_flag_only_for_proper_names host ["w"; "build"] "  Release "
                  ∅ Demo.world0 "/usr/bin/ctest" eq_refl eq_refl)).
Defined.

(** ** The monad *)

Lemma bind_Return {A B} (m : M A) (k : A -> M B) (w w' : World) (a : A) :
  m w = (Return a, w') -> bind m k w = k a w'.
Proof. intros H. unfold bind. rewrite H. reflexivity. Qed.

Lemma bind_Raise {A B} (m : M A) (k : A -> M B) (w w' : World) (e : exn) :
  m w = (Raise e, w') -> bind m k w = (Raise e, w').
Proof. intros H. unfold bind. rewrite H. reflexivity. Qed.

(** A run is known from its result, the world being the one it leaves. *)
Lemma run_from_result {A B} (x : A * B) (a : A) :
  fst x = a -> x = (a, snd x).
Proof. intros <-. destruct x; reflexivity. Qed.

(** On a concrete host a run is settled by running it. *)
Ltac by_running := apply run_from_result; vm_compute; reflexivity.

(** Unfolding the plumbing of the monad in a goal. *)
Ltac run_plumbing :=
  cbv beta iota zeta delta [bind ask print print_err ret raise emit try_except];
  cbn [fs log default from_option id].

(** ** The threshold gate *)

Lemma le_zero_not_gt (x : PyFloat.float) :
  PyFloat.le x PyFloat.zero = true -> PyFloat.gt x PyFloat.zero = false.
Proof.
  unfold PyFloat.le, PyFloat.gt, PyFloat.zero, SFleb, SFltb.
  destruct x as [s|s| |s m e]; try destruct s; cbn; congruence.
Qed.

Lemma threshold_gate_run (args : Args) (line_pct : PyFloat.float)
    (w : World) :
  threshold_gate args line_pct w
  = if below_threshold (threshold args) line_pct
    then (Return 1, emit (Stderr (violation line_pct (threshold args))) w)
    else (Return 0, w).
Proof.
  unfold threshold_gate. destruct (below_threshold _ _); reflexivity.
Qed.

Lemma main_after_measure (host : Host) (args : Args) (w w3 : World)
    (line_pct func_pct region_pct : PyFloat.float) :
  measured host args w line_pct func_pct region_pct w3 ->
  main host args w
  = (publish host args line_pct func_pct region_pct ;;
     threshold_gate args line_pct) w3.
Proof.
  intros (w2 & (w1 & Ht & Hg & Hm) & Hx).
  unfold main. rewrite (bind_Return _ _ _ _ _ Ht).
  unfold ask at 1. unfold bind at 1.
  destruct (glob (fs w1) (coverage_dir host args) "sparkle-*.profraw")
    as [|f files] eqn:Hfiles; [congruence|].
  rewrite (bind_Return _ _ _ _ _ Hm), (bind_Return _ _ _ _ _ Hx).
  reflexivity.
Qed.

(** C1. The threshold gate returns 1 exactly when the threshold is greater
    than zero and the line coverage plus [1e-6] is below the threshold, and
    returns 0 otherwise; a run of [main] that gets to the gate exits with
    that status.  For the threshold 85.0 the coverage 84.9999995 passes
    and 84.99 fails, and a threshold that is zero or negative never
    fails, whatever the coverage. *)
Theorem gate_fails_iff_below_threshold :
  (forall (args : Args) (line_pct : PyFloat.float) (w : World),
      (fst (threshold_gate args line_pct w) = Return 1
       <-> PyFloat.gt (threshold args) PyFloat.zero = true
           /\ PyFloat.lt (PyFloat.add line_pct PyFloat.eps) (threshold args) = true)
      /\ (fst (threshold_gate args line_pct w) = Return 1
          \/ fst (threshold_gate args line_pct w) = Return 0))
  /\ (forall (host : Host) (args : Args) (w w3 w4 : World)
        (line_pct func_pct region_pct : PyFloat.float),
        measured host args w line_pct func_pct region_pct w3 ->
        publish host args line_pct func_pct region_pct w3 = (Return tt, w4) ->
        exit_status (fst (main host args w))
        = if below_threshold (threshold args) line_pct then 1 else 0)
  /\ below_threshold (PyFloat.literal 850 1) (PyFloat.literal 849999995 7) = false
  /\ below_threshold (PyFloat.literal 850 1) (PyFloat.literal 8499 2) = true
  /\ (forall threshold line_pct : PyFloat.float,
        PyFloat.le threshold PyFloat.zero = true ->
        below_threshold threshold line_pct = false).
Proof.
  split; [|split; [|split; [|split]]].
  - intros args line_pct w. rewrite threshold_gate_run.
    unfold below_threshold.
    destruct (PyFloat.gt _ _), (PyFloat.lt _ _); cbn [andb fst];
      (split; [split|]); try (intros [? ?]); try intros ?; auto; try discriminate.
  - intros host args w w3 w4 l f r Hm Hp.
    rewrite (main_after_measure _ _ _ _ _ _ _ Hm).
    rewrite (bind_Return _ _ _ _ _ Hp), threshold_gate_run.
    destruct (below_threshold _ _); reflexivity.
  - vm_compute. reflexivity.
  - vm_compute. reflexivity.
  - intros threshold line_pct Hle. unfold below_threshold.
    rewrite (le_zero_not_gt _ Hle). reflexivity.
Qed.

Lemma gate_witness :
  let host := Demo.host ["sparkle-1.profraw"] 0 (PyFloat.literal 849999995 7) in
  let args := Demo.args "Debug" (PyFloat.literal 850 1) None None in
  exit_status (fst (main host args Demo.world1))
  = (if below_threshold (PyFloat.literal 850 1) (PyFloat.literal 849999995 7)
     then 1 else 0)
  /\ below_threshold (SFopp (PyFloat.of_Z 1)) PyFloat.zero = false.
Proof.
  intros host args. split.
  - refine (proj1 (proj2 gate_fails_iff_below_threshold) host args Demo.world1
              (Demo.measured_world host args)
              (snd (publish host args (PyFloat.literal 849999995 7)
                      (PyFloat.of_Z 100) (PyFloat.literal 12345 3)
                      (Demo.measured_world host args)))
              (PyFloat.literal 849999995 7) (PyFloat.of_Z 100)
              (PyFloat.literal 12345 3) _ _).
    + exists (Demo.merged_world host args). split.
      * exists (Demo.tested host args). split; [by_running|].
        split; [vm_compute; discriminate|].
        by_running.
      * by_running.
    + by_running.
  - apply (proj2 (proj2 (proj2 (proj2 gate_fails_iff_below_threshold)))).
    vm_compute. reflexivity.
Defined.

(** ** Removing stale profiles *)

(** One turn of the loop: the file is removed, or a warning is printed
    and the tree is as before. *)
Lemma remove_profile_run (host : Host) (file : path) (w : World) :
  (exists content,
      fs w !! file = Some (File content)
      /\ remove_profile host file w
         = (Return tt, {| fs := delete file (fs w);
                          log := log w ++ [Fs (OpUnlink file)] |}))
  \/ (exists msg,
         remove_profile host file w
         = (Return tt, {| fs := fs w;
                          log := log w ++ [Fs (OpUnlink file);
                                           Stderr (unlink_warning file msg)] |})).
Proof.
  unfold remove_profile, fs_do.
  run_plumbing.
  destruct (refuses host (OpUnlink file) (fs w)) as [msg|] eqn:Href.
  { right. exists msg. cbn [fs log]. rewrite <- app_assoc. reflexivity. }
  cbn [apply_op]. unfold unlink, lookup_node.
  destruct file as [|n file'].
  { right. eexists. cbn [fs log]. rewrite <- app_assoc. reflexivity. }
  destruct (fs w !! (n :: file')) as [[content|]|] eqn:Hl; cbn [fs log].
  - left. exists content. split; reflexivity.
  - right. eexists. rewrite <- app_assoc. reflexivity.
  - right. eexists. rewrite <- app_assoc. reflexivity.
Qed.


Lemma clean_loop (host : Host) (files : list path) :
  forall w : World,
  exists w' evs,
    for_each files (remove_profile host) w = (Return tt, w')
    /\ log w' = log w ++ evs
    /\ Forall cleanup_event evs
    /\ (forall q, ~ In q files -> fs w' !! q = fs w !! q)
    /\ (forall file, In file files ->
          fs w' !! file = None
          \/ (fs w' !! file = fs w !! file
              /\ exists msg, In (Stderr (unlink_warning file msg)) evs)).
Proof.
  induction files as [|f files IH]; intros w.
  - exists w, []. cbn [for_each]. unfold ret. rewrite app_nil_r.
    repeat split; auto. intros file [].
  - cbn [for_each].
    destruct (remove_profile_run host f w) as [(content & Hf & Hrun)|(msg & Hrun)];
      rewrite (bind_Return _ _ _ _ _ Hrun);
      match goal with
      | |- context [for_each files _ ?w1] =>
          destruct (IH w1) as (w' & evs & Hloop & Hlog & Hev & Hout & Hin)
      end; cbn [fs log] in *.
    + exists w', (Fs (OpUnlink f) :: evs).
      split; [exact Hloop|]. split; [rewrite Hlog, <- app_assoc; reflexivity|].
      split; [constructor; [exact I | exact Hev]|]. split.
      * intros q Hq. rewrite Hout by (intros ?; apply Hq; right; assumption).
        apply lookup_delete_ne. intros ->. apply Hq. left. reflexivity.
      * intros file Hfile.
        destruct (in_dec (fun x y : path => decide (x = y)) file files) as [Hi|Hni].
        -- destruct (Hin file Hi) as [Hnone|(Hsame & msg & Hmsg)]; [left; exact Hnone|].
           destruct (decide (file = f)) as [->|Hne].
           ++ left. rewrite Hsame. apply lookup_delete_eq.
           ++ right. split; [rewrite Hsame; apply lookup_delete_ne; congruence|].
              exists msg. right. exact Hmsg.
        -- destruct Hfile as [<-|Hi]; [|contradiction].
           left. rewrite (Hout f Hni). apply lookup_delete_eq.
    + exists w', (Fs (OpUnlink f) :: Stderr (unlink_warning f msg) :: evs).
      split; [exact Hloop|].
      split; [rewrite Hlog, <- app_assoc; reflexivity|].
      split; [repeat constructor; exact Hev|]. split.
      * intros q Hq. apply Hout. intros ?. apply Hq. right. assumption.
      * intros file Hfile.
        destruct (in_dec (fun x y : path => decide (x = y)) file files) as [Hi|Hni].
        -- destruct (Hin file Hi) as [Hnone|(Hsame & msg' & Hmsg)]; [left; exact Hnone|].
           right. split; [exact Hsame|]. exists msg'. right. right. exact Hmsg.
        -- destruct Hfile as [<-|Hi]; [|contradiction].
           right. split; [apply Hout; exact Hni|].
           exists msg. right. left. reflexivity.
Qed.

Lemma clean_existing_profiles_run (host : Host) (profile_dir : path)
    (pattern : string) (w : World) :
  exists w' evs,
    _clean_existing_profiles host profile_dir pattern w = (Return tt, w')
    /\ log w' = log w ++ evs
    /\ Forall cleanup_event evs
    /\ (forall q, ~ In q (glob (fs w) profile_dir pattern) ->
          fs w' !! q = fs w !! q)
    /\ (forall file, In file (glob (fs w) profile_dir pattern) ->
          fs w' !! file = None
          \/ (fs w' !! file = fs w !! file
              /\ exists msg, In (Stderr (unlink_warning file msg)) evs)).
Proof.
  unfold _clean_existing_profiles.
  cbv beta iota zeta delta [bind ask].
  apply clean_loop.
Qed.

(** ** The events of the test stage *)


Lemma cleanup_event_test_stage (config : string) (e : event) :
  cleanup_event e -> test_stage_event config e.
Proof. destruct e as [| | |[]]; cbn; intros []; exact I. Qed.

Lemma fs_do_log (host : Host) (op : fs_op) (w w' : World) (r : result unit) :
  fs_do host op w = (r, w') -> log w' = log w ++ [Fs op].
Proof.
  unfold fs_do. run_plumbing.
  destruct (refuses host op (fs w)); [intros [= _ <-]; reflexivity|].
  destruct (apply_op op (fs w)); intros [= _ <-]; reflexivity.
Qed.

Lemma run_ctests_events (host : Host) (build_dir : path) (config : string)
    (env : environ) (w w' : World) (r : result unit) :
  _run_ctests host build_dir config env w = (r, w') ->
  exists evs, log w' = log w ++ evs /\ Forall (test_stage_event config) evs.
Proof.
  unfold _run_ctests. cbv beta iota zeta delta [bind ask]. cbn [fs log].
  destruct (which host (fs w) "ctest") as [ctest|] eqn:Hw.
  - destruct (PyStr.truthy ctest) eqn:Ht.
    + intros Hrun.
      pose proof (run_ctests_log host build_dir config env w ctest Hw Ht) as Hlog.
      unfold _run_ctests in Hlog. cbv beta iota zeta delta [bind ask] in Hlog.
      cbn [fs log] in Hlog. rewrite Hw, Ht in Hlog.
      rewrite Hrun in Hlog. cbn [snd] in Hlog.
      eexists. split; [exact Hlog|].
      repeat constructor. exists ctest. reflexivity.
    + intros [= _ <-]. exists []. rewrite app_nil_r. split; constructor.
  - intros [= _ <-]. exists []. rewrite app_nil_r. split; constructor.
Qed.

Lemma run_tests_events (host : Host) (args : Args) (w w1 : World) :
  run_tests host args w = (Return tt, w1) ->
  exists evs,
    log w1 = log w ++ evs /\ Forall (test_stage_event (config args)) evs.
Proof.
  unfold run_tests. intros Hrun.
  destruct (fs_do host (OpMkdir (coverage_dir host args)) w) as [[[]|e] w0] eqn:Hmk.
  2:{ rewrite (bind_Raise _ _ _ _ _ Hmk) in Hrun. discriminate. }
  rewrite (bind_Return _ _ _ _ _ Hmk) in Hrun.
  destruct (clean_existing_profiles_run host (coverage_dir host args)
              "sparkle-*.profraw" w0) as (w' & evs & Hclean & Hlog & Hev & _).
  rewrite (bind_Return _ _ _ _ _ Hclean) in Hrun.
  destruct (run_ctests_events _ _ _ _ _ _ _ Hrun) as (evs' & Hlog' & Hev').
  exists (Fs (OpMkdir (coverage_dir host args)) :: evs ++ evs'). split.
  - rewrite Hlog', Hlog, (fs_do_log _ _ _ _ _ Hmk), <- !app_assoc. reflexivity.
  - constructor; [exact I|]. apply Forall_app. split; [|exact Hev'].
    eapply Forall_impl; [exact Hev|]. apply cleanup_event_test_stage.
Qed.

(** C2. When no raw profile exists after the tests ran, [main] returns 1:
    the tree is the one the tests left, the only event added is the
    message on the standard error, and the events before it are those of
    the test stage (creating the directory, removing stale profiles, the
    test runner): no merge, no export, no report, no HTML, no threshold
    message. *)
Theorem no_profiles_stops_pipeline (host : Host) (args : Args) (w w1 : World) :
  run_tests host args w = (Return tt, w1) ->
  glob (fs w1) (coverage_dir host args) "sparkle-*.profraw" = [] ->
  main host args w
  = (Return 1, {| fs := fs w1; log := log w1 ++ [Stderr no_profiles] |})
  /\ exit_status (fst (main host args w)) = 1
  /\ exists evs,
       log w1 = log w ++ evs /\ Forall (test_stage_event (config args)) evs.
Proof.
  intros Hrun Hglob.
  assert (Hmain : main host args w
                  = (Return 1, {| fs := fs w1; log := log w1 ++ [Stderr no_profiles] |})).
  { unfold main. rewrite (bind_Return _ _ _ _ _ Hrun).
    cbv beta iota zeta delta [bind ask]. rewrite Hglob. reflexivity. }
  split; [exact Hmain|]. split; [rewrite Hmain; reflexivity|].
  exact (run_tests_events host args w w1 Hrun).
Qed.

Lemma no_profiles_witness :
  let host := Demo.host [] 0 (PyFloat.of_Z 90) in
  let args := Demo.args "Debug" PyFloat.zero (Some "/w/html") (Some "/w/docs") in
  main host args Demo.world1
  = (Return 1,
     {| fs := fs (Demo.tested host args);
        log := log (Demo.tested host args) ++ [Stderr no_profiles] |}).
Proof.
  intros host args.
  refine (proj1 (no_profiles_stops_pipeline host args Demo.world1
                   (Demo.tested host args) _ _)).
  - by_running.
  - vm_compute. reflexivity.
Defined.

(** ** A failing tool *)


Lemma run_captured_success (host : Host) (command : list string)
    (failed : string) (w w' : World) (c : completed) :
  run_captured host command failed w = (Return c, w') ->
  log w' = log w ++ [Exec command None None true].
Proof.
  unfold run_captured, subprocess_run.
  run_plumbing.
  destruct (spawn host command None (os_environ host) (fs w))
    as [[rc out err|msg] t].
  - destruct (rc =? 0).
    + intros [= _ <-]. reflexivity.
    + run_plumbing.
      destruct (PyStr.truthy out), (PyStr.truthy err);
        cbv beta iota zeta delta [bind print_err emit ret raise]; discriminate.
  - discriminate.
Qed.



(** ** The log only grows *)


Create HintDb run_log.

Lemma bind_inv {A B} (m : M A) (k : A -> M B) (w w' : World) (b : B) :
  bind m k w = (Return b, w') ->
  exists a w1, m w = (Return a, w1) /\ k a w1 = (Return b, w').
Proof.
  unfold bind. destruct (m w) as [[a|e] w1]; [|discriminate].
  intros H. exists a, w1. split; [reflexivity | exact H].
Qed.

Lemma appends_ret {A} (a : A) : appends (ret a).
Proof. intros w r w' [= _ <-]. exists []. symmetry. apply app_nil_r. Qed.

Lemma appends_raise {A} (e : exn) : appends (@raise A e).
Proof. intros w r w' [= _ <-]. exists []. symmetry. apply app_nil_r. Qed.

Lemma appends_ask {A} (f : tree -> A) : appends (ask f).
Proof. intros w r w' [= _ <-]. exists []. symmetry. apply app_nil_r. Qed.

Lemma appends_lift {A} (x : result A) : appends (lift x).
Proof. intros w r w' [= _ <-]. exists []. symmetry. apply app_nil_r. Qed.

Lemma appends_print (text : string) : appends (print text).
Proof. intros w r w' [= _ <-]. eexists. reflexivity. Qed.

Lemma appends_print_err (text : string) : appends (print_err text).
Proof. intros w r w' [= _ <-]. eexists. reflexivity. Qed.

Lemma appends_bind {A B} (m : M A) (k : A -> M B) :
  appends m -> (forall a, appends (k a)) -> appends (bind m k).
Proof.
  intros Hm Hk w r w'. unfold bind.
  destruct (m w) as [[a|e] w1] eqn:Hmw; destruct (Hm _ _ _ Hmw) as (evs & Hevs).
  - intros Hka. destruct (Hk a _ _ _ Hka) as (evs' & Hevs').
    exists (evs ++ evs'). rewrite Hevs', Hevs, app_assoc. reflexivity.
  - intros [= _ <-]. exists evs. exact Hevs.
Qed.

Lemma appends_try_except {A} (m : M A) (h : exn -> option (M A)) :
  appends m -> (forall e k, h e = Some k -> appends k) ->
  appends (try_except m h).
Proof.
  intros Hm Hh w r w'. unfold try_except.
  destruct (m w) as [[a|e] w1] eqn:Hmw; destruct (Hm _ _ _ Hmw) as (evs & Hevs).
  - intros [= _ <-]. exists evs. exact Hevs.
  - destruct (h e) as [k|] eqn:Hhe.
    + intros Hk. destruct (Hh e k Hhe _ _ _ Hk) as (evs' & Hevs').
      exists (evs ++ evs'). rewrite Hevs', Hevs, app_assoc. reflexivity.
    + intros [= _ <-]. exists evs. exact Hevs.
Qed.

Lemma appends_for_each {A} (l : list A) (body : A -> M unit) :
  (forall x, appends (body x)) -> appends (for_each l body).
Proof.
  intros Hb. induction l as [|x l IH]; cbn [for_each].
  - apply appends_ret.
  - apply appends_bind; [apply Hb | intros _; exact IH].
Qed.

Lemma appends_if {A} (b : bool) (m1 m2 : M A) :
  appends m1 -> appends m2 -> appends (if b then m1 else m2).
Proof. destruct b; auto. Qed.

Lemma appends_fs_do (host : Host) (op : fs_op) : appends (fs_do host op).
Proof. intros w r w' H. exists [Fs op]. exact (fs_do_log _ _ _ _ _ H). Qed.

Lemma appends_iterdir (d : path) : appends (iterdir d).
Proof.
  intros w r w'. unfold iterdir.
  destruct (is_dir (fs w) d); intros [= _ <-]; exists []; symmetry; apply app_nil_r.
Qed.

Lemma appends_subprocess_run (host : Host) (command : list string)
    (cwd : option path) (env : option environ) (capture : bool) :
  appends (subprocess_run host command cwd env capture).
Proof.
  intros w r w'. unfold subprocess_run. cbv beta iota zeta delta [emit].
  cbn [fs log].
  destruct (spawn host command cwd _ (fs w)) as [[rc out err|msg] t].
  - destruct (rc =? 0); intros [= _ <-]; eexists; reflexivity.
  - intros [= _ <-]; eexists; reflexivity.
Qed.

#[local] Hint Resolve appends_ret appends_raise appends_ask appends_lift
  appends_print appends_print_err appends_fs_do appends_iterdir
  appends_subprocess_run appends_if : run_log.
#[local] Hint Extern 2 (appends (bind _ _)) =>
  apply appends_bind; [|intros ?] : run_log.
#[local] Hint Extern 2 (appends (for_each _ _)) =>
  apply appends_for_each; intros ? : run_log.

Lemma appends_run_captured (host : Host) (command : list string) (failed : string) :
  appends (run_captured host command failed).
Proof.
  unfold run_captured. apply appends_try_except; [auto with run_log|].
  intros e k. destruct e; try discriminate. intros [= <-].
  auto 10 with run_log.
Qed.

#[local] Hint Resolve appends_run_captured : run_log.

Lemma appends_copy_docs (host : Host) (html_dir docs_dir : path) :
  appends (copy_docs host html_dir docs_dir).
Proof. unfold copy_docs. auto 12 with run_log. Qed.

Lemma appends_generate_html_report (host : Host) (llvm_cov binary : path)
    (libs : list path) (profdata : path) (ignore_patterns : list string)
    (output_dir : path) (project_name : string) :
  appends (_generate_html_report host llvm_cov binary libs profdata
             ignore_patterns output_dir project_name).
Proof. unfold _generate_html_report. cbv zeta. auto 12 with run_log. Qed.

#[local] Hint Resolve appends_copy_docs appends_generate_html_report : run_log.

(** ** Writing the report *)

Lemma write_report_run (host : Host) (output_path : path)
    (line_pct func_pct region_pct : PyFloat.float) (w w' : World) :
  _write_report host output_path line_pct func_pct region_pct w = (Return tt, w') ->
  fs w' = <[output_path := File (PyStr.encode_utf8
                                   (report_text line_pct func_pct region_pct))]> (fs w)
  /\ log w' = log w ++ [Fs (OpWriteText output_path
                              (report_text line_pct func_pct region_pct))].
Proof.
  unfold _write_report, fs_do. run_plumbing.
  destruct (refuses host _ (fs w)); [discriminate|].
  cbn [apply_op]. unfold write_text, write_bytes.
  destruct output_path as [|n p]; [discriminate|].
  destruct (is_dir (fs w) (parent (n :: p))); [|discriminate].
  destruct (fs w !! (n :: p)) as [[c|]|]; try discriminate;
    intros [= <-]; cbn [fs log]; split; reflexivity.
Qed.

(** ** Docs directory without HTML directory *)

(** C5. With a docs directory and no HTML directory, a run of [main] that
    measured the coverage and wrote the report returns the status of the
    threshold test alone; the report is in place, the tree is the one the
    report writer left (no directory is removed, made or copied), and the
    only events after the write are the warning on the standard error and,
    when the threshold is missed, its message. *)
Theorem docs_without_html_only_warns (host : Host) (args : Args)
    (w w3 w4 : World) (line_pct func_pct region_pct : PyFloat.float) :
  optional_dir host (html_dir args) = None ->
  optional_dir host (docs_dir args) <> None ->
  measured host args w line_pct func_pct region_pct w3 ->
  _write_report host (resolve host (output args)) line_pct func_pct region_pct w3
  = (Return tt, w4) ->
  main host args w
  = (Return (if below_threshold (threshold args) line_pct then 1 else 0),
     {| fs := fs w4;
        log := log w4 ++ [Stderr docs_without_html]
                      ++ (if below_threshold (threshold args) line_pct
                          then [Stderr (violation line_pct (threshold args))]
                          else []) |})
  /\ fs w4 !! resolve host (output args)
     = Some (File (PyStr.encode_utf8 (report_text line_pct func_pct region_pct)))
  /\ log w4 = log w3 ++ [Fs (OpWriteText (resolve host (output args))
                               (report_text line_pct func_pct region_pct))].
Proof.
  intros Hhtml Hdocs Hm Hw.
  destruct (write_report_run _ _ _ _ _ _ _ Hw) as (Hfs & Hlog).
  split; [|split; [rewrite Hfs; apply lookup_insert_eq | exact Hlog]].
  rewrite (main_after_measure _ _ _ _ _ _ _ Hm).
  assert (Hp : publish host args line_pct func_pct region_pct w3
               = (Return tt, emit (Stderr docs_without_html) w4)).
  { unfold publish. rewrite (bind_Return _ _ _ _ _ Hw). unfold render.
    rewrite Hhtml.
    destruct (optional_dir host (docs_dir args)) as [d|]; [reflexivity|congruence]. }
  rewrite (bind_Return _ _ _ _ _ Hp), threshold_gate_run.
  destruct (below_threshold _ _); unfold emit; cbn [fs log].
  - rewrite <- app_assoc. reflexivity.
  - rewrite app_nil_r. reflexivity.
Qed.

Lemma docs_without_html_witness :
  let host := Demo.host ["sparkle-1.profraw"] 0 (PyFloat.literal 8499 2) in
  let args := Demo.args "Debug" (PyFloat.literal 850 1) None (Some "/w/docs") in
  let w4 := snd (_write_report host (resolve host (output args))
                   (PyFloat.literal 8499 2) (PyFloat.of_Z 100)
                   (PyFloat.literal 12345 3) (Demo.measured_world host args)) in
  main host args Demo.world1
  = (Return 1,
     {| fs := fs w4;
        log := log w4 ++ [ Stderr docs_without_html;
                           Stderr (violation (PyFloat.literal 8499 2)
                                     (PyFloat.literal 850 1)) ] |}).
Proof.
  intros host args w4.
  refine (proj1 (docs_without_html_only_warns host args Demo.world1
                   (Demo.measured_world host args) w4
                   (PyFloat.literal 8499 2) (PyFloat.of_Z 100)
                   (PyFloat.literal 12345 3) _ _ _ _)).
  - vm_compute. reflexivity.
  - vm_compute. discriminate.
  - exists (Demo.merged_world host args). split.
    + exists (Demo.tested host args). split; [by_running|].
      split; [vm_compute; discriminate|].
      by_running.
    + by_running.
  - by_running.
Defined.

(** ** What the report stage logs *)

Lemma generate_html_report_exec (host : Host) (llvm_cov binary : path)
    (libs : list path) (profdata : path) (ignore_patterns : list string)
    (output_dir : path) (project_name : string) (w w' : World) :
  _generate_html_report host llvm_cov binary libs profdata ignore_patterns
    output_dir project_name w = (Return tt, w') ->
  In (Exec (show_command llvm_cov binary libs profdata ignore_patterns
              output_dir project_name) None None true) (log w').
Proof.
  unfold _generate_html_report. cbv zeta. intros H.
  apply bind_inv in H as (present & w1 & _ & H).
  apply bind_inv in H as ([] & w2 & _ & H).
  apply bind_inv in H as ([] & w3 & _ & H).
  apply bind_inv in H as ([] & w4 & _ & H).
  apply bind_inv in H as (c & w5 & Hrun & H).
  injection H as <-.
  rewrite (run_captured_success _ _ _ _ _ _ Hrun).
  apply in_or_app. right. left. reflexivity.
Qed.

Lemma copy_docs_stored (host : Host) (html_dir docs_dir : path) (w w' : World) :
  copy_docs host html_dir docs_dir w = (Return tt, w') ->
  In (Stdout ("[coverage] Documentation copy stored at: " +:+ str_of_path docs_dir))
     (log w').
Proof.
  unfold copy_docs. intros H.
  apply bind_inv in H as (present & w1 & _ & H).
  apply bind_inv in H as ([] & w2 & _ & H).
  apply bind_inv in H as ([] & w3 & _ & H).
  apply bind_inv in H as (items & w4 & _ & H).
  apply bind_inv in H as ([] & w5 & _ & H).
  injection H as <-. cbn [emit log].
  apply in_or_app. right. left. reflexivity.
Qed.

(** ** The text of the report *)

Lemma append_cons (x : ascii) (a b : string) :
  String x a +:+ b = String x (a +:+ b).
Proof. reflexivity. Qed.

Lemma append_nil_r (a : string) : a +:+ "" = a.
Proof.
  induction a as [|x a IH]; [reflexivity|]. rewrite append_cons, IH. reflexivity.
Qed.

Lemma string_app_assoc (a b c : string) : (a +:+ b) +:+ c = a +:+ b +:+ c.
Proof.
  induction a as [|x a IH]; [reflexivity|].
  rewrite !append_cons, IH. reflexivity.
Qed.

Lemma all_chars_app (p : ascii -> bool) (a b : string) :
  all_chars p (a +:+ b) = all_chars p a && all_chars p b.
Proof.
  induction a as [|x a IH]; [reflexivity|].
  rewrite append_cons. cbn [all_chars]. rewrite IH, andb_assoc. reflexivity.
Qed.

Lemma all_chars_impl (p q : ascii -> bool) (s : string) :
  (forall c, p c = true -> q c = true) ->
  all_chars p s = true -> all_chars q s = true.
Proof.
  intros Hpq. induction s as [|x s IH]; cbn; [reflexivity|].
  intros [Hx Hs]%andb_prop. rewrite (Hpq _ Hx), (IH Hs). reflexivity.
Qed.

Lemma digit_plain (c : ascii) : is_digit c = true -> plain_char c = true.
Proof.
  unfold is_digit, plain_char. intros [H1 H2]%andb_prop.
  apply N.leb_le in H1. apply N.leb_le in H2.
  apply andb_true_intro. split.
  - apply N.ltb_lt. lia.
  - apply negb_true_iff, N.eqb_neq. lia.
Qed.

Lemma string_of_uint_digits (u : Decimal.uint) :
  all_chars is_digit (NilEmpty.string_of_uint u) = true.
Proof. induction u; cbn; auto. Qed.

Lemma dec_digits (n : Z) : all_chars is_digit (PyFloat.dec n) = true.
Proof. apply string_of_uint_digits. Qed.

Lemma dec_nonempty (n : Z) : PyFloat.dec n <> "".
Proof.
  unfold PyFloat.dec. destruct (Z.to_N n) as [|p]; [discriminate|].
  cbn [N.to_uint]. pose proof (Unsigned.to_uint_nonnil p) as Hp.
  destruct (Pos.to_uint p); [congruence | discriminate ..].
Qed.

Lemma digit_is_digit (d : Z) : 0 <= d <= 9 -> is_digit (PyFloat.digit d) = true.
Proof.
  intros Hd. unfold is_digit, PyFloat.digit.
  rewrite N_ascii_embedding by lia.
  apply andb_true_intro. split; apply N.leb_le; lia.
Qed.

Lemma div_half_even_nearest (n d : Z) :
  0 < d ->
  Z.abs (2 * n - 2 * PyFloat.div_half_even n d * d) <= d
  /\ (2 * (n mod d) = d -> Z.even (PyFloat.div_half_even n d) = true).
Proof.
  intros Hd. unfold PyFloat.div_half_even.
  pose proof (Z.div_mod n d ltac:(lia)) as Hn.
  pose proof (Z.mod_pos_bound n d Hd) as Hr.
  destruct (Z.compare_spec (2 * (n mod d)) d) as [Heq|Hlt|Hgt].
  - destruct (Z.even (n / d)) eqn:Hev.
    + split; [nia | auto].
    + split; [nia|]. intros _. rewrite Z.even_add, Hev. reflexivity.
  - split; [nia | lia].
  - split; [nia | lia].
Qed.

Lemma hundredths_nearest (m : positive) (e : Z) :
  (0 <= e -> PyFloat.hundredths m e = Z.pos m * 2 ^ e * 100)
  /\ (e < 0 ->
      Z.abs (2 * (Z.pos m * 100) - 2 * PyFloat.hundredths m e * 2 ^ (- e))
      <= 2 ^ (- e)
      /\ (2 * ((Z.pos m * 100) mod 2 ^ (- e)) = 2 ^ (- e) ->
          Z.even (PyFloat.hundredths m e) = true)).
Proof.
  unfold PyFloat.hundredths. split; intros He.
  - destruct (Z.leb_spec 0 e); [reflexivity | lia].
  - destruct (Z.leb_spec 0 e); [lia|].
    apply div_half_even_nearest. apply Z.pow_pos_nonneg; lia.
Qed.

Lemma fmt2_two_decimals (x : PyFloat.float) :
  PyFloat.is_finite x = true -> two_decimals (PyFloat.fmt2 x).
Proof.
  destruct x as [s|s| |s m e]; try discriminate; intros _.
  - exists (PyFloat.sign s), "0", "0"%char, "0"%char.
    repeat split; try reflexivity; [|discriminate].
    destruct s; [right | left]; reflexivity.
  - cbn [PyFloat.fmt2]. cbv zeta.
    exists (PyFloat.sign s), (PyFloat.dec (PyFloat.hundredths m e / 100)),
      (PyFloat.digit (PyFloat.hundredths m e mod 100 / 10)),
      (PyFloat.digit (PyFloat.hundredths m e mod 10)).
    split; [reflexivity|]. split; [destruct s; [right | left]; reflexivity|].
    split; [apply dec_nonempty|]. split; [apply dec_digits|].
    split; apply digit_is_digit.
    + pose proof (Z.mod_pos_bound (PyFloat.hundredths m e) 100 ltac:(lia)).
      split; [apply Z.div_pos; lia|].
      assert (PyFloat.hundredths m e mod 100 / 10 < 10)
        by (apply Z.div_lt_upper_bound; lia).
      lia.
    + pose proof (Z.mod_pos_bound (PyFloat.hundredths m e) 10 ltac:(lia)). lia.
Qed.

Lemma fmt2_plain (x : PyFloat.float) : all_chars plain_char (PyFloat.fmt2 x) = true.
Proof.
  destruct x as [s|s| |s m e]; try (destruct s; reflexivity); [reflexivity|].
  destruct (fmt2_two_decimals (S754_finite s m e) eq_refl)
    as (sg & ip & d1 & d2 & -> & Hsg & _ & Hip & Hd1 & Hd2).
  rewrite !all_chars_app. cbn [all_chars].
  rewrite (all_chars_impl _ _ _ digit_plain Hip), (digit_plain _ Hd1),
    (digit_plain _ Hd2).
  destruct Hsg as [-> | ->]; reflexivity.
Qed.

Lemma lines_from_plain (a rest cur : string) :
  all_chars plain_char a = true ->
  PyStr.lines_from (a +:+ String "010" rest) cur
  = (cur +:+ a) :: PyStr.lines_from rest "".
Proof.
  revert cur. induction a as [|c a IH]; intros cur; cbn [all_chars].
  - intros _. rewrite append_nil_r. reflexivity.
  - intros [Hc Ha]%andb_prop. rewrite append_cons. cbn [PyStr.lines_from].
    assert (Hnl : Ascii.eqb c "010" = false).
    { apply Ascii.eqb_neq. intros ->. discriminate Hc. }
    rewrite Hnl, (IH _ Ha), string_app_assoc. reflexivity.
Qed.

Lemma report_text_shape (l f r : PyFloat.float) :
  report_text l f r
  = "Sparkle coverage summary"
    +:+ String "010" (("Line coverage    : " +:+ PyFloat.fmt2 l +:+ "%")
    +:+ String "010" (("Function coverage: " +:+ PyFloat.fmt2 f +:+ "%")
    +:+ String "010" (("Region coverage  : " +:+ PyFloat.fmt2 r +:+ "%")
    +:+ String "010" ""))).
Proof.
  unfold report_text, report_lines, PyStr.join, nl. cbn [String.concat].
  rewrite !string_app_assoc. reflexivity.
Qed.

Lemma report_line_plain (label : string) (x : PyFloat.float) :
  all_chars plain_char label = true ->
  all_chars plain_char (label +:+ PyFloat.fmt2 x +:+ "%") = true.
Proof.
  intros Hl. rewrite !all_chars_app, Hl, fmt2_plain. reflexivity.
Qed.

Lemma report_text_lines (l f r : PyFloat.float) :
  PyStr.lines_of (report_text l f r) = report_lines l f r.
Proof.
  rewrite report_text_shape. unfold PyStr.lines_of.
  rewrite lines_from_plain by reflexivity.
  rewrite !lines_from_plain by (apply report_line_plain; reflexivity).
  reflexivity.
Qed.

Lemma report_text_ascii (l f r : PyFloat.float) :
  all_chars (fun c => (N_of_ascii c <? 128)%N) (report_text l f r) = true.
Proof.
  rewrite report_text_shape.
  repeat (rewrite all_chars_app; cbn [all_chars]).
  assert (Hf : forall x, all_chars (fun c => (N_of_ascii c <? 128)%N)
                           (PyFloat.fmt2 x) = true).
  { intros x. apply (all_chars_impl plain_char); [|apply fmt2_plain].
    intros c [H _]%andb_prop. exact H. }
  rewrite !Hf. reflexivity.
Qed.

Lemma encode_utf8_ascii (s : string) :
  all_chars (fun c => (N_of_ascii c <? 128)%N) s = true ->
  PyStr.encode_utf8 s = s.
Proof.
  induction s as [|c s IH]; cbn [all_chars PyStr.encode_utf8]; [reflexivity|].
  intros [Hc Hs]%andb_prop. rewrite (IH Hs).
  unfold PyStr.encode_utf8_char. rewrite Hc. reflexivity.
Qed.

Lemma report_text_bytes (l f r : PyFloat.float) :
  PyStr.encode_utf8 (report_text l f r) = report_text l f r.
Proof. apply encode_utf8_ascii, report_text_ascii. Qed.

Lemma write_report_succeeds (host : Host) (output_path : path)
    (l f r : PyFloat.float) (w : World) :
  refuses host (OpWriteText output_path (report_text l f r)) (fs w) = None ->
  output_path <> [] ->
  is_dir (fs w) (parent output_path) = true ->
  is_dir (fs w) output_path = false ->
  _write_report host output_path l f r w
  = (Return tt,
     {| fs := <[output_path := File (report_text l f r)]> (fs w);
        log := log w ++ [Fs (OpWriteText output_path (report_text l f r))] |}).
Proof.
  intros Href Hne Hparent Hnd.
  unfold _write_report, fs_do. run_plumbing.
  rewrite Href. cbn [apply_op]. unfold write_text, write_bytes.
  destruct output_path as [|n p]; [congruence|].
  rewrite Hparent, report_text_bytes.
  unfold is_dir, lookup_node in Hnd.
  destruct (fs w !! (n :: p)) as [[c|]|]; try discriminate; reflexivity.
Qed.

(** C4, as amended. The text of the report has exactly four lines: the
    header [Sparkle coverage summary], then one line each for the line,
    function and region percentage; it is plain ASCII. A finite
    percentage is printed with an optional sign, its integer digits, a
    point and exactly two decimals, the value being rounded to the nearest
    hundredth, ties to even.  [_write_report] puts this text at the output
    path whatever file was there before, provided the directory exists,
    the path is not a directory and the host does not refuse. *)
Theorem report_is_header_and_three_lines :
  (forall l f r : PyFloat.float,
      PyStr.lines_of (report_text l f r)
      = [ "Sparkle coverage summary";
          "Line coverage    : " +:+ PyFloat.fmt2 l +:+ "%";
          "Function coverage: " +:+ PyFloat.fmt2 f +:+ "%";
          "Region coverage  : " +:+ PyFloat.fmt2 r +:+ "%" ]
      /\ PyStr.encode_utf8 (report_text l f r) = report_text l f r)
  /\ (forall x : PyFloat.float,
        PyFloat.is_finite x = true -> two_decimals (PyFloat.fmt2 x))
  /\ (forall (s : bool) (m : positive) (e : Z),
        let n := PyFloat.hundredths m e in
        PyFloat.fmt2 (S754_finite s m e)
        = PyFloat.sign s +:+ PyFloat.dec (n / 100) +:+ "."
          +:+ String (PyFloat.digit (n mod 100 / 10))
                (String (PyFloat.digit (n mod 10)) "")
        /\ (0 <= e -> n = Z.pos m * 2 ^ e * 100)
        /\ (e < 0 ->
            Z.abs (2 * (Z.pos m * 100) - 2 * n * 2 ^ (- e)) <= 2 ^ (- e)
            /\ (2 * ((Z.pos m * 100) mod 2 ^ (- e)) = 2 ^ (- e) ->
                Z.even n = true)))
  /\ (forall (host : Host) (output_path : path) (l f r : PyFloat.float)
             (w : World),
        refuses host (OpWriteText output_path (report_text l f r)) (fs w) = None ->
        output_path <> [] ->
        is_dir (fs w) (parent output_path) = true ->
        is_dir (fs w) output_path = false ->
        _write_report host output_path l f r w
        = (Return tt,
           {| fs := <[output_path := File (report_text l f r)]> (fs w);
              log := log w ++ [Fs (OpWriteText output_path (report_text l f r))] |})).
Proof.
  split; [|split; [|split]].
  - intros l f r. split; [apply report_text_lines | apply report_text_bytes].
  - exact fmt2_two_decimals.
  - intros s m e n. split; [reflexivity|]. exact (hundredths_nearest m e).
  - exact write_report_succeeds.
Qed.

Lemma report_witness :
  let host := Demo.host [] 0 (PyFloat.of_Z 90) in
  two_decimals (PyFloat.fmt2 (PyFloat.literal 849999995 7))
  /\ fs (snd (_write_report host ["w"; "cov"; "coverage.txt"]
                (PyFloat.literal 849999995 7) (PyFloat.of_Z 100)
                (PyFloat.literal 12345 3) Demo.world1))
       !! ["w"; "cov"; "coverage.txt"]
     = Some (File (report_text (PyFloat.literal 849999995 7) (PyFloat.of_Z 100)
                     (PyFloat.literal 12345 3))).
Proof.
  intros host. split.
  - apply (proj1 (proj2 report_is_header_and_three_lines)). reflexivity.
  - rewrite (proj2 (proj2 (proj2 report_is_header_and_three_lines)) host
               ["w"; "cov"; "coverage.txt"]);
      [apply lookup_insert_eq | reflexivity | discriminate
      | vm_compute; reflexivity | vm_compute; reflexivity].
Defined.

(** C4, as stated, fails: for the percentages 50, 75.5 and 100 the
    report has four lines, the header included. *)
Lemma report_has_four_lines_not_three :
  PyStr.lines_of (report_text (PyFloat.of_Z 50) (PyFloat.literal 755 1)
                    (PyFloat.of_Z 100))
  = [ "Sparkle coverage summary";
      "Line coverage    : 50.00%";
      "Function coverage: 75.50%";
      "Region coverage  : 100.00%" ]
  /\ length (PyStr.lines_of (report_text (PyFloat.of_Z 50) (PyFloat.literal 755 1)
                               (PyFloat.of_Z 100))) <> 3%nat.
Proof. split; [vm_compute; reflexivity | vm_compute; discriminate]. Qed.

(** C7. Two runs of [_write_report] with the same percentages and output
    path, on any two hosts and in any two worlds, leave the same bytes at
    the output path: the text of the report, which depends on the three
    percentages only and has its lines in the fixed order. *)
Theorem report_text_is_deterministic (host1 host2 : Host) (output_path : path)
    (l f r : PyFloat.float) (w1 w2 w1' w2' : World) :
  _write_report host1 output_path l f r w1 = (Return tt, w1') ->
  _write_report host2 output_path l f r w2 = (Return tt, w2') ->
  fs w1' !! output_path = Some (File (report_text l f r))
  /\ fs w2' !! output_path = fs w1' !! output_path
  /\ PyStr.lines_of (report_text l f r) = report_lines l f r.
Proof.
  intros H1 H2.
  destruct (write_report_run _ _ _ _ _ _ _ H1) as (Hfs1 & _).
  destruct (write_report_run _ _ _ _ _ _ _ H2) as (Hfs2 & _).
  rewrite Hfs1, Hfs2, !lookup_insert_eq, report_text_bytes.
  repeat split. apply report_text_lines.
Qed.

Lemma report_deterministic_witness :
  let host1 := Demo.host [] 0 (PyFloat.of_Z 90) in
  let host2 := Demo.host ["sparkle-1.profraw"] 1 PyFloat.zero in
  let w1' := snd (_write_report host1 ["w"; "cov"; "coverage.txt"]
                    (PyFloat.of_Z 50) (PyFloat.literal 755 1) (PyFloat.of_Z 100)
                    Demo.world0) in
  let w2' := snd (_write_report host2 ["w"; "cov"; "coverage.txt"]
                    (PyFloat.of_Z 50) (PyFloat.literal 755 1) (PyFloat.of_Z 100)
                    Demo.world1) in
  fs w2' !! ["w"; "cov"; "coverage.txt"] = fs w1' !! ["w"; "cov"; "coverage.txt"].
Proof.
  intros host1 host2 w1' w2'.
  apply (report_text_is_deterministic host1 host2 ["w"; "cov"; "coverage.txt"]
           (PyFloat.of_Z 50) (PyFloat.literal 755 1) (PyFloat.of_Z 100)
           Demo.world0 Demo.world1 w1' w2');
    by_running.
Defined.

(** * Further properties *)

(** ** The test stage *)

Lemma run_tests_prepared (host : Host) (args : Args) (w w1 : World) :
  prepared host args w w1 ->
  run_tests host args w
  = _run_ctests host (resolve host (build_dir args)) (config args)
      (test_env host args) w1.
Proof.
  intros (w0 & Hmk & Hclean). unfold run_tests.
  rewrite (bind_Return _ _ _ _ _ Hmk), (bind_Return _ _ _ _ _ Hclean).
  reflexivity.
Qed.

Lemma cleanup_event_quiet (e : event) : cleanup_event e -> quiet_event e.
Proof. destruct e as [| | |[]]; cbn; intros []; exact I. Qed.

Lemma prepared_quiet (host : Host) (args : Args) (w w1 : World) :
  prepared host args w w1 ->
  exists evs, log w1 = log w ++ evs /\ Forall quiet_event evs.
Proof.
  intros (w0 & Hmk & Hclean).
  destruct (clean_existing_profiles_run host (coverage_dir host args)
              "sparkle-*.profraw" w0) as (w' & evs & Hrun & Hlog & Hev & _).
  rewrite Hclean in Hrun. injection Hrun as <-.
  exists (Fs (OpMkdir (coverage_dir host args)) :: evs). split.
  - rewrite Hlog, (fs_do_log _ _ _ _ _ Hmk), <- app_assoc. reflexivity.
  - constructor; [exact I|].
    eapply Forall_impl; [exact Hev|]. exact cleanup_event_quiet.
Qed.

Lemma run_ctests_missing (host : Host) (build_dir : path) (config : string)
    (env : environ) (w : World) :
  which host (fs w) "ctest" = None ->
  _run_ctests host build_dir config env w
  = (Raise (RuntimeError "ctest executable not found in PATH."), w).
Proof.
  intros Hw. unfold _run_ctests. cbv beta iota zeta delta [bind ask].
  rewrite Hw. reflexivity.
Qed.

(** X1. When [shutil.which] finds no [ctest], the run ends with
    [RuntimeError "ctest executable not found in PATH."], exit status 1, in
    the world the cleaning of stale profiles left.  The coverage directory
    was created and the cleaning was done before the error: what the run
    logged is made of directory creations, removals of files and warnings
    on stderr only; no process was started, nothing was printed on stdout
    and no file was written. *)
Theorem missing_test_runner_is_fatal (host : Host) (args : Args)
    (w w1 : World) :
  prepared host args w w1 ->
  which host (fs w1) "ctest" = None ->
  main host args w
  = (Raise (RuntimeError "ctest executable not found in PATH."), w1)
  /\ exit_status (fst (main host args w)) = 1
  /\ exists evs, log w1 = log w ++ evs /\ Forall quiet_event evs.
Proof.
  intros Hprep Hw.
  assert (Hmain : main host args w
                  = (Raise (RuntimeError "ctest executable not found in PATH."), w1)).
  { unfold main. erewrite bind_Raise; [reflexivity|].
    rewrite (run_tests_prepared _ _ _ _ Hprep).
    apply run_ctests_missing. exact Hw. }
  split; [exact Hmain|]. split; [rewrite Hmain; reflexivity|].
  exact (prepared_quiet _ _ _ _ Hprep).
Qed.

Lemma run_failure (host : Host) (command : list string) (cwd : option path)
    (env : option environ) (w : World) (rc : Z) (out err : string) (t : tree) :
  spawn host command cwd (default (os_environ host) env) (fs w)
  = (Exited rc out err, t) ->
  rc <> 0 ->
  _run host command cwd env w
  = (Raise (CalledProcessError rc command None None),
     {| fs := t;
        log := log w ++ [ Stdout ("[coverage] " +:+ PyStr.join " " command);
                          Exec command cwd env false ] |}).
Proof.
  intros Hsp Hrc. apply Z.eqb_neq in Hrc.
  unfold _run, subprocess_run.
  cbv beta iota zeta delta [bind print emit]. cbn [fs log].
  rewrite Hsp, Hrc. rewrite <- app_assoc. reflexivity.
Qed.

Lemma run_not_started (host : Host) (command : list string) (cwd : option path)
    (env : option environ) (w : World) (msg : string) (t : tree) :
  spawn host command cwd (default (os_environ host) env) (fs w)
  = (NotStarted msg, t) ->
  _run host command cwd env w
  = (Raise (OSError msg),
     {| fs := t;
        log := log w ++ [ Stdout ("[coverage] " +:+ PyStr.join " " command);
                          Exec command cwd env false ] |}).
Proof.
  intros Hsp. unfold _run, subprocess_run.
  cbv beta iota zeta delta [bind print emit]. cbn [fs log].
  rewrite Hsp. rewrite <- app_assoc. reflexivity.
Qed.

Lemma run_success (host : Host) (command : list string) (cwd : option path)
    (env : option environ) (w : World) (out err : string) (t : tree) :
  spawn host command cwd (default (os_environ host) env) (fs w)
  = (Exited 0 out err, t) ->
  _run host command cwd env w
  = (Return {| returncode := 0; stdout := None; stderr := None |},
     {| fs := t;
        log := log w ++ [ Stdout ("[coverage] " +:+ PyStr.join " " command);
                          Exec command cwd env false ] |}).
Proof.
  intros Hsp. unfold _run, subprocess_run.
  cbv beta iota zeta delta [bind print emit]. cbn [fs log].
  rewrite Hsp. cbn [Z.eqb]. rewrite <- app_assoc. reflexivity.
Qed.

(** X2. When [ctest] ends with a status other than 0,
    [subprocess.run(..., check=True)] raises [CalledProcessError] with that
    status and the command, without captured output; [main] lets it through
    and the exit status is 1.  After the cleaning, the run printed the
    command line and started that one process, in the build directory and
    with the environment of the tests, and nothing else: no glob, no merge,
    no export, no report. *)
Theorem failing_tests_abort_the_run (host : Host) (args : Args)
    (w w1 : World) (ctest : string) (rc : Z) (out err : string) (t : tree) :
  let command := ctest_command ctest (config args) in
  prepared host args w w1 ->
  which host (fs w1) "ctest" = Some ctest ->
  PyStr.truthy ctest = true ->
  spawn host command (Some (resolve host (build_dir args)))
    (test_env host args) (fs w1) = (Exited rc out err, t) ->
  rc <> 0 ->
  main host args w
  = (Raise (CalledProcessError rc command None None),
     {| fs := t;
        log := log w1 ++ [ Stdout ("[coverage] " +:+ PyStr.join " " command);
                           Exec command (Some (resolve host (build_dir args)))
                             (Some (test_env host args)) false ] |})
  /\ exit_status (fst (main host args w)) = 1.
Proof.
  intros command Hprep Hw Ht Hsp Hrc.
  assert (Hmain : main host args w
                  = (Raise (CalledProcessError rc command None None),
                     {| fs := t;
                        log := log w1 ++ [ Stdout ("[coverage] " +:+ PyStr.join " " command);
                                           Exec command (Some (resolve host (build_dir args)))
                                             (Some (test_env host args)) false ] |})).
  { unfold main. erewrite bind_Raise; [reflexivity|].
    rewrite (run_tests_prepared _ _ _ _ Hprep).
    unfold _run_ctests. unfold ask at 1. unfold bind at 1. cbv beta iota.
    rewrite Hw, Ht. erewrite bind_Raise; [reflexivity|].
    apply (run_failure host command _ _ w1 rc out err t); assumption. }
  split; [exact Hmain|]. rewrite Hmain. reflexivity.
Qed.

(** ** Names of raw profiles *)


Lemma fnmatch_literal (c c' : ascii) (pat s : string) :
  wildcard c = false ->
  PyStr.fnmatch (String c pat) (String c' s)
  = Ascii.eqb c c' && PyStr.fnmatch pat s.
Proof.
  destruct c as [[] [] [] [] [] [] [] []]; intros Hc;
    try discriminate Hc; reflexivity.
Qed.

Lemma fnmatch_literal_nil (c : ascii) (pat : string) :
  wildcard c = false -> PyStr.fnmatch (String c pat) "" = false.
Proof.
  destruct c as [[] [] [] [] [] [] [] []]; intros Hc;
    try discriminate Hc; reflexivity.
Qed.

Lemma fnmatch_star (pat t : string) :
  PyStr.fnmatch (String "*" pat) t
  = PyStr.fnmatch pat t
    || match t with
       | EmptyString => false
       | String _ t' => PyStr.fnmatch (String "*" pat) t'
       end.
Proof. destruct t; reflexivity. Qed.

Lemma fnmatch_plain (pat s : string) :
  all_chars (fun c => negb (wildcard c)) pat = true ->
  PyStr.fnmatch pat s = true <-> s = pat.
Proof.
  revert s. induction pat as [|c pat IH]; intros s Hp.
  - destruct s; cbn; split; congruence.
  - cbn [all_chars] in Hp. apply andb_prop in Hp as [Hc Hp].
    apply negb_true_iff in Hc. destruct s as [|c' s].
    + rewrite (fnmatch_literal_nil _ _ Hc). split; discriminate.
    + rewrite (fnmatch_literal _ _ _ _ Hc). split.
      * intros [Hcc Hm]%andb_prop. apply Ascii.eqb_eq in Hcc.
        apply (IH s Hp) in Hm. congruence.
      * intros [= -> ->]. rewrite Ascii.eqb_refl. apply (IH pat Hp). reflexivity.
Qed.

Lemma fnmatch_star_iff (pat t : string) :
  PyStr.fnmatch (String "*" pat) t = true
  <-> exists s rest, t = s +:+ rest /\ PyStr.fnmatch pat rest = true.
Proof.
  split.
  - induction t as [|c t IH]; rewrite fnmatch_star.
    + rewrite orb_false_r. intros H. exists "", "". split; [reflexivity | exact H].
    + intros [H|H]%orb_prop.
      * exists "", (String c t). split; [reflexivity | exact H].
      * destruct (IH H) as (s & rest & -> & Hrest).
        exists (String c s), rest. split; [reflexivity | exact Hrest].
  - intros (s & rest & -> & Hrest). induction s as [|c s IH].
    + rewrite fnmatch_star. change ("" +:+ rest) with rest. rewrite Hrest. reflexivity.
    + rewrite append_cons, fnmatch_star, IH. apply orb_true_r.
Qed.

Lemma profraw_name (name : string) :
  PyStr.fnmatch "sparkle-*.profraw" name = true
  <-> exists pid, name = "sparkle-" +:+ pid +:+ ".profraw".
Proof.
  assert (Hpre : forall s,
             PyStr.fnmatch "sparkle-*.profraw" ("sparkle-" +:+ s)
             = PyStr.fnmatch "*.profraw" s).
  { intros s. reflexivity. }
  assert (Hsuf : forall rest, PyStr.fnmatch ".profraw" rest = true <-> rest = ".profraw").
  { intros rest. apply fnmatch_plain. reflexivity. }
  split.
  - intros H.
    assert (Hhead : exists s, name = "sparkle-" +:+ s).
    { revert H.
      repeat (destruct name as [|? name];
              [discriminate|];
              rewrite fnmatch_literal by reflexivity;
              intros [->%Ascii.eqb_eq H]%andb_prop; revert H).
      intros _. eexists. reflexivity. }
    destruct Hhead as (s & ->). rewrite Hpre in H.
    apply fnmatch_star_iff in H as (pid & rest & -> & Hrest).
    apply Hsuf in Hrest as ->. exists pid. reflexivity.
  - intros (pid & ->). rewrite Hpre. apply fnmatch_star_iff.
    exists pid, ".profraw". split; [reflexivity|]. apply Hsuf. reflexivity.
Qed.

(** ** Reading directories *)

Lemma listdir_spec (t : tree) (d q : path) :
  In q (listdir t d) <-> q <> [] /\ parent q = d /\ is_Some (t !! q).
Proof.
  unfold listdir. rewrite filter_In, andb_true_iff, negb_true_iff.
  rewrite bool_decide_eq_false, bool_decide_eq_true.
  rewrite <- list_elem_of_In, list_elem_of_fmap.
  split.
  - intros (((k & v) & -> & Hkv) & Hne & Hp). cbn in *.
    apply elem_of_map_to_list in Hkv. repeat split; eauto.
  - intros (Hne & Hp & (v & Hv)). split; [|split; assumption].
    exists (q, v). split; [reflexivity|]. apply elem_of_map_to_list. exact Hv.
Qed.

Lemma glob_spec (t : tree) (d q : path) (pat : string) :
  In q (glob t d pat)
  <-> is_dir t d = true /\ q <> [] /\ parent q = d /\ is_Some (t !! q)
      /\ PyStr.fnmatch pat (name q) = true.
Proof.
  unfold glob. destruct (is_dir t d).
  - rewrite filter_In, listdir_spec. tauto.
  - cbn. split; [intros [] | intros [? _]; discriminate].
Qed.

Lemma parent_child (d : path) (n : string) : parent (child d n) = d.
Proof. unfold parent, child. apply removelast_last. Qed.

Lemma name_child (d : path) (n : string) : name (child d n) = n.
Proof. unfold name, child. apply last_last. Qed.

Lemma child_not_root (d : path) (n : string) : child d n <> [].
Proof. unfold child. destruct d; discriminate. Qed.

(** X3. The environment of the tests and the pattern of the glob
    fit together.  [LLVM_PROFILE_FILE] is the coverage directory's
    [sparkle-%p.profraw] and [SPARKLE_SOURCE_ROOT] the resolved source root,
    every other variable being inherited from [os.environ].  A name matches
    [sparkle-*.profraw] exactly when it is [sparkle-], any text, [.profraw]:
    so the file the template gives for any process id, once present in the
    coverage directory, is among the globbed profiles, while the merged
    database [sparkle.profdata] never is. *)
Theorem profiles_of_the_template_are_collected (host : Host) (args : Args) :
  test_env host args !! "LLVM_PROFILE_FILE"
  = Some (str_of_path (child (coverage_dir host args) "sparkle-%p.profraw"))
  /\ (forall name : string,
        PyStr.fnmatch "sparkle-*.profraw" name = true
        <-> exists pid, name = "sparkle-" +:+ pid +:+ ".profraw")
  /\ (forall (t : tree) (pid : string),
        is_dir t (coverage_dir host args) = true ->
        is_Some (t !! child (coverage_dir host args)
                        ("sparkle-" +:+ pid +:+ ".profraw")) ->
        In (child (coverage_dir host args) ("sparkle-" +:+ pid +:+ ".profraw"))
           (glob t (coverage_dir host args) "sparkle-*.profraw"))
  /\ (forall t : tree,
        ~ In (profdata_path host args)
             (glob t (coverage_dir host args) "sparkle-*.profraw"))
  /\ test_env host args !! "SPARKLE_SOURCE_ROOT"
     = Some (str_of_path (resolve host (source_root args)))
  /\ (forall k : string,
        k <> "LLVM_PROFILE_FILE" -> k <> "SPARKLE_SOURCE_ROOT" ->
        test_env host args !! k = os_environ host !! k).
Proof.
  split; [|split; [|split; [|split; [|split]]]];
    [| | | |unfold test_env; apply lookup_insert_eq
     |intros k H1 H2; unfold test_env; rewrite !lookup_insert_ne by congruence;
      reflexivity].
  - unfold test_env. rewrite lookup_insert_ne by discriminate.
    rewrite lookup_insert_eq. reflexivity.
  - exact profraw_name.
  - intros t pid Hd Hsome. apply glob_spec.
    split; [exact Hd|]. split; [apply child_not_root|].
    split; [apply parent_child|]. split; [exact Hsome|].
    rewrite name_child. apply profraw_name. exists pid. reflexivity.
  - intros t Hin. apply glob_spec in Hin as (_ & _ & _ & _ & Hm).
    unfold profdata_path in Hm. rewrite name_child in Hm. discriminate Hm.
Qed.

Lemma profiles_collected_witness :
  let host := Demo.host ["sparkle-1.profraw"] 0 (PyFloat.of_Z 90) in
  let args := Demo.args "Debug" PyFloat.zero None None in
  In ["w"; "cov"; "sparkle-7.profraw"]
     (glob Demo.tree1 (coverage_dir host args) "sparkle-*.profraw").
Proof.
  intros host args.
  apply (proj1 (proj2 (proj2 (profiles_of_the_template_are_collected host args)))
           Demo.tree1 "7").
  - vm_compute. reflexivity.
  - vm_compute. eexists. reflexivity.
Defined.

Lemma NoDup_listdir (t : tree) (d : path) : NoDup (listdir t d).
Proof.
  unfold listdir. apply NoDup_ListNoDup, List.NoDup_filter, NoDup_ListNoDup.
  apply NoDup_fst_map_to_list.
Qed.

Lemma NoDup_glob (t : tree) (d : path) (pat : string) : List.NoDup (glob t d pat).
Proof.
  unfold glob. destruct (is_dir t d); [|constructor].
  apply List.NoDup_filter, NoDup_ListNoDup, NoDup_listdir.
Qed.

(** ** The stale profiles, one by one *)

(** One turn of the loop, with what made it fail. *)
Lemma remove_profile_exact (host : Host) (file : path) (w : World) :
  file <> [] ->
  is_Some (fs w !! file) ->
  exists failure : option string,
    remove_profile host file w
    = (Return tt,
       {| fs := match failure with
                | None => delete file (fs w)
                | Some _ => fs w
                end;
          log := log w ++ removal_events file failure |})
    /\ match failure with
       | None =>
           refuses host (OpUnlink file) (fs w) = None
           /\ exists content, fs w !! file = Some (File content)
       | Some msg =>
           refuses host (OpUnlink file) (fs w) = Some msg
           \/ (refuses host (OpUnlink file) (fs w) = None
               /\ fs w !! file = Some Dir /\ msg = "Is a directory")
       end.
Proof.
  intros Hne Hsome. unfold remove_profile, fs_do.
  cbv beta iota zeta delta [try_except print_err emit]. cbn [fs log].
  destruct (refuses host (OpUnlink file) (fs w)) as [msg|] eqn:Href.
  { exists (Some msg). cbn [fs log]. unfold removal_events. rewrite <- app_assoc.
    split; [reflexivity | left; reflexivity]. }
  cbn [apply_op]. unfold unlink, lookup_node.
  destruct file as [|n file']; [congruence|].
  destruct (fs w !! (n :: file')) as [[content|]|] eqn:Hl; cbn [fs log].
  - exists None. unfold removal_events. split; [reflexivity|].
    split; [reflexivity | exists content; reflexivity].
  - exists (Some "Is a directory"). unfold removal_events. rewrite <- app_assoc.
    split; [reflexivity|]. right. repeat split; reflexivity.
  - destruct Hsome as [x Hx]. discriminate Hx.
Qed.

Lemma flat_map_agree {A B} (f g : A -> list B) (l : list A) :
  (forall a, In a l -> f a = g a) -> flat_map f l = flat_map g l.
Proof.
  induction l as [|a l IH]; intros H; [reflexivity|].
  cbn [flat_map]. rewrite (H a) by (left; reflexivity).
  rewrite IH by (intros b Hb; apply H; right; exact Hb). reflexivity.
Qed.

(** The loop over distinct entries of the tree: what is logged, what the
    tree becomes, and for every file the tree [t] in which its removal was
    attempted. *)
Lemma clean_loop_exact (host : Host) (files : list path) :
  List.NoDup files ->
  forall w : World,
  (forall f, In f files -> f <> [] /\ is_Some (fs w !! f)) ->
  exists (w' : World) (failure : path -> option string),
    for_each files (remove_profile host) w = (Return tt, w')
    /\ log w' = log w ++ flat_map (fun f => removal_events f (failure f)) files
    /\ (forall q, ~ In q files -> fs w' !! q = fs w !! q)
    /\ (forall f, In f files ->
          exists t : tree,
            t !! f = fs w !! f
            /\ (forall q, ~ In q files -> t !! q = fs w !! q)
            /\ match failure f with
               | None =>
                   refuses host (OpUnlink f) t = None
                   /\ (exists content, fs w !! f = Some (File content))
                   /\ fs w' !! f = None
               | Some msg =>
                   fs w' !! f = fs w !! f
                   /\ (refuses host (OpUnlink f) t = Some msg
                       \/ (refuses host (OpUnlink f) t = None
                           /\ fs w !! f = Some Dir /\ msg = "Is a directory"))
               end).
Proof.
  induction 1 as [|f files Hnin Hnodup IH]; intros w Hfiles.
  - exists w, (fun _ => None). cbn [for_each flat_map]. unfold ret.
    rewrite app_nil_r. repeat split; auto. intros f [].
  - destruct (Hfiles f (or_introl eq_refl)) as [Hne Hsome].
    destruct (remove_profile_exact host f w Hne Hsome) as (failure0 & Hrun & Hwhy).
    cbn [for_each]. rewrite (bind_Return _ _ _ _ _ Hrun).
    set (w1 := {| fs := match failure0 with
                        | None => delete f (fs w)
                        | Some _ => fs w
                        end;
                  log := log w ++ removal_events f failure0 |}) in *.
    assert (Hw1 : forall q, q <> f -> fs w1 !! q = fs w !! q).
    { intros q Hq. unfold w1. cbn [fs].
      destruct failure0; [reflexivity | apply lookup_delete_ne; congruence]. }
    assert (Hfiles1 : forall g, In g files -> g <> [] /\ is_Some (fs w1 !! g)).
    { intros g Hg. destruct (Hfiles g (or_intror Hg)) as [Hgne Hgsome].
      split; [exact Hgne|]. rewrite Hw1; [exact Hgsome|].
      intros ->. contradiction. }
    destruct (IH w1 Hfiles1) as (w' & failure' & Hloop & Hlog & Hout & Hin).
    exists w', (fun p => if decide (p = f) then failure0 else failure' p).
    split; [exact Hloop|]. split; [|split].
    + rewrite Hlog. unfold w1. cbn [log flat_map].
      destruct (decide (f = f)) as [_|Hff]; [|congruence].
      rewrite <- app_assoc. do 2 f_equal.
      apply flat_map_agree. intros g Hg.
      destruct (decide (g = f)) as [->|_]; [contradiction | reflexivity].
    + intros q Hq. rewrite Hout by (intros ?; apply Hq; right; assumption).
      apply Hw1. intros ->. apply Hq. left. reflexivity.
    + intros g [<-|Hg].
      * exists (fs w). split; [reflexivity|]. split; [reflexivity|].
        destruct (decide (f = f)) as [_|Hff]; [|congruence].
        rewrite (Hout f Hnin). unfold w1. cbn [fs].
        destruct failure0 as [msg|].
        -- split; [reflexivity | exact Hwhy].
        -- destruct Hwhy as [Href Hfile].
           split; [exact Href|]. split; [exact Hfile | apply lookup_delete_eq].
      * assert (Hgf : g <> f) by (intros ->; contradiction).
        destruct (Hin g Hg) as (t & Htg & Htout & Hcase).
        exists t. split; [rewrite Htg; apply Hw1; exact Hgf|]. split.
        { intros q Hq. rewrite Htout by (intros ?; apply Hq; right; assumption).
          apply Hw1. intros ->. apply Hq. left. reflexivity. }
        destruct (decide (g = f)) as [|_]; [contradiction|].
        rewrite (Hw1 g Hgf) in Hcase. exact Hcase.
Qed.

(** C6. [_clean_existing_profiles] always returns normally.  It tries to
    remove every entry of the profile directory that matches the pattern,
    in the order of the glob, and logs exactly these attempts, each one
    followed by a warning on the standard error when, and only when, it
    raised [OSError]: when the system refused the removal, or the entry is
    a directory.  An entry whose removal did not raise is a regular file
    and is gone afterwards; an entry whose removal raised is as before, the
    warning naming it and carrying the error's text.  So a regular file
    whose removal the system never refuses is gone, without a warning.
    Nothing else in the tree changes.  In [main] this happens before the
    tests: the test runner starts in the world the cleaning left. *)
Theorem stale_profiles_removed_or_reported (host : Host) :
  (forall (profile_dir : path) (pattern : string) (w : World),
      let files := glob (fs w) profile_dir pattern in
      exists (w' : World) (failure : path -> option string),
        _clean_existing_profiles host profile_dir pattern w = (Return tt, w')
        /\ log w' = log w ++ flat_map (fun f => removal_events f (failure f)) files
        /\ (forall file, In file files ->
              exists t : tree,
                t !! file = fs w !! file
                /\ (forall q, ~ In q files -> t !! q = fs w !! q)
                /\ match failure file with
                   | None =>
                       refuses host (OpUnlink file) t = None
                       /\ (exists content, fs w !! file = Some (File content))
                       /\ fs w' !! file = None
                   | Some msg =>
                       fs w' !! file = fs w !! file
                       /\ (refuses host (OpUnlink file) t = Some msg
                           \/ (refuses host (OpUnlink file) t = None
                               /\ fs w !! file = Some Dir
                               /\ msg = "Is a directory"))
                   end)
        /\ (forall (file : path) (content : string),
              In file files ->
              fs w !! file = Some (File content) ->
              (forall t, refuses host (OpUnlink file) t = None) ->
              failure file = None /\ fs w' !! file = None)
        /\ (forall file, In file files ->
              fs w' !! file = None
              \/ (fs w' !! file = fs w !! file
                  /\ exists msg, In (Stderr (unlink_warning file msg)) (log w')))
        /\ (forall q, ~ In q files -> fs w' !! q = fs w !! q))
  /\ (forall (args : Args) (w w0 : World),
        fs_do host (OpMkdir (coverage_dir host args)) w = (Return tt, w0) ->
        run_tests host args w
        = _run_ctests host (resolve host (build_dir args)) (config args)
            (test_env host args)
            (snd (_clean_existing_profiles host (coverage_dir host args)
                    "sparkle-*.profraw" w0))).
Proof.
  split.
  - intros profile_dir pattern w files.
    assert (Hfiles : forall f, In f files -> f <> [] /\ is_Some (fs w !! f)).
    { intros f Hf. apply glob_spec in Hf as (_ & Hne & _ & Hsome & _).
      split; assumption. }
    destruct (clean_loop_exact host files (NoDup_glob _ _ _) w Hfiles)
      as (w' & failure & Hrun & Hlog & Hout & Hin).
    exists w', failure.
    split; [unfold _clean_existing_profiles;
            cbv beta iota zeta delta [bind ask]; exact Hrun|].
    split; [exact Hlog|]. split; [exact Hin|]. split; [|split; [|exact Hout]].
    + intros file content Hfile Hcontent Hnever.
      destruct (Hin file Hfile) as (t & _ & _ & Hcase).
      destruct (failure file) as [msg|].
      * destruct Hcase as (_ & [Href|(_ & Hdir & _)]).
        -- rewrite Hnever in Href. discriminate Href.
        -- rewrite Hcontent in Hdir. discriminate Hdir.
      * split; [reflexivity | apply Hcase].
    + intros file Hfile.
      destruct (Hin file Hfile) as (t & _ & _ & Hcase).
      destruct (failure file) as [msg|] eqn:Hfail.
      * right. split; [apply Hcase|]. exists msg.
        rewrite Hlog. apply in_or_app. right.
        apply in_flat_map. exists file. split; [exact Hfile|].
        rewrite Hfail. right. left. reflexivity.
      * left. apply Hcase.
  - intros args w w0 Hmk. unfold run_tests.
    rewrite (bind_Return _ _ _ _ _ Hmk).
    destruct (clean_existing_profiles_run host (coverage_dir host args)
                "sparkle-*.profraw" w0) as (w' & evs & Hrun & _).
    rewrite (bind_Return _ _ _ _ _ Hrun), Hrun. reflexivity.
Qed.

Lemma stale_profiles_witness :
  let host := Demo.host ["sparkle-1.profraw"] 0 (PyFloat.of_Z 90) in
  let args := Demo.args "Debug" PyFloat.zero None None in
  let w0 := snd (fs_do host (OpMkdir (coverage_dir host args)) Demo.world0) in
  let cleaned := snd (_clean_existing_profiles host (coverage_dir host args)
                        "sparkle-*.profraw" w0) in
  let locked := ["w"; "cov"; "sparkle-locked.profraw"] in
  run_tests host args Demo.world0
  = _run_ctests host (resolve host (build_dir args)) (config args)
      (test_env host args) cleaned
  /\ fs cleaned !! ["w"; "cov"; "sparkle-7.profraw"] = None
  /\ fs cleaned !! locked = fs w0 !! locked
  /\ exists msg, In (Stderr (unlink_warning locked msg)) (log cleaned).
Proof.
  intros host args w0 cleaned locked. split.
  - apply (proj2 (stale_profiles_removed_or_reported host) args Demo.world0 w0).
    by_running.
  - destruct (proj1 (stale_profiles_removed_or_reported host)
                (coverage_dir host args) "sparkle-*.profraw" w0)
      as (w' & failure & Hrun & _ & _ & Hgone & Hin & _).
    subst cleaned. rewrite Hrun. cbn [snd]. split.
    + apply (Hgone ["w"; "cov"; "sparkle-7.profraw"] "stale").
      * vm_compute. right. left. reflexivity.
      * vm_compute. reflexivity.
      * intros t. vm_compute. reflexivity.
    + destruct (Hin locked) as [Hnone|Hkept].
      * vm_compute. left. reflexivity.
      * exfalso.
        assert (Hw' : w' = snd (_clean_existing_profiles host
                                  (coverage_dir host args) "sparkle-*.profraw" w0))
          by (rewrite Hrun; reflexivity).
        rewrite Hw' in Hnone. vm_compute in Hnone. discriminate Hnone.
      * exact Hkept.
Defined.

(** ** What the cleaning leaves *)

(** X4. A raw profile that the glob still finds after
    [_clean_existing_profiles] was there before, is unchanged, and was
    reported by a warning on stderr: stale data can reach the merge only
    after such a warning. *)
Theorem profiles_left_after_cleaning_were_reported (host : Host)
    (profile_dir : path) (pattern : string) (w : World) (file : path) :
  let cleaned := snd (_clean_existing_profiles host profile_dir pattern w) in
  In file (glob (fs cleaned) profile_dir pattern) ->
  In file (glob (fs w) profile_dir pattern)
  /\ fs cleaned !! file = fs w !! file
  /\ exists msg, In (Stderr (unlink_warning file msg)) (log cleaned).
Proof.
  intros cleaned Hin.
  destruct (clean_existing_profiles_run host profile_dir pattern w)
    as (w' & evs & Hrun & Hlog & _ & Hout & Hwarn).
  subst cleaned. rewrite Hrun in *. cbn [snd] in *.
  apply glob_spec in Hin as (Hd & Hne & Hp & Hsome & Hm).
  assert (Hdir : ~ In profile_dir (glob (fs w) profile_dir pattern)).
  { intros Hdin. apply glob_spec in Hdin as (_ & Hdne & Hdp & _).
    unfold parent in Hdp. destruct profile_dir as [|x l] using rev_ind;
      [congruence|].
    rewrite removelast_last in Hdp.
    apply (f_equal length) in Hdp. rewrite length_app in Hdp. cbn in Hdp. lia. }
  assert (Hd0 : is_dir (fs w) profile_dir = true).
  { unfold is_dir, lookup_node in *. destruct profile_dir; [reflexivity|].
    rewrite <- (Hout _ Hdir). exact Hd. }
  assert (Hin0 : In file (glob (fs w) profile_dir pattern)).
  { apply glob_spec. repeat split; try assumption.
    destruct (in_dec (fun x y : path => decide (x = y)) file
                (glob (fs w) profile_dir pattern)) as [Hi|Hni].
    - apply glob_spec in Hi as (_ & _ & _ & Hs & _). exact Hs.
    - rewrite <- (Hout _ Hni). exact Hsome. }
  split; [exact Hin0|].
  destruct (Hwarn _ Hin0) as [Hnone|(Hsame & msg & Hmsg)].
  - rewrite Hnone in Hsome. destruct Hsome as [x Hx]. discriminate.
  - split; [exact Hsame|]. exists msg. rewrite Hlog.
    apply in_or_app. right. exact Hmsg.
Qed.

Lemma profiles_left_witness :
  let host := Demo.host [] 0 PyFloat.zero in
  let file := ["w"; "cov"; "sparkle-locked.profraw"] in
  let cleaned := snd (_clean_existing_profiles host ["w"; "cov"]
                        "sparkle-*.profraw" Demo.world0) in
  In file (glob (fs cleaned) ["w"; "cov"] "sparkle-*.profraw")
  /\ exists msg, In (Stderr (unlink_warning file msg)) (log cleaned).
Proof.
  intros host file cleaned.
  assert (H : In file (glob (fs cleaned) ["w"; "cov"] "sparkle-*.profraw"))
    by (vm_compute; left; reflexivity).
  split; [exact H|].
  exact (proj2 (proj2 (profiles_left_after_cleaning_were_reported
                         host ["w"; "cov"] "sparkle-*.profraw" Demo.world0
                         file H))).
Defined.

(** ** Merging *)


Lemma merge_profiles_run (host : Host) (llvm_profdata : path)
    (profraw_files : list path) (output : path) (w : World) :
  let command := merge_command llvm_profdata profraw_files output in
  let done := spawn host command None (os_environ host) (fs w) in
  exists r,
    _merge_profiles host llvm_profdata profraw_files output w
    = (r, {| fs := snd done;
             log := log w ++ [ Stdout ("[coverage] " +:+ PyStr.join " " command);
                               Exec command None None false ] |})
    /\ (r = Return tt <-> exists out err, fst done = Exited 0 out err).
Proof.
  intros command done. unfold _merge_profiles. cbv zeta.
  replace (([str_of_path llvm_profdata; "merge"; "-sparse"]
            ++ map str_of_path profraw_files) ++ ["-o"; str_of_path output])
    with command by (unfold command, merge_command; rewrite <- !app_assoc; reflexivity).
  unfold bind at 1.
  destruct done as [[rc out err|msg] t] eqn:Hdone; subst done.
  - destruct (Z.eq_dec rc 0) as [->|Hrc].
    + rewrite (run_success host command None None w out err t Hdone).
      eexists. split; [reflexivity|]. split; [eauto | reflexivity].
    + rewrite (run_failure host command None None w rc out err t Hdone Hrc).
      eexists. split; [reflexivity|].
      split; [discriminate | intros (? & ? & [= ? _ _]); contradiction].
  - rewrite (run_not_started host command None None w msg t Hdone).
    eexists. split; [reflexivity|].
    split; [discriminate | intros (? & ? & [=])].
Qed.

(** X5. The merge stage (lines 189-193) either stops at the
    removal of the old database with an [OSError], the merge tool not being
    started, or starts the tool [llvm-profdata merge -sparse <files> -o
    <database>] in a tree that has no entry at the database's path and is
    otherwise the tree the stage found; the stage then succeeds exactly when
    the tool exits with 0, and the tree it leaves is the tool's. *)
Theorem merge_starts_without_old_database (host : Host) (args : Args)
    (files : list path) (w w' : World) (r : result unit) :
  let database := profdata_path host args in
  let command :=
    merge_command (resolve host (llvm_profdata args)) files database in
  merge_stage host args files w = (r, w') ->
  (exists msg,
      r = Raise (OSError msg) /\ w' = emit (Fs (OpUnlink database)) w)
  \/ (exists t0,
         t0 !! database = None
         /\ (forall q, q <> database -> t0 !! q = fs w !! q)
         /\ fs w' = snd (spawn host command None (os_environ host) t0)
         /\ (r = Return tt
             <-> exists out err,
                   fst (spawn host command None (os_environ host) t0)
                   = Exited 0 out err)
         /\ In (Exec command None None false) (log w')).
Proof.
  intros database command. unfold merge_stage. fold database.
  unfold ask at 1. unfold bind at 1. cbv beta iota.
  assert (Hne : database <> []) by apply child_not_root.
  assert (Hex : exists_ (fs w) database
                = match fs w !! database with Some _ => true | None => false end).
  { unfold exists_, lookup_node. destruct database; [congruence | reflexivity]. }
  rewrite Hex.
  destruct (fs w !! database) as [nd|] eqn:Hl.
  - unfold bind at 1. unfold fs_do. cbv beta iota zeta.
    destruct (refuses host (OpUnlink database) (fs w)) as [msg|].
    { intros [= <- <-]. left. exists msg. split; reflexivity. }
    cbn [apply_op]. unfold unlink, lookup_node.
    destruct database as [|n p] eqn:Hd; [congruence|]. rewrite Hl.
    destruct nd as [content|].
    + destruct (merge_profiles_run host (resolve host (llvm_profdata args))
                  files (n :: p)
                  {| fs := delete (n :: p) (fs w);
                     log := log (emit (Fs (OpUnlink (n :: p))) w) |})
        as (r0 & Hrun & Hr0).
      cbv zeta in Hrun, Hr0. fold command in Hrun, Hr0. cbn [fs log] in Hrun, Hr0.
      rewrite Hrun. intros [= <- <-]. right.
      exists (delete (n :: p) (fs w)). cbn [fs log].
      split; [apply lookup_delete_eq|].
      split; [intros q Hq; apply lookup_delete_ne; congruence|].
      split; [reflexivity|]. split; [exact Hr0|].
      apply in_or_app. right. right. left. reflexivity.
    + intros [= <- <-]. left. eexists. split; reflexivity.
  - unfold bind at 1. unfold ret at 1. cbv beta iota.
    destruct (merge_profiles_run host (resolve host (llvm_profdata args))
                files database w) as (r0 & Hrun & Hr0).
    cbv zeta in Hrun, Hr0. fold command in Hrun, Hr0.
    rewrite Hrun. intros [= <- <-]. right.
    exists (fs w). cbn [fs log].
    split; [exact Hl|]. split; [reflexivity|]. split; [reflexivity|].
    split; [exact Hr0|].
    apply in_or_app. right. right. left. reflexivity.
Qed.

(** ** Reading the summary *)

Lemma export_summary_success (host : Host) (llvm_cov binary : path)
    (libs : list path) (profdata : path) (ignore_patterns : list string)
    (w : World) (out err : string) (t : tree) :
  let command := export_command llvm_cov binary libs profdata ignore_patterns in
  spawn host command None (os_environ host) (fs w) = (Exited 0 out err, t) ->
  _export_summary host llvm_cov binary libs profdata ignore_patterns w
  = (match json_loads host out with
     | Some v => Return v
     | None => Raise JSONDecodeError
     end,
     {| fs := t;
        log := log w ++ [ Stdout ("[coverage] " +:+ PyStr.join " " command);
                          Exec command None None true ] |}).
Proof.
  intros command Hsp. unfold _export_summary. cbv zeta. fold command.
  unfold bind at 1. unfold print at 1. cbv beta iota.
  unfold bind at 1. unfold run_captured, subprocess_run.
  cbv beta iota zeta delta [try_except emit]. cbn [fs log default from_option id].
  rewrite Hsp. cbn [Z.eqb stdout default from_option id].
  rewrite <- app_assoc. cbn [app].
  destruct (json_loads host out); reflexivity.
Qed.

Lemma measure_run (host : Host) (args : Args) (w w' : World)
    (summary : Json.value) :
  _export_summary host (resolve host (llvm_cov args)) (resolve host (binary args))
    (libraries host args) (profdata_path host args) (ignore_regex args) w
  = (Return summary, w') ->
  measure host args w
  = match percentages host summary with
    | Return (l, f, r) =>
        (Return (l, f, r),
         {| fs := fs w'; log := log w' ++ coverage_lines l f r |})
    | Raise e => (Raise e, w')
    end.
Proof.
  intros Hex. unfold measure. rewrite (bind_Return _ _ _ _ _ Hex).
  unfold percentages.
  cbv beta iota zeta delta [bind lift print ret emit coverage_lines].
  destruct (totals summary) as [data_root|e]; [|reflexivity].
  destruct (percent host data_root "lines") as [l|e]; [|reflexivity].
  destruct (percent host data_root "functions") as [f|e]; [|reflexivity].
  destruct (percent host data_root "regions") as [r|e]; [|reflexivity].
  cbn [fs log]. rewrite <- !app_assoc. reflexivity.
Qed.

Lemma main_after_merge (host : Host) (args : Args) (w w2 : World) :
  merged host args w w2 ->
  main host args w
  = (pcts <- measure host args ;;
     let '(line_pct, func_pct, region_pct) := pcts in
     publish host args line_pct func_pct region_pct ;;
     threshold_gate args line_pct) w2.
Proof.
  intros (w1 & Ht & Hg & Hm).
  unfold main. rewrite (bind_Return _ _ _ _ _ Ht).
  unfold ask at 1. unfold bind at 1.
  destruct (glob (fs w1) (coverage_dir host args) "sparkle-*.profraw")
    as [|f files] eqn:Hfiles; [congruence|].
  rewrite (bind_Return _ _ _ _ _ Hm). reflexivity.
Qed.

(** X6. Of the summary's ["data"] list only the first element is
    read: the percentages are those of a summary holding that element alone.
    A summary without ["data"] raises [KeyError], an empty ["data"] list
    [IndexError], totals without the kind asked for [KeyError] of that kind,
    and a [null] percentage [TypeError] (from [float(None)]). *)
Theorem summary_is_read_from_first_data_root (host : Host) :
  (forall (d : list (string * Json.value)) (first : Json.value)
          (others : list Json.value),
      Json.assoc "data" d = Some (Json.List (first :: others)) ->
      percentages host (Json.Dict d)
      = percentages host (Json.Dict [("data", Json.List [first])]))
  /\ (forall d : list (string * Json.value),
        Json.assoc "data" d = None ->
        percentages host (Json.Dict d) = Raise (KeyError "data"))
  /\ (forall d : list (string * Json.value),
        Json.assoc "data" d = Some (Json.List []) ->
        percentages host (Json.Dict d) = Raise IndexError)
  /\ (forall (tot : list (string * Json.value)) (kind : string),
        Json.assoc kind tot = None ->
        percent host (Json.Dict tot) kind = Raise (KeyError kind))
  /\ (forall (tot entry : list (string * Json.value)) (kind : string),
        Json.assoc kind tot = Some (Json.Dict entry) ->
        Json.assoc "percent" entry = Some Json.Null ->
        percent host (Json.Dict tot) kind = Raise TypeError).
Proof.
  split; [|split; [|split; [|split]]].
  - intros d first others Hd. unfold percentages, totals.
    cbn [Json.getitem_str Json.assoc String.eqb Ascii.eqb Bool.eqb].
    rewrite Hd. reflexivity.
  - intros d Hd. unfold percentages, totals. cbn [Json.getitem_str].
    rewrite Hd. reflexivity.
  - intros d Hd. unfold percentages, totals. cbn [Json.getitem_str].
    rewrite Hd. reflexivity.
  - intros tot kind Hk. unfold percent. cbn [Json.getitem_str].
    rewrite Hk. reflexivity.
  - intros tot entry kind Hk Hp. unfold percent. cbn [Json.getitem_str].
    rewrite Hk. cbn [Json.getitem_str]. rewrite Hp. reflexivity.
Qed.

Lemma first_data_root_witness :
  let host := Demo.host [] 0 PyFloat.zero in
  let root := Json.Dict
                [ ("totals",
                   Json.Dict
                     [ ("lines", Json.Dict [("count", Json.Int 8); ("percent", Json.Int 75)]);
                       ("functions", Json.Dict [("percent", Json.Float (PyFloat.literal 5 1))]);
                       ("regions", Json.Dict [("percent", Json.Bool true)]) ]) ] in
  percentages host
    (Json.Dict [ ("version", Json.Str "2.0.1");
                 ("data", Json.List [root; Json.Null; Json.Dict []]) ])
  = Return (PyFloat.of_Z 75, PyFloat.literal 5 1, PyFloat.of_Z 1).
Proof.
  intros host root.
  rewrite (proj1 (summary_is_read_from_first_data_root host) _ root
             [Json.Null; Json.Dict []]); [|reflexivity].
  vm_compute. reflexivity.
Defined.

(** X7. When the export tool succeeds but its output is not JSON,
    or lacks what lines 197-200 read, the exception raised there leaves
    [main] with exit status 1.  The tree is the one the tool left and the
    last events are the printed command line and the tool's run: no
    percentage is printed, no report is written, no HTML is made. *)
Theorem unreadable_summary_aborts_before_report (host : Host) (args : Args)
    (w w2 : World) (out err : string) (t : tree) (e : exn) :
  let command :=
    export_command (resolve host (llvm_cov args)) (resolve host (binary args))
      (libraries host args) (profdata_path host args) (ignore_regex args) in
  merged host args w w2 ->
  spawn host command None (os_environ host) (fs w2) = (Exited 0 out err, t) ->
  match json_loads host out with
  | Some summary => percentages host summary
  | None => Raise JSONDecodeError
  end = Raise e ->
  main host args w
  = (Raise e,
     {| fs := t;
        log := log w2 ++ [ Stdout ("[coverage] " +:+ PyStr.join " " command);
                           Exec command None None true ] |})
  /\ exit_status (fst (main host args w)) = 1.
Proof.
  intros command Hm Hsp He.
  pose proof (export_summary_success host _ _ _ _ _ w2 out err t Hsp) as Hex.
  cbv zeta in Hex. fold command in Hex.
  assert (Hmain : main host args w
                  = (Raise e,
                     {| fs := t;
                        log := log w2 ++ [ Stdout ("[coverage] " +:+ PyStr.join " " command);
                                           Exec command None None true ] |})).
  { rewrite (main_after_merge _ _ _ _ Hm).
    erewrite bind_Raise; [reflexivity|].
    destruct (json_loads host out) as [summary|].
    - rewrite (measure_run _ _ _ _ _ Hex), He. reflexivity.
    - injection He as <-. unfold measure. erewrite bind_Raise; [reflexivity|].
      exact Hex. }
  split; [exact Hmain|]. rewrite Hmain. reflexivity.
Qed.

Lemma unreadable_summary_witness :
  let host := with_summary (Demo.host ["sparkle-1.profraw"] 0 PyFloat.zero)
                (Some (Json.Dict [("data", Json.List [])])) in
  let args := Demo.args "Debug" PyFloat.zero None None in
  fst (main host args Demo.world1) = Raise IndexError.
Proof.
  intros host args.
  refine (f_equal fst
            (proj1 (unreadable_summary_aborts_before_report host args Demo.world1
                      (Demo.merged_world host args)
                      "SUMMARY" "warning: 1 function mismatched"
                      (snd (spawn host
                              (export_command (resolve host (llvm_cov args))
                                 (resolve host (binary args)) (libraries host args)
                                 (profdata_path host args) (ignore_regex args))
                              None (os_environ host)
                              (fs (Demo.merged_world host args))))
                      IndexError _ _ _))).
  - exists (Demo.tested host args). split; [by_running|].
    split; [vm_compute; discriminate|]. by_running.
  - by_running.
  - reflexivity.
Defined.

(** ** How [main] returns *)

Lemma appends_render (host : Host) (args : Args) : appends (render host args).
Proof.
  unfold render.
  destruct (optional_dir host (html_dir args)) as [hd|];
    destruct (optional_dir host (docs_dir args)) as [dd|];
    auto 8 with run_log.
Qed.

Lemma publish_written (host : Host) (args : Args) (w3 w4 : World)
    (l f r : PyFloat.float) :
  publish host args l f r w3 = (Return tt, w4) ->
  In (Fs (OpWriteText (resolve host (output args)) (report_text l f r))) (log w4).
Proof.
  unfold publish. intros Hp.
  apply bind_inv in Hp as ([] & wr & Hw & Hrest).
  destruct (write_report_run _ _ _ _ _ _ _ Hw) as (_ & Hlog).
  destruct (appends_render host args _ _ _ Hrest) as (evs & Hevs).
  rewrite Hevs, Hlog. apply in_or_app. left. apply in_or_app. right.
  left. reflexivity.
Qed.

Lemma main_return_cases (host : Host) (args : Args) (w w' : World) (n : Z) :
  main host args w = (Return n, w') ->
  (n = 1
   /\ exists w1,
       run_tests host args w = (Return tt, w1)
       /\ glob (fs w1) (coverage_dir host args) "sparkle-*.profraw" = []
       /\ w' = emit (Stderr no_profiles) w1)
  \/ (exists l f r w3 w4,
         measured host args w l f r w3
         /\ publish host args l f r w3 = (Return tt, w4)
         /\ n = (if below_threshold (threshold args) l then 1 else 0)
         /\ fs w' = fs w4
         /\ log w' = log w4 ++ (if below_threshold (threshold args) l
                                then [Stderr (violation l (threshold args))]
                                else [])
         /\ In (Fs (OpWriteText (resolve host (output args)) (report_text l f r)))
               (log w')).
Proof.
  unfold main. intros H.
  apply bind_inv in H as ([] & w1 & Ht & H).
  unfold ask at 1 in H. unfold bind at 1 in H. cbv beta iota in H.
  destruct (glob (fs w1) (coverage_dir host args) "sparkle-*.profraw")
    as [|file files] eqn:Hglob.
  - left. injection H as <- <-. split; [reflexivity|].
    exists w1. repeat split; assumption.
  - right.
    apply bind_inv in H as ([] & w2 & Hm & H).
    apply bind_inv in H as ([[l f] r] & w3 & Hx & H).
    apply bind_inv in H as ([] & w4 & Hp & H).
    rewrite threshold_gate_run in H.
    exists l, f, r, w3, w4.
    split.
    { exists w2. split; [|exact Hx]. exists w1. rewrite Hglob.
      split; [exact Ht|]. split; [discriminate | exact Hm]. }
    split; [exact Hp|].
    pose proof (publish_written _ _ _ _ _ _ _ Hp) as Hin.
    destruct (below_threshold (threshold args) l); injection H as <- <-.
    + repeat split. cbn [emit log]. apply in_or_app. left. exact Hin.
    + repeat split; [rewrite app_nil_r; reflexivity | exact Hin].
Qed.


(** X9. A run whose [main] returns 0 went through every stage: the
    percentages were measured, the text report with those percentages was
    written, the optional HTML stage returned, the line coverage is not
    below the threshold, and the line coverage was printed. *)
Theorem success_means_report_written_and_threshold_met (host : Host)
    (args : Args) (w w' : World) :
  main host args w = (Return 0, w') ->
  exists l f r w3 w4,
    measured host args w l f r w3
    /\ publish host args l f r w3 = (Return tt, w4)
    /\ w' = w4
    /\ below_threshold (threshold args) l = false
    /\ In (Fs (OpWriteText (resolve host (output args)) (report_text l f r)))
          (log w')
    /\ In (Stdout ("[coverage] Line coverage    : " +:+ PyFloat.fmt2 l +:+ "%"))
          (log w').
Proof.
  intros Hmain.
  destruct (main_return_cases _ _ _ _ _ Hmain)
    as [[Hn _]|(l & f & r & w3 & w4 & Hm & Hp & Hn & Hfs & Hlog & Hin)];
    [discriminate|].
  destruct (below_threshold (threshold args) l) eqn:Hb; [discriminate|].
  rewrite app_nil_r in Hlog.
  exists l, f, r, w3, w4. split; [exact Hm|]. split; [exact Hp|].
  split; [destruct w', w4; cbn in *; congruence|].
  split; [exact Hb|]. split; [exact Hin|].
  destruct Hm as (w2 & _ & Hx).
  unfold measure in Hx.
  apply bind_inv in Hx as (summary & wa & _ & Hx).
  apply bind_inv in Hx as (data_root & wb & _ & Hx).
  apply bind_inv in Hx as (l' & wc & _ & Hx).
  apply bind_inv in Hx as (f' & wd & _ & Hx).
  apply bind_inv in Hx as (r' & we & _ & Hx).
  apply bind_inv in Hx as ([] & wf & Hpr & Hx).
  apply bind_inv in Hx as ([] & wg & Hpf & Hx).
  apply bind_inv in Hx as ([] & wh & Hprr & Hx).
  injection Hx as -> -> -> <-.
  injection Hpr as <-. injection Hpf as <-. injection Hprr as <-.
  unfold publish in Hp.
  assert (Happ : appends (publish host args l f r)).
  { unfold publish. apply appends_bind;
      [unfold _write_report; apply appends_fs_do | intros _; apply appends_render]. }
  destruct (Happ _ _ _ Hp) as (evs & Hevs).
  rewrite Hlog, Hevs. cbn [emit log].
  apply in_or_app. left. apply in_or_app. left. apply in_or_app. left.
  apply in_or_app. right. left. reflexivity.
Qed.

(** ** Removing and creating directories *)

Lemma rmtree_spec (t t' : tree) (d : path) :
  rmtree t d = inr t' ->
  lookup_node t d = Some Dir
  /\ forall q, t' !! q = if decide (d `prefix_of` q) then None else t !! q.
Proof.
  unfold rmtree. destruct (lookup_node t d) as [[c|]|]; try discriminate.
  intros [= <-]. split; [reflexivity|]. intros q.
  destruct (decide (d `prefix_of` q)) as [Hp|Hp].
  - apply map_lookup_filter_None. right. intros x _ Hn. apply Hn. exact Hp.
  - destruct (t !! q) as [x|] eqn:Hq.
    + apply map_lookup_filter_Some. split; [exact Hq | exact Hp].
    + apply map_lookup_filter_None. left. exact Hq.
Qed.

Lemma mkdir_from_spec (todo : list string) :
  forall (t t' : tree) (above : path),
    mkdir_from t above todo = inr t' ->
    (forall k, k <> [] -> k `prefix_of` todo -> t' !! (above ++ k) = Some Dir)
    /\ (forall q, (forall k, k <> [] -> k `prefix_of` todo -> q <> above ++ k) ->
                  t' !! q = t !! q).
Proof.
  induction todo as [|n todo IH]; intros t t' above; cbn [mkdir_from].
  - intros [= <-]. split; [|reflexivity].
    intros k Hk Hp. apply prefix_nil_inv in Hp. contradiction.
  - assert (Hstep : forall t1,
               t1 !! (above ++ [n]) = Some Dir ->
               (forall q, q <> above ++ [n] -> t1 !! q = t !! q) ->
               mkdir_from t1 (above ++ [n]) todo = inr t' ->
               (forall k, k <> [] -> k `prefix_of` n :: todo ->
                          t' !! (above ++ k) = Some Dir)
               /\ (forall q, (forall k, k <> [] -> k `prefix_of` n :: todo ->
                                        q <> above ++ k) ->
                             t' !! q = t !! q)).
    { intros t1 Hd Hsame Hrec.
      destruct (IH _ _ _ Hrec) as (Hdirs & Hrest). split.
      - intros k Hk Hp. destruct k as [|x k]; [congruence|].
        pose proof (prefix_cons_inv_1 _ _ _ _ Hp) as ->.
        apply prefix_cons_inv_2 in Hp.
        destruct k as [|y k].
        + rewrite Hrest; [exact Hd|].
          intros k' Hk' _ Heq.
          apply (f_equal length) in Heq. rewrite !length_app in Heq.
          destruct k'; [congruence | cbn in Heq; lia].
        + replace (above ++ n :: y :: k) with ((above ++ [n]) ++ y :: k)
            by (rewrite <- app_assoc; reflexivity).
          apply Hdirs; [discriminate | exact Hp].
      - intros q Hq. rewrite Hrest.
        + apply Hsame. apply (Hq [n]); [discriminate|].
          apply prefix_cons, prefix_nil.
        + intros k Hk Hp ->. apply (Hq (n :: k)); [discriminate| |].
          * apply prefix_cons. exact Hp.
          * rewrite <- app_assoc. reflexivity. }
    destruct (t !! (above ++ [n])) as [[c|]|] eqn:Hl; [discriminate| |].
    + apply Hstep; [exact Hl | reflexivity].
    + apply Hstep; [apply lookup_insert_eq|].
      intros q Hq. apply lookup_insert_ne. congruence.
Qed.

Lemma mkdir_p_spec (t t' : tree) (p : path) :
  mkdir_p t p = inr t' ->
  (forall k, k <> [] -> k `prefix_of` p -> t' !! k = Some Dir)
  /\ (forall q, ~ (q <> [] /\ q `prefix_of` p) -> t' !! q = t !! q).
Proof.
  unfold mkdir_p. intros H.
  destruct (mkdir_from_spec _ _ _ _ H) as (Hdirs & Hrest). split.
  - exact Hdirs.
  - intros q Hq. apply Hrest. intros k Hk Hp ->. apply Hq. split; assumption.
Qed.

Lemma fs_do_success (host : Host) (op : fs_op) (w w' : World) :
  fs_do host op w = (Return tt, w') ->
  apply_op op (fs w) = inr (fs w') /\ log w' = log w ++ [Fs op].
Proof.
  unfold fs_do. cbv beta iota zeta delta [emit]. cbn [fs log].
  destruct (refuses host op (fs w)); [discriminate|].
  destruct (apply_op op (fs w)); [discriminate|].
  intros [= <-]. split; reflexivity.
Qed.

Lemma well_formed_below (t : tree) (d q : path) :
  well_formed t -> d <> [] -> q <> [] -> t !! d = None -> t !! (d ++ q) = None.
Proof.
  intros Hwf Hd Hq Hnone.
  destruct (t !! (d ++ q)) as [x|] eqn:Hl; [|reflexivity].
  rewrite (Hwf d q Hd Hq) in Hnone by (rewrite Hl; eauto). discriminate.
Qed.

Lemma recreate_dir_spec (host : Host) (d : path) (w w' : World) :
  well_formed (fs w) ->
  d <> [] ->
  recreate_dir host d w = (Return tt, w') ->
  fs w' !! d = Some Dir
  /\ (forall q, q <> [] -> fs w' !! (d ++ q) = None)
  /\ (forall q, ~ d `prefix_of` q -> ~ q `prefix_of` d -> fs w' !! q = fs w !! q)
  /\ (forall q, q <> [] -> q `prefix_of` d -> fs w' !! q = Some Dir)
  /\ exists evs, log w' = log w ++ evs.
Proof.
  intros Hwf Hd. unfold recreate_dir. intros H.
  apply bind_inv in H as (present & w0 & Hask & H).
  injection Hask as <- <-.
  apply bind_inv in H as ([] & w1 & Hrm & Hmk).
  apply fs_do_success in Hmk as (Hmk & Hlog1). cbn [apply_op] in Hmk.
  destruct (mkdir_p_spec _ _ _ Hmk) as (Hdirs & Hrest).
  assert (Hlong : forall q, q <> [] -> ~ (d ++ q) `prefix_of` d).
  { intros q Hq Hp. apply prefix_length in Hp. rewrite length_app in Hp.
    destruct q; [congruence | cbn in Hp; lia]. }
  assert (Hw1 : (forall q, q <> [] -> fs w1 !! (d ++ q) = None)
                /\ (forall q, ~ d `prefix_of` q -> fs w1 !! q = fs w !! q)
                /\ exists evs, log w1 = log w ++ evs).
  { unfold exists_, lookup_node in Hrm.
    destruct d as [|n d']; [congruence|].
    destruct (fs w !! (n :: d')) as [nd|] eqn:Hl.
    - apply fs_do_success in Hrm as (Hrm & Hlog). cbn [apply_op] in Hrm.
      destruct (rmtree_spec _ _ _ Hrm) as (_ & Hlook).
      split; [|split].
      + intros q _. rewrite Hlook. rewrite decide_True; [reflexivity|].
        apply prefix_app_r. reflexivity.
      + intros q Hq. rewrite Hlook. rewrite decide_False by exact Hq. reflexivity.
      + eexists. exact Hlog.
    - injection Hrm as <-. split; [|split].
      + intros q Hq. apply well_formed_below; [exact Hwf | discriminate | exact Hq | exact Hl].
      + reflexivity.
      + exists []. symmetry. apply app_nil_r. }
  destruct Hw1 as (Hbelow & Hother & (evs & Hevs)).
  split; [apply Hdirs; [exact Hd | reflexivity]|].
  split.
  { intros q Hq. rewrite Hrest; [apply Hbelow; exact Hq|].
    intros [_ Hp]. exact (Hlong q Hq Hp). }
  split.
  { intros q Hnp Hnq. rewrite Hrest; [apply Hother; exact Hnp|].
    intros [_ Hp]. exact (Hnq Hp). }
  split; [exact Hdirs|].
  exists (evs ++ [Fs (OpMkdir d)]). rewrite Hlog1, Hevs, app_assoc. reflexivity.
Qed.

(** ** The HTML report *)

Lemma generate_html_report_steps (host : Host) (llvm_cov binary : path)
    (libs : list path) (profdata : path) (ignore_patterns : list string)
    (output_dir : path) (project_name : string) (w : World) :
  let command := show_command llvm_cov binary libs profdata ignore_patterns
                   output_dir project_name in
  _generate_html_report host llvm_cov binary libs profdata ignore_patterns
    output_dir project_name w
  = (recreate_dir host output_dir ;;
     print ("[coverage] " +:+ PyStr.join " " command) ;;
     run_captured host command "[coverage] llvm-cov show failed." ;;
     ret tt) w.
Proof.
  intros command. unfold _generate_html_report, recreate_dir.
  cbv beta iota zeta delta [bind ask ret].
  destruct (exists_ (fs w) output_dir).
  - destruct (fs_do host (OpRmtree output_dir) w) as [[[]|e] w1]; [|reflexivity].
    destruct (fs_do host (OpMkdir output_dir) w1) as [[[]|e] w2]; reflexivity.
  - destruct (fs_do host (OpMkdir output_dir) w) as [[[]|e] w2]; reflexivity.
Qed.

Lemma run_captured_tree (host : Host) (command : list string) (failed : string)
    (w : World) :
  fs (snd (run_captured host command failed w))
  = snd (spawn host command None (os_environ host) (fs w)).
Proof.
  unfold run_captured, subprocess_run.
  cbv beta iota zeta delta [try_except emit]. cbn [fs log default from_option id].
  destruct (spawn host command None (os_environ host) (fs w))
    as [[rc out err|msg] t]; [|reflexivity].
  destruct (rc =? 0); [reflexivity|].
  cbv beta iota zeta delta [bind print_err emit]. cbn [fs log default from_option id].
  destruct (PyStr.truthy out), (PyStr.truthy err);
    cbv beta iota zeta delta [bind print_err emit ret raise]; reflexivity.
Qed.

(** X10. [_generate_html_report] removes and recreates the output
    directory first.  If that fails, the exception is the report's and the
    tool is not started.  Otherwise, in a tree whose entries lie in
    directories, [llvm-cov show] starts in a tree where the output directory
    is an empty directory and entries neither below nor above it are as
    before; the tree after the report is the one the tool left. *)
Theorem html_directory_is_emptied_before_the_tool_runs (host : Host)
    (llvm_cov binary : path) (libs : list path) (profdata : path)
    (ignore_patterns : list string) (output_dir : path) (project_name : string)
    (w : World) :
  let command := show_command llvm_cov binary libs profdata ignore_patterns
                   output_dir project_name in
  let report := _generate_html_report host llvm_cov binary libs profdata
                  ignore_patterns output_dir project_name in
  (forall (e : exn) (w5 : World),
      recreate_dir host output_dir w = (Raise e, w5) ->
      report w = (Raise e, w5))
  /\ (forall w5 : World,
        well_formed (fs w) ->
        output_dir <> [] ->
        recreate_dir host output_dir w = (Return tt, w5) ->
        fs w5 !! output_dir = Some Dir
        /\ (forall q, q <> [] -> fs w5 !! (output_dir ++ q) = None)
        /\ (forall q, ~ output_dir `prefix_of` q -> ~ q `prefix_of` output_dir ->
                      fs w5 !! q = fs w !! q)
        /\ fs (snd (report w))
           = snd (spawn host command None (os_environ host) (fs w5))).
Proof.
  intros command report. split.
  - intros e w5 Hre. unfold report. rewrite generate_html_report_steps.
    apply bind_Raise. exact Hre.
  - intros w5 Hwf Hd Hre.
    destruct (recreate_dir_spec _ _ _ _ Hwf Hd Hre) as (Hdir & Hbelow & Hother & _).
    split; [exact Hdir|]. split; [exact Hbelow|]. split; [exact Hother|].
    unfold report. rewrite generate_html_report_steps. cbv zeta. fold command.
    rewrite (bind_Return _ _ _ _ _ Hre).
    unfold bind at 1. unfold print at 1. cbv beta iota.
    pose proof (run_captured_tree host command "[coverage] llvm-cov show failed."
                  (emit (Stdout ("[coverage] " +:+ PyStr.join " " command)) w5))
      as Htree.
    cbn [emit fs] in Htree. rewrite <- Htree.
    unfold bind, ret.
    destruct (run_captured host command "[coverage] llvm-cov show failed." _)
      as [[c|e] w6]; reflexivity.
Qed.


(** ** Copying a directory tree *)

Lemma graft_copies (t : tree) (src dst : path) (base : tree)
    (rest : path) (nd : node) :
  rest <> [] ->
  t !! (src ++ rest) = Some nd ->
  graft t src dst base !! (dst ++ rest) = Some nd.
Proof.
  intros Hrest Hl. unfold graft.
  apply elem_of_map_to_list in Hl.
  pose proof (NoDup_fst_map_to_list t) as Hnd.
  induction (map_to_list t) as [|[k x] l IH]; [inversion Hl|].
  cbn [fold_right fst snd]. cbn [fmap list_fmap] in Hnd.
  apply NoDup_cons in Hnd as [Hk Hnd].
  apply elem_of_cons in Hl as [[= <- <-]|Hl].
  - rewrite bool_decide_eq_true_2.
    + rewrite drop_app_length. apply lookup_insert_eq.
    + split; [apply prefix_app_r; reflexivity|].
      intros Heq. apply (f_equal length) in Heq. rewrite length_app in Heq.
      destruct rest; [congruence | cbn in Heq; lia].
  - case_bool_decide as Hc; [|apply IH; assumption].
    destruct Hc as [[r1 ->] _]. rewrite drop_app_length.
    rewrite lookup_insert_ne; [apply IH; assumption|].
    intros Heq. apply app_inv_head in Heq. subst r1.
    apply Hk. apply list_elem_of_fmap. exists (src ++ rest, nd). split; [reflexivity | exact Hl].
Qed.

Lemma graft_keeps (t : tree) (src dst : path) (base : tree) (k : path) :
  (forall rest, rest <> [] -> k = dst ++ rest -> t !! (src ++ rest) = None) ->
  graft t src dst base !! k = base !! k.
Proof.
  intros Hk. unfold graft.
  assert (Hl : forall kv, kv ∈ map_to_list t -> t !! kv.1 = Some kv.2).
  { intros [q x] Hin. apply elem_of_map_to_list. exact Hin. }
  induction (map_to_list t) as [|[q x] l IH]; [reflexivity|].
  cbn [fold_right fst snd].
  assert (IH' : fold_right
                  (fun (kv : path * node) acc =>
                     if bool_decide (src `prefix_of` kv.1 ∧ kv.1 ≠ src)
                     then <[dst ++ drop (length src) kv.1 := kv.2]> acc
                     else acc) base l !! k = base !! k).
  { apply IH. intros kv Hin. apply Hl. apply elem_of_cons. right. exact Hin. }
  case_bool_decide as Hc; [|exact IH'].
  destruct Hc as [[r1 ->] Hne]. rewrite drop_app_length.
  rewrite lookup_insert_ne; [exact IH'|].
  intros <-.
  assert (Hr1 : r1 <> []) by (intros ->; apply Hne; apply app_nil_r).
  specialize (Hk r1 Hr1 eq_refl).
  specialize (Hl (src ++ r1, x) ltac:(apply elem_of_cons; left; reflexivity)).
  cbn in Hl. congruence.
Qed.

Lemma prefix_snoc_inv (l k : path) (x : string) :
  l `prefix_of` k ++ [x] -> l `prefix_of` k \/ l = k ++ [x].
Proof.
  intros [r Hr]. destruct r as [|y r _] using rev_ind.
  - right. rewrite app_nil_r in Hr. congruence.
  - left. rewrite app_assoc in Hr. apply app_inj_tail in Hr as [-> _].
    apply prefix_app_r. reflexivity.
Qed.

Lemma unrelated_below (html_dir docs_dir q : path) :
  ~ html_dir `prefix_of` docs_dir ->
  ~ docs_dir `prefix_of` html_dir ->
  html_dir `prefix_of` q ->
  ~ docs_dir `prefix_of` q /\ ~ q `prefix_of` docs_dir.
Proof.
  intros Hhd Hdh Hq. split.
  - intros Hdq. destruct (prefix_weak_total _ _ _ Hq Hdq); contradiction.
  - intros Hqd. apply Hhd. etransitivity; eassumption.
Qed.

Lemma longer_not_prefix (p q : path) : q <> [] -> ~ (p ++ q) `prefix_of` p.
Proof.
  intros Hq Hp. apply prefix_length in Hp. rewrite length_app in Hp.
  destruct q; [congruence | cbn in Hp; lia].
Qed.

Lemma app_cons_snoc (p : path) (n : string) (rest : path) :
  p ++ n :: rest = (p ++ [n]) ++ rest.
Proof. rewrite <- app_assoc. reflexivity. Qed.

Lemma lookup_node_below_root (t : tree) (p : path) :
  p <> [] -> lookup_node t p = t !! p.
Proof. destruct p; [congruence | reflexivity]. Qed.

Lemma write_bytes_below_root (t : tree) (p : path) (content : string) :
  p <> [] ->
  write_bytes t p content
  = if is_dir t (parent p)
    then match t !! p with
         | Some Dir => inl "Is a directory"
         | _ => inr (<[p := File content]> t)
         end
    else inl "No such file or directory".
Proof. destruct p; [congruence | reflexivity]. Qed.

Section Mirror.

Context (host : Host) (t0 : tree) (html_dir docs_dir : path).
Hypothesis wf : well_formed t0.
Hypothesis html_not_above : ~ html_dir `prefix_of` docs_dir.
Hypothesis docs_not_above : ~ docs_dir `prefix_of` html_dir.

Lemma docs_dir_not_root : docs_dir <> [].
Proof. intros ->. apply docs_not_above. apply prefix_nil. Qed.

Lemma html_dir_not_root : html_dir <> [].
Proof. intros ->. apply html_not_above. apply prefix_nil. Qed.

Lemma target_not_in_html (n : string) (rest q : path) :
  html_dir `prefix_of` q -> q <> docs_dir ++ n :: rest.
Proof.
  intros Hq ->.
  destruct (unrelated_below _ _ _ html_not_above docs_not_above Hq) as [H _].
  apply H. apply prefix_app_r. reflexivity.
Qed.

Lemma html_not_above_target (n : string) (q : path) :
  html_dir `prefix_of` q -> ~ q `prefix_of` docs_dir ++ [n].
Proof.
  intros Hq Hp. apply prefix_snoc_inv in Hp as [Hp| ->].
  - apply html_not_above. etransitivity; eassumption.
  - exact (target_not_in_html n [] _ Hq eq_refl).
Qed.

(** One turn of the loop keeps the mirror and adds the entry. *)
Lemma copy_item_mirrors (names : string -> Prop) (n : string) (w w1 : World) :
  mirrored t0 html_dir docs_dir names (fs w) ->
  ~ names n ->
  is_Some (t0 !! (html_dir ++ [n])) ->
  copy_item host docs_dir (html_dir ++ [n]) w = (Return tt, w1) ->
  mirrored t0 html_dir docs_dir (fun m => names m \/ m = n) (fs w1).
Proof.
  intros (I1 & I2 & I3 & I4) Hn [nd Hnd] Hrun.
  pose proof docs_dir_not_root as Hdocs.
  remember (html_dir ++ [n]) as item eqn:Hitem_def.
  remember (docs_dir ++ [n]) as target eqn:Htarget_def.
  assert (Hitem : fs w !! item = Some nd).
  { rewrite I1; [exact Hnd | subst item; apply prefix_app_r; reflexivity]. }
  assert (Htarget : fs w !! target = None) by (subst target; apply (I4 n []); exact Hn).
  assert (Hitem_ne : item <> []) by (subst item; destruct html_dir; discriminate).
  assert (Htarget_ne : target <> []) by (subst target; destruct docs_dir; discriminate).
  unfold copy_item in Hrun. cbv zeta in Hrun.
  replace (child docs_dir (name item)) with target in Hrun
    by (subst item target; change (html_dir ++ [n]) with (child html_dir n);
        rewrite name_child; reflexivity).
  unfold ask at 1 in Hrun. unfold bind at 1 in Hrun. cbv beta iota in Hrun.
  assert (Hisdir : is_dir (fs w) item = match nd with Dir => true | File _ => false end).
  { unfold is_dir. rewrite lookup_node_below_root, Hitem by exact Hitem_ne.
    destruct nd; reflexivity. }
  rewrite Hisdir in Hrun.
  (* keys of the docs directory that belong to other entries *)
  assert (Hother : forall m rest, m <> n ->
            (forall r, docs_dir ++ m :: rest <> target ++ r)
            /\ ~ (docs_dir ++ m :: rest) `prefix_of` target).
  { intros m rest Hm. subst target. split.
    - intros r Heq. rewrite <- app_assoc in Heq.
      apply app_inv_head in Heq. injection Heq as Heq _. contradiction.
    - intros Hp. apply prefix_app_inv in Hp.
      apply prefix_cons_inv_1 in Hp. contradiction. }
  assert (Hdocs_target : docs_dir <> target).
  { subst target. intros Heq. apply (longer_not_prefix docs_dir [n]); [discriminate|].
    rewrite <- Heq. reflexivity. }
  assert (Hin_html : forall q, html_dir `prefix_of` q -> q <> target).
  { intros q Hq. subst target. exact (target_not_in_html n [] q Hq). }
  destruct nd as [content|].
  - (* a file: copy2 *)
    apply fs_do_success in Hrun as (Hop & _). cbn [apply_op] in Hop.
    unfold copy2 in Hop.
    rewrite lookup_node_below_root, Hitem in Hop by exact Hitem_ne.
    assert (Hnotdir : is_dir (fs w) target = false).
    { unfold is_dir. rewrite lookup_node_below_root, Htarget by exact Htarget_ne.
      reflexivity. }
    rewrite Hnotdir, write_bytes_below_root in Hop by exact Htarget_ne.
    assert (Hparent : is_dir (fs w) (parent target) = true).
    { subst target. change (docs_dir ++ [n]) with (child docs_dir n).
      rewrite parent_child. unfold is_dir.
      rewrite lookup_node_below_root, I2 by exact Hdocs. reflexivity. }
    rewrite Hparent, Htarget in Hop. injection Hop as Hfs.
    rewrite <- Hfs. clear Hfs.
    split; [|split; [|split]].
    + intros q Hq. rewrite lookup_insert_ne; [apply I1; exact Hq|].
      intros Heq. exact (Hin_html q Hq (eq_sym Heq)).
    + rewrite lookup_insert_ne; [exact I2 | congruence].
    + intros m rest [Hm | ->].
      * destruct (decide (m = n)) as [->|Hmn]; [contradiction|].
        rewrite lookup_insert_ne; [apply I3; exact Hm|].
        intros Heq. apply (proj1 (Hother m rest Hmn) []).
        rewrite app_nil_r. symmetry. exact Heq.
      * destruct rest as [|r rest].
        -- rewrite <- Htarget_def, <- Hitem_def, lookup_insert_eq.
           symmetry. exact Hnd.
        -- rewrite lookup_insert_ne.
           ++ rewrite (I4 n (r :: rest) Hn). symmetry.
              destruct (t0 !! (html_dir ++ n :: r :: rest)) as [x|] eqn:Hx;
                [|reflexivity].
              rewrite app_cons_snoc, <- Hitem_def in Hx.
              rewrite (wf item (r :: rest)) in Hnd.
              ** discriminate.
              ** exact Hitem_ne.
              ** discriminate.
              ** rewrite Hx. eauto.
           ++ subst target. intros Heq. apply app_inv_head in Heq. discriminate.
    + intros m rest Hm.
      assert (Hmn : m <> n) by (intros ->; apply Hm; right; reflexivity).
      rewrite lookup_insert_ne; [apply I4; intros Hp; apply Hm; left; exact Hp|].
      intros Heq. apply (proj1 (Hother m rest Hmn) []).
      rewrite app_nil_r. symmetry. exact Heq.
  - (* a directory: copytree *)
    apply fs_do_success in Hrun as (Hop & _). cbn [apply_op] in Hop.
    unfold copytree in Hop. rewrite Hisdir in Hop.
    assert (Hex : exists_ (fs w) target = false).
    { unfold exists_. rewrite lookup_node_below_root, Htarget by exact Htarget_ne.
      reflexivity. }
    rewrite Hex in Hop.
    destruct (mkdir_p (fs w) target) as [msg|t1] eqn:Hmk; [discriminate|].
    injection Hop as Hfs.
    destruct (mkdir_p_spec _ _ _ Hmk) as (Hdirs & Hrest).
    rewrite <- Hfs. clear Hfs.
    split; [|split; [|split]].
    + intros q Hq. rewrite graft_keeps.
      * rewrite Hrest; [apply I1; exact Hq|].
        intros [_ Hp]. subst target. exact (html_not_above_target n q Hq Hp).
      * intros rest _ Heq. exfalso. subst target.
        rewrite <- app_assoc in Heq. exact (target_not_in_html n rest q Hq Heq).
    + rewrite graft_keeps.
      * apply Hdirs; [exact Hdocs | subst target; apply prefix_app_r; reflexivity].
      * intros rest Hr Heq. exfalso. subst target.
        rewrite <- app_assoc in Heq.
        rewrite <- (app_nil_r docs_dir) in Heq at 1.
        apply app_inv_head in Heq. discriminate.
    + intros m rest [Hm | ->].
      * destruct (decide (m = n)) as [->|Hmn]; [contradiction|].
        destruct (Hother m rest Hmn) as (Hne & Hnp).
        rewrite graft_keeps.
        -- rewrite Hrest; [apply I3; exact Hm | intros [_ Hp]; exact (Hnp Hp)].
        -- intros r _ Heq. exfalso. exact (Hne r Heq).
      * destruct rest as [|r rest].
        -- rewrite <- Htarget_def, <- Hitem_def. rewrite graft_keeps.
           ++ rewrite (Hdirs target Htarget_ne) by reflexivity.
              symmetry. exact Hnd.
           ++ intros r Hr Heq. exfalso.
              rewrite <- (app_nil_r target) in Heq at 1.
              apply app_inv_head in Heq. congruence.
        -- rewrite (app_cons_snoc docs_dir), (app_cons_snoc html_dir).
           rewrite <- Htarget_def, <- Hitem_def.
           assert (Hsub : html_dir `prefix_of` item ++ r :: rest).
           { subst item. rewrite <- app_assoc. apply prefix_app_r. reflexivity. }
           destruct (t0 !! (item ++ r :: rest)) as [x|] eqn:Hx.
           ++ apply graft_copies; [discriminate|].
              rewrite I1; [exact Hx | exact Hsub].
           ++ rewrite graft_keeps.
              ** rewrite Hrest.
                 --- subst target. rewrite <- app_cons_snoc. apply I4. exact Hn.
                 --- intros [_ Hp].
                     apply (longer_not_prefix target (r :: rest)); [discriminate | exact Hp].
              ** intros r' _ Heq. apply app_inv_head in Heq. subst r'.
                 rewrite I1; [exact Hx | exact Hsub].
    + intros m rest Hm.
      assert (Hmn : m <> n) by (intros ->; apply Hm; right; reflexivity).
      destruct (Hother m rest Hmn) as (Hne & Hnp).
      rewrite graft_keeps.
      * rewrite Hrest; [|intros [_ Hp]; exact (Hnp Hp)].
        apply I4. intros Hp. apply Hm. left. exact Hp.
      * intros r _ Heq. exfalso. exact (Hne r Heq).
Qed.

Lemma mirrored_ext (names names' : string -> Prop) (t : tree) :
  (forall n, names n <-> names' n) ->
  mirrored t0 html_dir docs_dir names t ->
  mirrored t0 html_dir docs_dir names' t.
Proof.
  intros Heq (I1 & I2 & I3 & I4). split; [exact I1|]. split; [exact I2|]. split.
  - intros n rest Hn. apply I3, Heq, Hn.
  - intros n rest Hn. apply I4. intros Hp. apply Hn, Heq, Hp.
Qed.

Lemma copy_loop_mirrors (items : list path) :
  forall (names : string -> Prop) (w w' : World),
    NoDup items ->
    (forall i, In i items ->
               exists n, i = html_dir ++ [n] /\ ~ names n /\ is_Some (t0 !! i)) ->
    mirrored t0 html_dir docs_dir names (fs w) ->
    for_each items (copy_item host docs_dir) w = (Return tt, w') ->
    mirrored t0 html_dir docs_dir
      (fun n => names n \/ In (html_dir ++ [n]) items) (fs w').
Proof.
  induction items as [|i items IH]; intros names w w' Hnd Hitems Hinv Hrun.
  - injection Hrun as <-. apply (mirrored_ext names); [|exact Hinv].
    intros n. cbn. tauto.
  - cbn [for_each] in Hrun. apply bind_inv in Hrun as ([] & w1 & Hstep & Hrun).
    apply NoDup_cons in Hnd as [Hi Hnd].
    destruct (Hitems i (or_introl eq_refl)) as (n & -> & Hn & Hsome).
    pose proof (copy_item_mirrors names n w w1 Hinv Hn Hsome Hstep) as Hinv1.
    apply (mirrored_ext (fun m => (names m \/ m = n)
                                 \/ In (html_dir ++ [m]) items)).
    + intros m. cbn [In]. split.
      * intros [[H| ->]|H]; auto.
      * intros [H|[H|H]]; auto.
        apply app_inv_head in H. injection H as ->. auto.
    + apply (IH _ w1 w' Hnd); [|exact Hinv1|exact Hrun].
      intros i' Hi'.
      destruct (Hitems i' (or_intror Hi')) as (n' & -> & Hn' & Hsome').
      exists n'. split; [reflexivity|]. split; [|exact Hsome'].
      intros [H| ->]; [contradiction|].
      apply Hi. apply list_elem_of_In. exact Hi'.
Qed.

End Mirror.

Lemma copy_docs_steps (host : Host) (html_dir docs_dir : path) (w : World) :
  copy_docs host html_dir docs_dir w
  = (recreate_dir host docs_dir ;;
     items <- iterdir html_dir ;;
     for_each items (copy_item host docs_dir) ;;
     print ("[coverage] Documentation copy stored at: "
            +:+ str_of_path docs_dir)) w.
Proof.
  unfold copy_docs, recreate_dir.
  cbv beta iota zeta delta [bind ask ret].
  destruct (exists_ (fs w) docs_dir).
  - destruct (fs_do host (OpRmtree docs_dir) w) as [[[]|e] w1]; [|reflexivity].
    destruct (fs_do host (OpMkdir docs_dir) w1) as [[[]|e] w2]; reflexivity.
  - destruct (fs_do host (OpMkdir docs_dir) w) as [[[]|e] w2]; reflexivity.
Qed.

(** The steps of a docs copy that returned. *)
Lemma copy_docs_inv (host : Host) (html_dir docs_dir : path) (w w' : World) :
  copy_docs host html_dir docs_dir w = (Return tt, w') ->
  exists w1 w2,
    recreate_dir host docs_dir w = (Return tt, w1)
    /\ for_each (listdir (fs w1) html_dir) (copy_item host docs_dir) w1
       = (Return tt, w2)
    /\ w' = emit (Stdout ("[coverage] Documentation copy stored at: "
                          +:+ str_of_path docs_dir)) w2.
Proof.
  intros Hrun. rewrite copy_docs_steps in Hrun.
  apply bind_inv in Hrun as ([] & w1 & Hre & Hrun).
  apply bind_inv in Hrun as (items & w1' & Hit & Hrun).
  apply bind_inv in Hrun as ([] & w2 & Hloop & Hprint).
  injection Hprint as <-.
  unfold iterdir in Hit.
  destruct (is_dir (fs w1) html_dir); [|discriminate].
  injection Hit as <- <-.
  exists w1, w2. split; [exact Hre|]. split; [exact Hloop | reflexivity].
Qed.

(** After the docs directory was made anew and the loop went over the
    entries of the HTML directory, the one mirrors the other. *)
Lemma copy_loop_result (host : Host) (html_dir docs_dir : path)
    (w w1 w2 : World) :
  well_formed (fs w) ->
  ~ html_dir `prefix_of` docs_dir ->
  ~ docs_dir `prefix_of` html_dir ->
  recreate_dir host docs_dir w = (Return tt, w1) ->
  for_each (listdir (fs w1) html_dir) (copy_item host docs_dir) w1
  = (Return tt, w2) ->
  mirrored (fs w) html_dir docs_dir (fun _ => True) (fs w2).
Proof.
  intros Hwf Hhd Hdh Hre Hloop.
  assert (Hdocs : docs_dir <> []) by (intros ->; apply Hdh; apply prefix_nil).
  assert (Hhtml : html_dir <> []) by (intros ->; apply Hhd; apply prefix_nil).
  destruct (recreate_dir_spec _ _ _ _ Hwf Hdocs Hre) as (Hdir & Hbelow & Hother & _).
  assert (Hsame : forall q, html_dir `prefix_of` q -> fs w1 !! q = fs w !! q).
  { intros q Hq.
    destruct (unrelated_below _ _ _ Hhd Hdh Hq) as [H1 H2]. apply Hother; assumption. }
  assert (Hinit : mirrored (fs w) html_dir docs_dir (fun _ => False) (fs w1)).
  { split; [exact Hsame|]. split; [exact Hdir|]. split; [intros n rest []|].
    intros n rest _. apply Hbelow. discriminate. }
  assert (Hitems : forall i, In i (listdir (fs w1) html_dir) ->
             exists n, i = html_dir ++ [n] /\ ~ False /\ is_Some (fs w !! i)).
  { intros i Hi. apply listdir_spec in Hi as (Hne & Hp & Hsome).
    exists (name i). split.
    - rewrite <- Hp. unfold parent, name. apply app_removelast_last. exact Hne.
    - split; [tauto|]. rewrite <- Hsame; [exact Hsome|].
      rewrite <- Hp. unfold parent.
      rewrite (app_removelast_last "" Hne) at 2. apply prefix_app_r. reflexivity. }
  destruct (copy_loop_mirrors host (fs w) html_dir docs_dir Hwf Hhd Hdh _ _ _ _
              (NoDup_listdir _ _) Hitems Hinit Hloop) as (I1 & I2 & I3 & I4).
  split; [exact I1|]. split; [exact I2|]. split; [|intros n rest []; exact I].
  intros n rest _.
  destruct (in_dec (fun x y : path => decide (x = y)) (html_dir ++ [n])
              (listdir (fs w1) html_dir)) as [Hin|Hnin].
  - apply I3. right. exact Hin.
  - rewrite I4 by tauto. symmetry.
    assert (Hnone : fs w !! (html_dir ++ [n]) = None).
    { destruct (fs w !! (html_dir ++ [n])) as [x|] eqn:Hx; [|reflexivity].
      exfalso. apply Hnin. apply listdir_spec.
      split; [destruct html_dir; discriminate|].
      split; [apply (parent_child html_dir n)|].
      rewrite Hsame by (apply prefix_app_r; reflexivity). rewrite Hx. eauto. }
    destruct rest as [|r rest]; [exact Hnone|].
    rewrite app_cons_snoc. apply well_formed_below; try assumption;
      [destruct html_dir; discriminate | discriminate].
Qed.

(** X12. When the HTML and the docs directories do not contain one
    another and the tree's entries lie in directories, a docs copy that
    returns leaves the docs directory a mirror of the HTML directory: an
    entry below the docs directory is what the entry at the same relative
    path below the HTML directory is (or is absent as it is), so what the
    docs directory held before is gone; the HTML directory is untouched. *)
Theorem docs_directory_mirrors_html_report (host : Host)
    (html_dir docs_dir : path) (w w' : World) :
  well_formed (fs w) ->
  ~ html_dir `prefix_of` docs_dir ->
  ~ docs_dir `prefix_of` html_dir ->
  copy_docs host html_dir docs_dir w = (Return tt, w') ->
  fs w' !! docs_dir = Some Dir
  /\ (forall n rest,
        fs w' !! (docs_dir ++ n :: rest) = fs w !! (html_dir ++ n :: rest))
  /\ (forall q, html_dir `prefix_of` q -> fs w' !! q = fs w !! q).
Proof.
  intros Hwf Hhd Hdh Hrun.
  destruct (copy_docs_inv _ _ _ _ _ Hrun) as (w1 & w2 & Hre & Hloop & ->).
  destruct (copy_loop_result _ _ _ _ _ _ Hwf Hhd Hdh Hre Hloop)
    as (Hhtml & Hdir & Hcopied & _).
  cbn [emit fs]. split; [exact Hdir|]. split; [|exact Hhtml].
  intros n rest. apply Hcopied. exact I.
Qed.

Lemma well_formed_b_sound (t : tree) : well_formed_b t = true -> well_formed t.
Proof.
  unfold well_formed_b. rewrite forallb_forall. intros Hall p q Hp Hq [x Hx].
  apply elem_of_map_to_list, list_elem_of_In in Hx.
  specialize (Hall _ Hx). cbn [fst] in Hall. rewrite forallb_forall in Hall.
  specialize (Hall (length p)).
  rewrite take_app_length in Hall.
  destruct (t !! p) as [[c|]|]; try reflexivity; exfalso;
    (assert (Hin : In (length p) (seq 1 (length (p ++ q) - 1)));
     [apply in_seq; rewrite length_app; destruct p, q; cbn; try congruence; lia
     | specialize (Hall Hin); discriminate]).
Qed.

Lemma docs_mirror_witness :
  let host := Demo.host [] 0 PyFloat.zero in
  let w := {| fs := tree2; log := [] |} in
  let w' := snd (copy_docs host ["w"; "html"] ["w"; "docs"] w) in
  fs w' !! ["w"; "docs"; "coverage"; "a.html"] = Some (File "<html>a</html>")
  /\ fs w' !! ["w"; "docs"; "gone.html"] = None.
Proof.
  intros host w w'.
  destruct (docs_directory_mirrors_html_report host ["w"; "html"] ["w"; "docs"] w w')
    as (_ & Hmirror & _).
  - apply well_formed_b_sound. vm_compute. reflexivity.
  - intros [k Hk]. discriminate Hk.
  - intros [k Hk]. discriminate Hk.
  - by_running.
  - split.
    + refine (eq_trans (Hmirror "coverage" ["a.html"]) _). vm_compute. reflexivity.
    + refine (eq_trans (Hmirror "gone.html" []) _). vm_compute. reflexivity.
Defined.

(** ** The gate comes last *)

(** A report that returned: the directory was made anew, then the tool
    ran, and the tree is the one the tool left. *)
Lemma generate_html_report_inv (host : Host) (llvm_cov binary : path)
    (libs : list path) (profdata : path) (ignore_patterns : list string)
    (output_dir : path) (project_name : string) (w w' : World) :
  let command := show_command llvm_cov binary libs profdata ignore_patterns
                   output_dir project_name in
  _generate_html_report host llvm_cov binary libs profdata ignore_patterns
    output_dir project_name w = (Return tt, w') ->
  exists w5 out err,
    recreate_dir host output_dir w = (Return tt, w5)
    /\ spawn host command None (os_environ host) (fs w5)
       = (Exited 0 out err, fs w')
    /\ log w' = log w5 ++ [ Stdout ("[coverage] " +:+ PyStr.join " " command);
                            Exec command None None true ].
Proof.
  intros command Hgen. rewrite generate_html_report_steps in Hgen.
  cbv zeta in Hgen. fold command in Hgen.
  apply bind_inv in Hgen as ([] & w5 & Hre & Hgen).
  apply bind_inv in Hgen as ([] & wp & Hprint & Hgen).
  assert (Hwp : wp = emit (Stdout ("[coverage] " +:+ PyStr.join " " command)) w5)
    by (unfold print in Hprint; congruence).
  subst wp. clear Hprint.
  apply bind_inv in Hgen as (c & w6 & Hrun & Hret).
  assert (Hw6 : w6 = w') by (unfold ret in Hret; congruence).
  subst w6. clear Hret.
  exists w5.
  unfold run_captured in Hrun. revert Hrun.
  cbv beta iota zeta delta [try_except subprocess_run emit]. cbn [fs log].
  destruct (spawn host command None (default (os_environ host) None) (fs w5))
    as [[rc out err|msg] t] eqn:Hsp; cbn [default from_option id] in Hsp.
  - destruct (rc =? 0) eqn:Hrc.
    + apply Z.eqb_eq in Hrc. subst rc. intros [= _ <-]. cbn [fs log].
      exists out, err. split; [exact Hre|]. split; [exact Hsp|].
      rewrite <- app_assoc. reflexivity.
    + cbv beta iota zeta delta [bind print_err emit ret raise].
      destruct (PyStr.truthy (default "" (Some out))),
               (PyStr.truthy (default "" (Some err))); discriminate.
  - discriminate.
Qed.

(** C10. The threshold test comes last.  When the coverage is below the
    threshold and the report stage went through, [main] returns 1 in the
    tree that stage left, adding only the violation message.  That tree
    holds what the stage made: the text report had been written with its
    full text (and without an HTML directory the tree is the one the
    writing left); with an HTML directory, the directory had been made anew
    and the tree is the one [llvm-cov show] left, or, with a docs directory
    too, that tree with the docs directory made a mirror of the HTML
    directory: every path below the docs directory holds what the same
    path below the HTML directory holds, the HTML directory being as the
    tool left it. *)
Theorem failing_gate_keeps_reports (host : Host) (args : Args)
    (w w3 w4 : World) (line_pct func_pct region_pct : PyFloat.float) :
  measured host args w line_pct func_pct region_pct w3 ->
  publish host args line_pct func_pct region_pct w3 = (Return tt, w4) ->
  below_threshold (threshold args) line_pct = true ->
  main host args w
  = (Return 1,
     {| fs := fs w4;
        log := log w4 ++ [Stderr (violation line_pct (threshold args))] |})
  /\ (exists wr evs,
         _write_report host (resolve host (output args))
           line_pct func_pct region_pct w3 = (Return tt, wr)
         /\ fs wr !! resolve host (output args)
            = Some (File (PyStr.encode_utf8
                            (report_text line_pct func_pct region_pct)))
         /\ log wr = log w3 ++ [Fs (OpWriteText (resolve host (output args))
                                      (report_text line_pct func_pct region_pct))]
         /\ log w4 = log wr ++ evs
         /\ (optional_dir host (html_dir args) = None -> fs w4 = fs wr))
  /\ (forall html_path : path,
        optional_dir host (html_dir args) = Some html_path ->
        let command :=
          show_command (resolve host (llvm_cov args))
            (resolve host (binary args)) (libraries host args)
            (profdata_path host args) (ignore_regex args)
            html_path (project_name args) in
        In (Exec command None None true) (log w4)
        /\ In (Stdout ("[coverage] HTML report generated at: "
                       +:+ str_of_path html_path)) (log w4)
        /\ (forall docs_path : path,
              optional_dir host (docs_dir args) = Some docs_path ->
              In (Stdout ("[coverage] Documentation copy stored at: "
                          +:+ str_of_path docs_path)) (log w4))
        /\ exists (wr w5 wh : World) (out err : string),
             _write_report host (resolve host (output args))
               line_pct func_pct region_pct w3 = (Return tt, wr)
             /\ recreate_dir host html_path wr = (Return tt, w5)
             /\ spawn host command None (os_environ host) (fs w5)
                = (Exited 0 out err, fs wh)
             /\ (optional_dir host (docs_dir args) = None -> fs w4 = fs wh)
             /\ (forall docs_path : path,
                   optional_dir host (docs_dir args) = Some docs_path ->
                   well_formed (fs wh) ->
                   ~ html_path `prefix_of` docs_path ->
                   ~ docs_path `prefix_of` html_path ->
                   fs w4 !! docs_path = Some Dir
                   /\ (forall n rest,
                         fs w4 !! (docs_path ++ n :: rest)
                         = fs wh !! (html_path ++ n :: rest))
                   /\ (forall q, html_path `prefix_of` q ->
                                 fs w4 !! q = fs wh !! q))).
Proof.
  intros Hm Hp Hbelow. split; [|split].
  - rewrite (main_after_measure _ _ _ _ _ _ _ Hm).
    rewrite (bind_Return _ _ _ _ _ Hp), threshold_gate_run, Hbelow.
    reflexivity.
  - unfold publish in Hp.
    apply bind_inv in Hp as ([] & wr & Hw & Hrest).
    destruct (write_report_run _ _ _ _ _ _ _ Hw) as (Hfs & Hlog).
    assert (Happ : appends (render host args)).
    { unfold render.
      destruct (optional_dir host (html_dir args)) as [hd|];
        destruct (optional_dir host (docs_dir args)) as [dd|];
        auto 8 with run_log. }
    destruct (Happ _ _ _ Hrest) as (evs & Hevs).
    exists wr, evs. split; [exact Hw|]. split; [rewrite Hfs; apply lookup_insert_eq|].
    split; [exact Hlog|]. split; [exact Hevs|].
    intros Hnone. unfold render in Hrest. rewrite Hnone in Hrest.
    destruct (optional_dir host (docs_dir args)) as [dd|].
    + unfold print_err in Hrest. injection Hrest as <-. reflexivity.
    + unfold ret in Hrest. injection Hrest as <-. reflexivity.
  - intros hd Hhd command. unfold publish in Hp.
    apply bind_inv in Hp as ([] & wr & Hw & Hrest).
    unfold render in Hrest. rewrite Hhd in Hrest.
    apply bind_inv in Hrest as ([] & wh & Hgen & Hrest).
    apply bind_inv in Hrest as ([] & wp & Hprint & Hrest).
    assert (Hwp : wp = emit (Stdout ("[coverage] HTML report generated at: "
                                     +:+ str_of_path hd)) wh)
      by (unfold print in Hprint; congruence).
    subst wp. clear Hprint.
    assert (Htail : exists evs, log w4 = log (emit (Stdout ("[coverage] HTML report generated at: " +:+ str_of_path hd)) wh) ++ evs).
    { destruct (optional_dir host (docs_dir args)) as [dd|].
      - exact (appends_copy_docs host hd dd _ _ _ Hrest).
      - exact (appends_ret tt _ _ _ Hrest). }
    destruct Htail as (evs & Hevs). cbn [emit log] in Hevs.
    split; [|split; [|split]].
    + rewrite Hevs. apply in_or_app. left. apply in_or_app. left.
      exact (generate_html_report_exec _ _ _ _ _ _ _ _ _ _ Hgen).
    + rewrite Hevs. apply in_or_app. left. apply in_or_app. right.
      left. reflexivity.
    + intros dd Hdd. rewrite Hdd in Hrest.
      exact (copy_docs_stored _ _ _ _ _ Hrest).
    + destruct (generate_html_report_inv _ _ _ _ _ _ _ _ _ _ Hgen)
        as (w5 & out & err & Hre & Hsp & _).
      exists wr, w5, wh, out, err.
      split; [exact Hw|]. split; [exact Hre|]. split; [exact Hsp|]. split.
      * intros Hnone. rewrite Hnone in Hrest.
        unfold ret in Hrest. injection Hrest as <-. reflexivity.
      * intros dd Hdd Hwf Hhdd Hddh. rewrite Hdd in Hrest.
        destruct (copy_docs_inv _ _ _ _ _ Hrest) as (w1 & w2 & Hre2 & Hloop & ->).
        cbn [emit fs] in Hre2, Hloop |- *.
        destruct (copy_loop_result host hd dd
                    (emit (Stdout ("[coverage] HTML report generated at: "
                                   +:+ str_of_path hd)) wh) w1 w2
                    Hwf Hhdd Hddh Hre2 Hloop)
          as (Hhtml & Hdir & Hcopied & _).
        cbn [emit fs] in Hhtml, Hdir, Hcopied.
        split; [exact Hdir|]. split; [|exact Hhtml].
        intros n rest. apply Hcopied. exact I.
Qed.

Lemma failing_gate_witness :
  let host := Demo.host ["sparkle-1.profraw"] 0 (PyFloat.literal 8499 2) in
  let args := Demo.args "Debug" (PyFloat.literal 850 1)
                (Some "/w/html") (Some "/w/docs") in
  let w4 := snd (publish host args (PyFloat.literal 8499 2) (PyFloat.of_Z 100)
                   (PyFloat.literal 12345 3) (Demo.measured_world host args)) in
  main host args Demo.world1
  = (Return 1,
     {| fs := fs w4;
        log := log w4 ++ [Stderr (violation (PyFloat.literal 8499 2)
                                    (threshold args))] |})
  /\ fs w4 !! ["w"; "docs"; "coverage"; "a.html"] = Some (File "<html>a</html>").
Proof.
  intros host args w4.
  destruct (failing_gate_keeps_reports host args Demo.world1
              (Demo.measured_world host args) w4
              (PyFloat.literal 8499 2) (PyFloat.of_Z 100)
              (PyFloat.literal 12345 3))
    as (Hmain & _ & Hhtml).
  - exists (Demo.merged_world host args). split.
    + exists (Demo.tested host args). split; [by_running|].
      split; [vm_compute; discriminate|].
      by_running.
    + by_running.
  - by_running.
  - vm_compute. reflexivity.
  - split; [exact Hmain|].
    destruct (Hhtml ["w"; "html"] eq_refl)
      as (_ & _ & _ & wr & w5 & wh & out & err & Hw & Hre & Hsp & _ & Hdocs).
    assert (Hwr : wr = snd (_write_report host (resolve host (output args))
                              (PyFloat.literal 8499 2) (PyFloat.of_Z 100)
                              (PyFloat.literal 12345 3)
                              (Demo.measured_world host args)))
      by (rewrite Hw; reflexivity).
    assert (Hw5 : w5 = snd (recreate_dir host ["w"; "html"] wr))
      by (rewrite Hre; reflexivity).
    assert (Hwh : fs wh
                  = snd (spawn host
                           (show_command (resolve host (llvm_cov args))
                              (resolve host (binary args)) (libraries host args)
                              (profdata_path host args) (ignore_regex args)
                              ["w"; "html"] (project_name args))
                           None (os_environ host) (fs w5)))
      by (rewrite Hsp; reflexivity).
    rewrite Hw5, Hwr in Hwh.
    destruct (Hdocs ["w"; "docs"] eq_refl) as (_ & Hmirror & _).
    + rewrite Hwh. apply well_formed_b_sound. vm_compute. reflexivity.
    + intros [k Hk]. discriminate Hk.
    + intros [k Hk]. discriminate Hk.
    + refine (eq_trans (Hmirror "coverage" ["a.html"]) _).
      rewrite Hwh. vm_compute. reflexivity.
Defined.

(** ** Runs on the example host *)

Lemma missing_test_runner_witness :
  let host := without_ctest (Demo.host ["sparkle-1.profraw"] 0 PyFloat.zero) in
  let args := Demo.args "Debug" PyFloat.zero None None in
  exit_status (fst (main host args Demo.world1)) = 1.
Proof.
  intros host args.
  refine (proj1 (proj2 (missing_test_runner_is_fatal host args Demo.world1
                          (snd (_clean_existing_profiles host (coverage_dir host args)
                                  "sparkle-*.profraw"
                                  (snd (fs_do host (OpMkdir (coverage_dir host args))
                                          Demo.world1)))) _ _))).
  - eexists. split; by_running.
  - reflexivity.
Defined.

Lemma failing_tests_witness :
  let host := with_tool (Demo.host ["sparkle-1.profraw"] 0 PyFloat.zero)
                0 "/usr/bin/ctest" (Exited 8 "" "") in
  let args := Demo.args "Debug" PyFloat.zero None None in
  exit_status (fst (main host args Demo.world1)) = 1.
Proof.
  intros host args.
  pose (w1 := snd (_clean_existing_profiles host (coverage_dir host args)
                     "sparkle-*.profraw"
                     (snd (fs_do host (OpMkdir (coverage_dir host args))
                             Demo.world1)))).
  refine (proj2 (failing_tests_abort_the_run host args Demo.world1 w1
                   "/usr/bin/ctest" 8 "" "" (fs w1) _ _ _ _ _)).
  - eexists. split; by_running.
  - reflexivity.
  - reflexivity.
  - reflexivity.
  - discriminate.
Defined.

Lemma merge_witness :
  let host := Demo.host ["sparkle-1.profraw"] 0 PyFloat.zero in
  let args := Demo.args "Debug" PyFloat.zero None None in
  let w := {| fs := <[["w"; "cov"; "sparkle.profdata"] := File "old"]>
                      (fs (Demo.tested host args));
              log := [] |} in
  let files := glob (fs w) (coverage_dir host args) "sparkle-*.profraw" in
  In (Exec (merge_command (resolve host (llvm_profdata args)) files
              (profdata_path host args)) None None false)
     (log (snd (merge_stage host args files w))).
Proof.
  intros host args w files.
  destruct (merge_starts_without_old_database host args files w
              (snd (merge_stage host args files w)) (Return tt))
    as [(msg & Hr & _)|(t0 & _ & _ & _ & _ & Hin)].
  - by_running.
  - discriminate Hr.
  - exact Hin.
Defined.

Lemma html_directory_witness :
  let host := Demo.host [] 0 PyFloat.zero in
  let w := {| fs := tree2; log := [] |} in
  let w5 := snd (recreate_dir host ["w"; "docs"] w) in
  fs w5 !! ["w"; "docs"; "gone.html"] = None
  /\ fs w5 !! ["w"; "html"; "index.html"] = fs w !! ["w"; "html"; "index.html"].
Proof.
  intros host w w5.
  destruct (proj2 (html_directory_is_emptied_before_the_tool_runs host
                     ["usr"; "bin"; "llvm-cov"] ["w"; "build"; "tests"] []
                     ["w"; "cov"; "sparkle.profdata"] [] ["w"; "docs"] "Sparkle" w)
              w5) as (_ & Hbelow & Hother & _).
  - apply well_formed_b_sound. vm_compute. reflexivity.
  - discriminate.
  - by_running.
  - split.
    + apply (Hbelow ["gone.html"]). discriminate.
    + apply Hother; intros [k Hk]; discriminate Hk.
Defined.


Lemma success_witness :
  let host := Demo.host ["sparkle-1.profraw"] 0 (PyFloat.of_Z 90) in
  let args := Demo.args "Debug" (PyFloat.literal 850 1) None None in
  exists l f r,
    below_threshold (threshold args) l = false
    /\ In (Fs (OpWriteText (resolve host (output args)) (report_text l f r)))
          (log (snd (main host args Demo.world1))).
Proof.
  intros host args.
  destruct (success_means_report_written_and_threshold_met host args Demo.world1
              (snd (main host args Demo.world1)))
    as (l & f & r & w3 & w4 & _ & _ & _ & Hb & Hin & _).
  - by_running.
  - exists l, f, r. split; assumption.
Defined.

(** ** Integer percentages *)

Lemma integer_percentages_checked :
  forallb
    (fun n : nat =>
       match Json.to_float (fun _ => None) (Json.Int (Z.of_nat n)) with
       | Return x =>
           String.eqb (PyFloat.fmt2 x) (PyFloat.dec (Z.of_nat n) +:+ ".00")
       | Raise _ => false
       end)
    (seq 0 101) = true.
Proof. vm_compute. reflexivity. Qed.

(** X13. A percentage that the summary gives as a JSON integer
    between 0 and 100 is accepted by [float] and is printed and written as
    that integer followed by [.00]. *)
Theorem integer_percentage_prints_with_zero_decimals (host : Host) (z : Z) :
  0 <= z <= 100 ->
  exists x,
    Json.to_float (float_of_str host) (Json.Int z) = Return x
    /\ PyFloat.fmt2 x = PyFloat.dec z +:+ ".00".
Proof.
  intros Hz.
  pose proof integer_percentages_checked as Hall.
  rewrite forallb_forall in Hall.
  specialize (Hall (Z.to_nat z)).
  rewrite Z2Nat.id in Hall by lia.
  assert (Hin : In (Z.to_nat z) (seq 0 101)) by (apply in_seq; lia).
  apply Hall in Hin.
  change (Json.to_float (fun _ => None) (Json.Int z))
    with (Json.to_float (float_of_str host) (Json.Int z)) in Hin.
  destruct (Json.to_float (float_of_str host) (Json.Int z)) as [x|e];
    [|discriminate].
  exists x. split; [reflexivity|]. apply String.eqb_eq. exact Hin.
Qed.

Lemma integer_percentage_witness :
  exists x,
    Json.to_float (fun _ => None) (Json.Int 100) = Return x
    /\ PyFloat.fmt2 x = "100.00".
Proof.
  apply (integer_percentage_prints_with_zero_decimals (Demo.host [] 0 PyFloat.zero) 100).
  lia.
Defined.

(** ** Whitespace around the configuration *)

Lemma lstrip_spaces (pre x : string) :
  all_chars PyStr.isspace pre = true -> PyStr.lstrip (pre +:+ x) = PyStr.lstrip x.
Proof.
  induction pre as [|c pre IH]; [reflexivity|]. cbn [all_chars].
  intros [Hc Hpre]%andb_prop. rewrite append_cons. cbn [PyStr.lstrip].
  rewrite Hc. exact (IH Hpre).
Qed.

Lemma rstrip_spaces (post : string) :
  all_chars PyStr.isspace post = true -> PyStr.rstrip post = "".
Proof.
  induction post as [|c post IH]; [reflexivity|]. cbn [all_chars].
  intros [Hc Hpost]%andb_prop. cbn [PyStr.rstrip]. rewrite (IH Hpost), Hc.
  reflexivity.
Qed.

Lemma rstrip_app_spaces (x post : string) :
  all_chars PyStr.isspace post = true ->
  PyStr.rstrip (x +:+ post) = PyStr.rstrip x.
Proof.
  intros Hpost. induction x as [|c x IH].
  - change ("" +:+ post) with post. rewrite (rstrip_spaces _ Hpost). reflexivity.
  - rewrite append_cons. cbn [PyStr.rstrip]. rewrite IH. reflexivity.
Qed.

Lemma strip_app_spaces (x post : string) :
  all_chars PyStr.isspace post = true ->
  PyStr.strip (x +:+ post) = PyStr.strip x.
Proof.
  intros Hpost. unfold PyStr.strip. induction x as [|c x IH].
  - change ("" +:+ post) with post.
    rewrite <- (append_nil_r post), (lstrip_spaces _ _ Hpost). reflexivity.
  - rewrite append_cons. cbn [PyStr.lstrip].
    destruct (PyStr.isspace c); [exact IH|].
    rewrite <- append_cons. apply rstrip_app_spaces. exact Hpost.
Qed.

(** X14. White space around the configuration name is dropped: a
    name padded with white space on either side gives the same [ctest]
    command line as the name itself. *)
Theorem surrounding_whitespace_does_not_matter (ctest config pre post : string) :
  all_chars PyStr.isspace pre = true ->
  all_chars PyStr.isspace post = true ->
  PyStr.strip (pre +:+ config +:+ post) = PyStr.strip config
  /\ ctest_command ctest (pre +:+ config +:+ post) = ctest_command ctest config.
Proof.
  intros Hpre Hpost.
  assert (Hs : PyStr.strip (pre +:+ config +:+ post) = PyStr.strip config).
  { unfold PyStr.strip. rewrite (lstrip_spaces _ _ Hpre).
    exact (strip_app_spaces config post Hpost). }
  split; [exact Hs|]. unfold ctest_command. rewrite Hs. reflexivity.
Qed.

Lemma surrounding_whitespace_witness :
  ctest_command "/usr/bin/ctest" (String "009" " " +:+ "Release" +:+ String "010" "")
  = ctest_command "/usr/bin/ctest" "Release".
Proof.
  apply (surrounding_whitespace_does_not_matter "/usr/bin/ctest" "Release"
           (String "009" " ") (String "010" "")); reflexivity.
Defined.

(** ** A failing merge *)

Lemma merge_stage_steps (host : Host) (args : Args) (files : list path)
    (w : World) :
  merge_stage host args files w
  = (clear_database host args ;;
     _merge_profiles host (resolve host (llvm_profdata args)) files
       (profdata_path host args)) w.
Proof.
  unfold merge_stage, clear_database.
  cbv beta iota zeta delta [bind ask ret].
  destruct (exists_ (fs w) (profdata_path host args)); [|reflexivity].
  destruct (fs_do host (OpUnlink (profdata_path host args)) w) as [[[]|e] w0];
    reflexivity.
Qed.

(** X15. When the tests passed and left raw profiles, the old
    database was cleared, and [llvm-profdata merge] ends with a status other
    than 0, [CalledProcessError] with that status leaves [main]: exit status
    1, the last events being the printed command line and the run of the
    merge over exactly the globbed profiles; no export, no report. *)
Theorem failing_merge_aborts_the_run (host : Host) (args : Args)
    (w w1 w1' : World) (rc : Z) (out err : string) (t : tree) :
  let files := glob (fs w1) (coverage_dir host args) "sparkle-*.profraw" in
  let command := merge_command (resolve host (llvm_profdata args)) files
                   (profdata_path host args) in
  run_tests host args w = (Return tt, w1) ->
  files <> [] ->
  clear_database host args w1 = (Return tt, w1') ->
  spawn host command None (os_environ host) (fs w1') = (Exited rc out err, t) ->
  rc <> 0 ->
  main host args w
  = (Raise (CalledProcessError rc command None None),
     {| fs := t;
        log := log w1' ++ [ Stdout ("[coverage] " +:+ PyStr.join " " command);
                            Exec command None None false ] |})
  /\ exit_status (fst (main host args w)) = 1.
Proof.
  intros files command Ht Hfiles Hclear Hsp Hrc.
  assert (Hmain : main host args w
                  = (Raise (CalledProcessError rc command None None),
                     {| fs := t;
                        log := log w1' ++ [ Stdout ("[coverage] " +:+ PyStr.join " " command);
                                            Exec command None None false ] |})).
  { assert (Hm : merge_stage host args files w1
                 = (Raise (CalledProcessError rc command None None),
                    {| fs := t;
                       log := log w1' ++ [ Stdout ("[coverage] " +:+ PyStr.join " " command);
                                           Exec command None None false ] |})).
    { rewrite merge_stage_steps. rewrite (bind_Return _ _ _ _ _ Hclear).
      unfold _merge_profiles.
      replace (([str_of_path (resolve host (llvm_profdata args)); "merge"; "-sparse"]
                ++ map str_of_path files)
               ++ ["-o"; str_of_path (profdata_path host args)])
        with command
        by (unfold command, merge_command; rewrite <- !app_assoc; reflexivity).
      apply bind_Raise.
      apply (run_failure host command None None w1' rc out err t Hsp Hrc). }
    unfold main. rewrite (bind_Return _ _ _ _ _ Ht).
    unfold ask at 1. unfold bind at 1. fold files.
    clearbody command. clearbody files.
    destruct files as [|f rest]; [congruence|].
    apply bind_Raise. exact Hm. }
  split; [exact Hmain|]. rewrite Hmain. reflexivity.
Qed.

Lemma failing_merge_witness :
  let host := with_tool (Demo.host ["sparkle-1.profraw"] 0 PyFloat.zero)
                1 "merge" (Exited 1 "" "error: no profile") in
  let args := Demo.args "Debug" PyFloat.zero None None in
  exit_status (fst (main host args Demo.world1)) = 1.
Proof.
  intros host args.
  pose (w1 := snd (run_tests host args Demo.world1)).
  refine (proj2 (failing_merge_aborts_the_run host args Demo.world1 w1
                   (snd (clear_database host args w1)) 1 "" "error: no profile"
                   (fs (snd (clear_database host args w1))) _ _ _ _ _)).
  - by_running.
  - vm_compute. discriminate.
  - by_running.
  - apply run_from_result. vm_compute. reflexivity.
  - discriminate.
Defined.
